(** * 5nLib data-access facade: cache-aside [get]/[set]/[fetch] over a
      lazily imported storage backend.

    The development embeds
      - [src/modules/adaptors/config.js]                 (module [Config]),
      - the cache service [FnRedisService], which the adapter imports as
        [./RedisService.js] ([unnamed/part_002])         (module [FnRedisService]),
      - the adapter [FnDatabaseAdapter], which the barrel file imports as
        [./modules/adaptors/FnDB.js] ([unnamed/part_001]) (module [FnDatabaseAdapter]),
      - [src/modules/adaptors/FnCache.js] and [src/index.js]
                                                         (module [FnCacheModule])
    as functions over an explicit world: the adapter's private field, the
    host's module map and the trace of calls made to the collaborators
    (the ioredis cluster client, the imported backend, the console). *)

From Stdlib Require Import ZArith List String Ascii Bool Lia DecimalString DecimalPos.
Import ListNotations.
Open Scope string_scope.

(* ================================================================== *)
(** ** JavaScript values                                               *)
(* ================================================================== *)

(** The values that travel through the facade.  Numbers are the integers
    (what keys, identifiers and TTLs are), taken exactly; strings are ASCII;
    an object is a plain object, given by the list of its own enumerable
    string-keyed data properties in the order [Object.keys] enumerates them.
    There are no arrays and no function-valued properties. *)
#[local] Set Warnings "-register-all".
Inductive JSValue : Type :=
| JUndefined
| JNull
| JBool (b : bool)
| JNum (n : Z)
| JStr (s : string)
| JObj (fields : list (string * JSValue)).

Inductive ErrorName : Type :=
| EError | ETypeError | EReferenceError | ESyntaxError
| EHost (name : string).      (* an error class of a collaborator's library *)

Record JsError : Type := mkError { err_name : ErrorName; err_message : string }.

(** The outcome of evaluating an expression or settling a promise. *)
Inductive Completion (A : Type) : Type :=
| Normal (a : A)
| Throw (e : JsError).
Arguments Normal {A} a.
Arguments Throw {A} e.

Module JS.

(** [ToBoolean]. *)
Definition truthy (v : JSValue) : bool :=
  match v with
  | JUndefined | JNull => false
  | JBool b => b
  | JNum n => negb (n =? 0)%Z
  | JStr s => negb (s =? EmptyString)
  | JObj _ => true
  end.

Definition truthy_str (s : string) : bool := negb (s =? EmptyString).

(** The [typeof] operator. *)
Definition typeof (v : JSValue) : string :=
  match v with
  | JUndefined => "undefined"
  | JNull | JObj _ => "object"
  | JBool _ => "boolean"
  | JNum _ => "number"
  | JStr _ => "string"
  end.

(** [Number::toString] in radix 10, on the integers. *)
Definition number_to_string (n : Z) : string :=
  NilZero.string_of_int (Z.to_int n).

Fixpoint lookup (name : string) (fields : list (string * JSValue))
  : option JSValue :=
  match fields with
  | [] => None
  | (k, v) :: rest => if k =? name then Some v else lookup name rest
  end.

(** [ToString], as a template literal applies it to a substitution.  A
    plain object inherits [Object.prototype.toString]; an own data property
    named [toString] shadows it with something that cannot be called, and
    [OrdinaryToPrimitive] then ends in a TypeError. *)
Definition to_string (v : JSValue) : Completion string :=
  match v with
  | JUndefined => Normal "undefined"
  | JNull => Normal "null"
  | JBool true => Normal "true"
  | JBool false => Normal "false"
  | JNum n => Normal (number_to_string n)
  | JStr s => Normal s
  | JObj fields =>
      match lookup "toString" fields with
      | Some _ => Throw (mkError ETypeError "Cannot convert object to primitive value")
      | None => Normal "[object Object]"
      end
  end.

Definition typeof_nullish (v : JSValue) : string :=
  match v with JNull => "null" | _ => "undefined" end.

(** A canonical array index: decimal digits without a leading zero, that
    is, the text that printing the number gives back. *)
Definition index_of_string (name : string) : option nat :=
  match NilZero.uint_of_string name with
  | Some d =>
      if NilZero.string_of_uint (Decimal.unorm d) =? name
      then Some (Nat.of_uint d) else None
  | None => None
  end.

Definition char_at (s : string) (i : nat) : JSValue :=
  match String.get i s with
  | Some c => JStr (String c EmptyString)
  | None => JUndefined
  end.

(** [v[name]] for a property name that is a string.  Objects answer from
    their own properties, strings from their indices and [length]; every
    other lookup the facade makes ([_id], [id], a comma-joined key list)
    finds nothing on the prototypes and yields [undefined].  Reading a
    property of [undefined] or [null] throws. *)
Definition get_prop (v : JSValue) (name : string) : Completion JSValue :=
  match v with
  | JUndefined | JNull =>
      Throw (mkError ETypeError ("Cannot read properties of " ++ typeof_nullish v))
  | JObj fields =>
      Normal (match lookup name fields with Some x => x | None => JUndefined end)
  | JStr s =>
      if name =? "length" then Normal (JNum (Z.of_nat (String.length s)))
      else match index_of_string name with
           | Some i => Normal (char_at s i)
           | None => Normal JUndefined
           end
  | JBool _ | JNum _ => Normal JUndefined
  end.

Fixpoint index_names (from count : nat) : list string :=
  match count with
  | O => []
  | S c => NilZero.string_of_uint (Nat.to_uint from) :: index_names (S from) c
  end.

(** [Object.keys(v)]: a TypeError on [undefined] and [null], the indices
    of a string, nothing for the other primitives. *)
Definition object_keys (v : JSValue) : Completion (list string) :=
  match v with
  | JUndefined | JNull =>
      Throw (mkError ETypeError "Cannot convert undefined or null to object")
  | JObj fields => Normal (map fst fields)
  | JStr s => Normal (index_names 0 (String.length s))
  | JBool _ | JNum _ => Normal []
  end.

(** [ToPropertyKey] of an array of strings: [Array.prototype.join] with
    the default separator. *)
Definition array_to_property_key (names : list string) : string :=
  String.concat "," names.

End JS.

(* ================================================================== *)
(** ** The world the facade runs in                                    *)
(* ================================================================== *)

(** Calls that leave the facade, in the order they are made. *)
Inductive Event : Type :=
| RedisGet (key : string)
    (* client.get(key) on the cluster client *)
| RedisSet (key : string) (payload : option string) (ex : option JSValue)
    (* client.set(key, payload) or client.set(key, payload, 'EX', n) *)
| ModuleEval (specifier : string)
    (* the host loads a backend module: its body, which ends in
       [const instance = new ...Service(); export default instance], runs *)
| DbGet (collection : string) (key : JSValue)
| DbSet (collection : string) (args : list JSValue)
| DbFetch (collection : string) (filters : JSValue)
| ConsoleLog (message : string)
| ConsoleError (message : string).

(** The default export of a backend module: what [get], [set] and [fetch]
    of the exported instance answer, given the calls made so far.  A method
    the class does not define answers with the TypeError of calling
    [undefined]. *)
Record Backend : Type := {
  b_get : list Event -> string -> JSValue -> Completion JSValue;
  b_set : list Event -> string -> list JSValue -> Completion JSValue;
  b_fetch : list Event -> string -> JSValue -> Completion (list JSValue)
}.

(** Everything outside the repository: the process environment, the ioredis
    cluster client, [JSON] and the module loader. *)
Record Host : Type := {
  process_env : string -> option string;
  client_get : list Event -> string -> Completion (option string);
  client_set : list Event -> string -> option string -> option JSValue
               -> Completion unit;
  JSON_parse : string -> Completion JSValue;
  JSON_stringify : JSValue -> option string;       (* [None] is [undefined] *)
  module_eval : list Event -> string -> Completion Backend
}.

Record World : Type := {
  dbInstance : option Backend;   (* FnDatabaseAdapter's [#dbInstance] *)
  moduleMap : list (string * Completion Backend);
                                 (* modules the host has finished loading *)
  trace : list Event
}.

Definition initial_world : World :=
  {| dbInstance := None; moduleMap := []; trace := [] |}.

(** Where an [async] function stands when it yields to the event loop:
    suspended on [await import(specifier)], or finished. *)
Inductive Suspension (A : Type) : Type :=
| AwaitImport (specifier : string)
| Finished (c : Completion A).
Arguments AwaitImport {A} specifier.
Arguments Finished {A} c.

(** Code that may throw and that reads and writes the world. *)
Definition M (A : Type) : Type := World -> Completion A * World.

Definition ret {A} (a : A) : M A := fun w => (Normal a, w).

Definition throw {A} (e : JsError) : M A := fun w => (Throw e, w).

Definition bind {A B} (m : M A) (k : A -> M B) : M B :=
  fun w =>
    match m w with
    | (Normal a, w') => k a w'
    | (Throw e, w') => (Throw e, w')
    end.

(** [try { body } catch (error) { handler }]. *)
Definition try_catch {A} (body : M A) (handler : JsError -> M A) : M A :=
  fun w =>
    match body w with
    | (Normal a, w') => (Normal a, w')
    | (Throw e, w') => handler e w'
    end.

Definition lift {A} (c : Completion A) : M A := fun w => (c, w).

Definition emit (e : Event) : M unit :=
  fun w => (Normal tt,
            {| dbInstance := dbInstance w; moduleMap := moduleMap w;
               trace := trace w ++ [e] |}).

(** A call to a collaborator: recorded, then answered from the history. *)
Definition call {A} (e : Event) (answer : list Event -> Completion A) : M A :=
  fun w => (answer (trace w),
            {| dbInstance := dbInstance w; moduleMap := moduleMap w;
               trace := trace w ++ [e] |}).

(** A question to a collaborator that is answered from the history and
    leaves no record of its own. *)
Definition ask {A} (answer : list Event -> Completion A) : M A :=
  fun w => (answer (trace w), w).

(** The world after further calls. *)
Definition extend (w : World) (events : list Event) : World :=
  {| dbInstance := dbInstance w; moduleMap := moduleMap w;
     trace := (trace w ++ events)%list |}.

Definition console_log (message : string) : M unit := emit (ConsoleLog message).
Definition console_error (message : string) : M unit := emit (ConsoleError message).

Declare Scope js_scope.
Delimit Scope js_scope with js.
Notation "x <- m ;; k" := (bind m (fun x => k))
  (at level 61, m at next level, right associativity) : js_scope.
Notation "m ;;; k" := (bind m (fun _ => k))
  (at level 61, right associativity) : js_scope.

Definition bindC {A B} (c : Completion A) (k : A -> Completion B) : Completion B :=
  match c with
  | Normal a => k a
  | Throw e => Throw e
  end.

Notation "'let!' x ':=' c 'in' k" := (bindC c (fun x => k))
  (at level 10, x name, c at level 100, k at level 200).

(* ================================================================== *)
(** ** modules/adaptors/config.js                                      *)
(* ================================================================== *)

Module Config.

Definition is_white_space (c : ascii) : bool :=
  let n := nat_of_ascii c in
  (n =? 32)%nat || ((9 <=? n)%nat && (n <=? 13)%nat).

Fixpoint trim_start (s : string) : string :=
  match s with
  | String c rest => if is_white_space c then trim_start rest else s
  | EmptyString => s
  end.

Definition digit_value (c : ascii) : option Z :=
  let n := nat_of_ascii c in
  if ((48 <=? n)%nat && (n <=? 57)%nat) then Some (Z.of_nat (n - 48)) else None.

(** The longest prefix of decimal digits; [None] when there is none. *)
Fixpoint digits (s : string) (acc : option Z) : option Z :=
  match s with
  | String c rest =>
      match digit_value c with
      | Some d =>
          digits rest (Some (10 * (match acc with Some a => a | None => 0 end) + d)%Z)
      | None => acc
      end
  | EmptyString => acc
  end.

(** [parseInt(s, 10)] on ASCII input: leading white space, a sign, the
    longest run of digits; [None] is [NaN]. *)
Definition parseInt (s : string) : option Z :=
  match trim_start s with
  | String "-" rest => option_map Z.opp (digits rest None)
  | String "+" rest => digits rest None
  | t => digits t None
  end.

Section WithEnv.
Context (env : string -> option string).

(** [process.env.DATABASE_TYPE || 'firestore']. *)
Definition DATABASE_TYPE : string :=
  match env "DATABASE_TYPE" with
  | Some s => if JS.truthy_str s then s else "firestore"
  | None => "firestore"
  end.

(** [parseInt(process.env.DEFAULT_CACHE_EXPIRY, 10) || 3600]: an unset
    variable is the string "undefined" to [parseInt], hence [NaN]. *)
Definition DEFAULT_CACHE_EXPIRY : Z :=
  match env "DEFAULT_CACHE_EXPIRY" with
  | Some s =>
      match parseInt s with
      | Some n => if (n =? 0)%Z then 3600%Z else n
      | None => 3600%Z
      end
  | None => 3600%Z
  end.
(** The module namespace of [config.js]: three named exports, the last
    one the service account key's path as [path.resolve] computes it.  There
    is no default export. *)
Definition exports (serviceAccountPath : string) : list (string * JSValue) :=
  [("DATABASE_TYPE", JStr DATABASE_TYPE);
   ("DEFAULT_CACHE_EXPIRY", JNum DEFAULT_CACHE_EXPIRY);
   ("serviceAccountPath", JStr serviceAccountPath)].
End WithEnv.

End Config.

(* ================================================================== *)
(** ** modules/adaptors/RedisService.js                                *)
(* ================================================================== *)

Module FnRedisService.
Section WithHost.
Context (H : Host).
Local Open Scope js_scope.

(** [connect()] as the adapter meets it.  The constructor has run at
    module load and has stored the cluster client in [#client] before
    its first [await]; a cluster client always reports a status, so the
    guard of [connect] is false and the stored client is returned.  (The
    guarded branch, taken once by the constructor, ends the process when
    the first connection fails.) *)
Definition connect : M unit := ret tt.

(** [async get(key)]. *)
Definition get (key : string) : M JSValue :=
  try_catch
    (client <- connect ;;
     data <- call (RedisGet key) (fun history => client_get H history key) ;;
     match data with
     | Some s => if JS.truthy_str s then lift (JSON_parse H s) else ret JNull
     | None => ret JNull
     end)
    (fun error =>
       console_error ("Error getting data for key: " ++ key) ;;;
       throw error).

(** [async set(key, data, expiresInSeconds)]. *)
Definition set (key : string) (data expiresInSeconds : JSValue) : M unit :=
  try_catch
    (client <- connect ;;
     let serializedData := JSON_stringify H data in
     (if JS.truthy expiresInSeconds
      then call (RedisSet key serializedData (Some expiresInSeconds))
             (fun history =>
                client_set H history key serializedData (Some expiresInSeconds))
      else call (RedisSet key serializedData None)
             (fun history => client_set H history key serializedData None)) ;;;
     console_log ("Key " ++ String (ascii_of_nat 34) key ++
                  String (ascii_of_nat 34) " successfully set in Redis Cluster."))
    (fun error =>
       console_error ("Error setting data for key: " ++ key) ;;;
       throw error).

End WithHost.

(** The two commands of the cluster client that [fetch] uses: [keys] and
    [mget], each answered from the calls made so far.  [mget] yields one
    entry per key, [null] where the key holds nothing. *)
Record KeySpace : Type := {
  client_keys : list Event -> string -> Completion (list string);
  client_mget : list Event -> list string -> Completion (list (option string))
}.

Section Fetch.
Context (H : Host) (K : KeySpace).
Local Open Scope js_scope.

(** [value ? JSON.parse(value) : null]. *)
Definition parse_value (value : option string) : Completion JSValue :=
  match value with
  | Some s => if JS.truthy_str s then JSON_parse H s else Normal JNull
  | None => Normal JNull
  end.

(** [values.map(value => ...)]: the callback runs on the elements in
    order, and the first exception ends the loop. *)
Fixpoint parse_values (values : list (option string)) : Completion (list JSValue) :=
  match values with
  | [] => Normal []
  | value :: rest =>
      let! parsed := parse_value value in
      let! others := parse_values rest in
      Normal (parsed :: others)
  end.

(** [value !== null]. *)
Definition is_not_null (value : JSValue) : bool :=
  match value with
  | JNull => false
  | _ => true
  end.

(** [async fetch(pattern)]. *)
Definition fetch (pattern : string) : M (list JSValue) :=
  try_catch
    (client <- connect ;;
     keys <- ask (fun history => client_keys K history pattern) ;;
     if (List.length keys =? 0)%nat then ret []
     else
       values <- ask (fun history => client_mget K history keys) ;;
       parsedValues <- lift (parse_values values) ;;
       ret (filter is_not_null parsedValues))
    (fun error =>
       console_error ("Error fetching keys with pattern: " ++ pattern) ;;;
       throw error).

End Fetch.
End FnRedisService.

(* ================================================================== *)
(** ** modules/adaptors/FnDB.js                                        *)
(* ================================================================== *)

Module FnDatabaseAdapter.
Section WithHost.
Context (H : Host).
Local Open Scope js_scope.

Definition DATABASE_TYPE : string := Config.DATABASE_TYPE (process_env H).
Definition DEFAULT_CACHE_EXPIRY : Z := Config.DEFAULT_CACHE_EXPIRY (process_env H).

Definition set_dbInstance (b : Backend) : M unit :=
  fun w => (Normal tt,
            {| dbInstance := Some b; moduleMap := moduleMap w; trace := trace w |}).

Fixpoint loaded (specifier : string) (map : list (string * Completion Backend))
  : option (Completion Backend) :=
  match map with
  | [] => None
  | (s, c) :: rest => if s =? specifier then Some c else loaded specifier rest
  end.

(** The host settling [import(specifier)].  The host keeps one record per
    module: the module is loaded, and its body run, the first time it is
    asked for, and every later import of it settles the way the first one
    did, with the same namespace or the same error. *)
Definition host_load (specifier : string) : M Backend :=
  fun w =>
    match loaded specifier (moduleMap w) with
    | Some c => (c, w)
    | None =>
        let c := module_eval H (trace w) specifier in
        (c, {| dbInstance := dbInstance w;
               moduleMap := (specifier, c) :: moduleMap w;
               trace := trace w ++ [ModuleEval specifier] |})
    end.

(** The branch of [initialize] on [DATABASE_TYPE]: the module to import,
    or the error thrown for any other value. *)
Definition serviceModule_specifier : Completion string :=
  if DATABASE_TYPE =? "mongodb" then Normal "../database/MONGO/FnMongo.js"
  else if DATABASE_TYPE =? "firestore" then Normal "../database/GCP/FnFirestore.js"
  else if DATABASE_TYPE =? "redis" then Normal "../database/CACHE/FnRedis.js"
  else if DATABASE_TYPE =? "dynamodb" then Normal "../database/AWS/FnDynamoDB.js"
  else Throw (mkError EError ("Unsupported database type: " ++ DATABASE_TYPE)).

Definition initialize_catch (error : JsError) : M unit :=
  console_error "Failed to initialize database service:" ;;;
  throw error.

(** [initialize] up to its [await]: either it has finished, or it has
    asked the host for a module and is suspended on the promise. *)
Definition initialize_begin (w : World) : Suspension unit * World :=
  match dbInstance w with
  | Some _ => (Finished (Normal tt), w)
  | None =>
      match serviceModule_specifier with
      | Normal specifier => (AwaitImport specifier, w)
      | Throw error =>
          let (c, w') := initialize_catch error w in (Finished c, w')
      end
  end.

(** [initialize] after its [await]: the import has settled. *)
Definition initialize_resume (settled : Completion Backend) : M unit :=
  try_catch
    (serviceModule_default <- lift settled ;;
     set_dbInstance serviceModule_default)
    initialize_catch.

(** [async initialize()], run to its end with nothing else in between:
    the host settles the import, [initialize] resumes. *)
Definition initialize : M unit :=
  fun w =>
    match initialize_begin w with
    | (Finished c, w1) => (c, w1)
    | (AwaitImport specifier, w1) =>
        let (settled, w2) := host_load specifier w1 in
        initialize_resume settled w2
    end.

(** The read of [this.#dbInstance] at a method call on it. *)
Definition read_dbInstance : M Backend :=
  fun w =>
    match dbInstance w with
    | Some b => (Normal b, w)
    | None => (Throw (mkError ETypeError "Cannot read properties of undefined"), w)
    end.

(** [if (!this.#dbInstance) await this.initialize();] followed by the
    read of [this.#dbInstance], as [get], [set] and [fetch] open. *)
Definition resolve : M Backend :=
  fun w =>
    match dbInstance w with
    | Some _ => read_dbInstance w
    | None => (initialize ;;; read_dbInstance) w
    end.

(** Lines 40-46 of [get]: the cache key, [None] when it stays
    [undefined]. *)
Definition get_cacheKey (collection : string) (key : JSValue)
  : Completion (option string) :=
  if JS.typeof key =? "string" then
    let! k := JS.to_string key in
    Normal (Some (collection ++ ":" ++ k))
  else if JS.typeof key =? "object" then
    let! keyName := JS.object_keys key in
    let! field := JS.get_prop key (JS.array_to_property_key keyName) in
    let! v := JS.to_string field in
    Normal (Some (collection ++ ":" ++ v))
  else Normal None.

Definition truthy_cacheKey (cacheKey : option string) : bool :=
  match cacheKey with
  | Some k => JS.truthy_str k
  | None => false
  end.

Definition cacheKey_text (cacheKey : option string) : string :=
  match cacheKey with
  | Some k => k
  | None => "undefined"
  end.

(** The default of [options]: [{ useCache: false, cacheExpiry:
    DEFAULT_CACHE_EXPIRY }]. *)
Definition default_options : JSValue :=
  JObj [("useCache", JBool false); ("cacheExpiry", JNum DEFAULT_CACHE_EXPIRY)].

(** The [try] statement of [get], lines 48-69. *)
Definition get_try (collection : string) (key useCache cacheExpiry : JSValue)
  (cacheKey : option string) : M JSValue :=
  try_catch
    (hit <- (if JS.truthy useCache && truthy_cacheKey cacheKey then
               cachedData <- FnRedisService.get H (cacheKey_text cacheKey) ;;
               if JS.truthy cachedData then
                 console_log ("Cache hit for key: " ++ cacheKey_text cacheKey) ;;;
                 ret (Some cachedData)
               else ret None
             else ret None) ;;
     match hit with
     | Some cachedData => ret cachedData
     | None =>
         db <- resolve ;;
         doc <- call (DbGet collection key)
                  (fun history => b_get db history collection key) ;;
         (if JS.truthy doc && JS.truthy useCache && truthy_cacheKey cacheKey then
            FnRedisService.set H (cacheKey_text cacheKey) doc cacheExpiry ;;;
            expiry <- lift (JS.to_string cacheExpiry) ;;
            console_log ("Stored in cache with key: " ++ cacheKey_text cacheKey ++
                         " (expires in " ++ expiry ++ "s)")
          else ret tt) ;;;
         ret doc
     end)
    (fun error =>
       k <- lift (JS.to_string key) ;;
       console_error ("Error getting document with key: " ++ k) ;;;
       throw error).

(** The default value of the parameter [options] stands in when the
    argument is [undefined], and only then. *)
Definition options_or_default (options : JSValue) : JSValue :=
  match options with
  | JUndefined => default_options
  | _ => options
  end.

(** [async get(collection, key, options = {...})]. *)
Definition get (collection : string) (key options : JSValue) : M JSValue :=
  let options := options_or_default options in
  useCache <- lift (JS.get_prop options "useCache") ;;
  cacheExpiry <- lift (JS.get_prop options "cacheExpiry") ;;
  cacheKey <- lift (get_cacheKey collection key) ;;
  get_try collection key useCache cacheExpiry cacheKey.

(** [value.toString()] on a truthy value: the primitive wrappers and
    [Object.prototype] supply the method unless an own data property
    named [toString] is in the way. *)
Definition call_toString (value : JSValue) : Completion string :=
  match value with
  | JObj fields =>
      match JS.lookup "toString" fields with
      | Some _ => Throw (mkError ETypeError "updatedDoc._id.toString is not a function")
      | None => Normal "[object Object]"
      end
  | JUndefined | JNull =>
      Throw (mkError ETypeError ("Cannot read properties of " ++ JS.typeof_nullish value))
  | _ => JS.to_string value
  end.

(** [updatedDoc && updatedDoc.name]. *)
Definition and_prop (updatedDoc : JSValue) (name : string) : Completion JSValue :=
  if JS.truthy updatedDoc then JS.get_prop updatedDoc name else Normal updatedDoc.

(** Lines 92-98 of [set]: the cache key on the branch of the backends
    that take a key and a payload. *)
Definition set_cacheKey (collection : string) (keyOrQuery updatedDoc : JSValue)
  : Completion (option string) :=
  let! _id := and_prop updatedDoc "_id" in
  if JS.truthy _id then
    let! v := call_toString _id in
    Normal (Some (collection ++ ":" ++ v))
  else
    let! id := and_prop updatedDoc "id" in
    if JS.truthy id then
      let! v := JS.to_string id in
      Normal (Some (collection ++ ":" ++ v))
    else if JS.typeof keyOrQuery =? "string" then
      let! v := JS.to_string keyOrQuery in
      Normal (Some (collection ++ ":" ++ v))
    else Normal None.

(** Lines 88-89 of [set]: the cache key on the DynamoDB branch. *)
Definition set_cacheKey_dynamodb (collection : string) (data : JSValue)
  : Completion (option string) :=
  let! keyName := JS.object_keys data in
  let! field := JS.get_prop data (JS.array_to_property_key keyName) in
  let! v := JS.to_string field in
  Normal (Some (collection ++ ":" ++ v)).

(** [async set(collection, keyOrQuery, data)]. *)
Definition set (collection : string) (keyOrQuery data : JSValue) : M JSValue :=
  try_catch
    (db <- resolve ;;
     written <-
       (if DATABASE_TYPE =? "dynamodb" then
          updatedDoc <- call (DbSet collection [data])
                          (fun history => b_set db history collection [data]) ;;
          cacheKey <- lift (set_cacheKey_dynamodb collection data) ;;
          ret (updatedDoc, cacheKey)
        else
          updatedDoc <- call (DbSet collection [keyOrQuery; data])
                          (fun history =>
                             b_set db history collection [keyOrQuery; data]) ;;
          cacheKey <- lift (set_cacheKey collection keyOrQuery updatedDoc) ;;
          ret (updatedDoc, cacheKey)) ;;
     let (updatedDoc, cacheKey) := (written : JSValue * option string) in
     (if truthy_cacheKey cacheKey then
        FnRedisService.set H (cacheKey_text cacheKey) updatedDoc
          (JNum DEFAULT_CACHE_EXPIRY) ;;;
        console_log ("Updated cache for key: " ++ cacheKey_text cacheKey ++
                     " (expires in " ++ JS.number_to_string DEFAULT_CACHE_EXPIRY ++ "s)")
      else ret tt) ;;;
     ret updatedDoc)
    (fun error =>
       console_error "Error setting document:" ;;;
       throw error).

(** The default of [filters], the empty object, stands in for [undefined]. *)
Definition filters_or_default (filters : JSValue) : JSValue :=
  match filters with
  | JUndefined => JObj []
  | _ => filters
  end.

(** [async fetch(collection, filters = {})]. *)
Definition fetch (collection : string) (filters : JSValue) : M (list JSValue) :=
  let filters := filters_or_default filters in
  db <- resolve ;;
  call (DbFetch collection filters)
    (fun history => b_fetch db history collection filters).

End WithHost.
End FnDatabaseAdapter.

(* ================================================================== *)
(** ** Callers of the adapter on the event loop                        *)
(* ================================================================== *)

(** Several calls of [get], [set] or [fetch] are in flight on the one
    exported adapter instance.  Each runs without interruption from one
    [await] to the next; what is modelled of a call is its opening
    [if (!this.#dbInstance) await this.initialize();] and the read of
    [this.#dbInstance] that follows.  A caller that finds [#dbInstance] set
    reads it at once.  Otherwise it calls [initialize], which runs up to its
    [await import(...)], or throws before it; the caller is then suspended
    on [await this.initialize()] until [initialize] has returned or thrown,
    and reads [#dbInstance] when it is woken in its turn. *)
Module EventLoop.
Section WithHost.
Context (H : Host).

Inductive Caller : Type :=
| NotCalled
| Importing (specifier : string)       (* its [initialize] awaits the import *)
| Returned (c : Completion unit)       (* its [initialize] has finished *)
| Settled (outcome : Completion Backend).

Record Config : Type := { world : World; callers : list Caller }.

(** What the event loop does next: lets caller [i] enter and run up to
    its [await]; lets the host finish loading a module somebody waits for;
    resumes the [initialize] of caller [i] whose import has settled;
    resumes caller [i] whose [initialize] has finished. *)
Inductive Turn : Type :=
| Enter (i : nat)
| Load (specifier : string)
| Wake (i : nat)
| Finish (i : nat).

Fixpoint update {A} (i : nat) (x : A) (l : list A) : list A :=
  match l, i with
  | [], _ => []
  | _ :: rest, O => x :: rest
  | y :: rest, S j => y :: update j x rest
  end.

Definition waits_for (specifier : string) (c : Caller) : bool :=
  match c with
  | Importing s => s =? specifier
  | _ => false
  end.

Definition enter (w : World) : Caller * World :=
  match dbInstance w with
  | Some _ =>
      let (outcome, w') := FnDatabaseAdapter.read_dbInstance w in (Settled outcome, w')
  | None =>
      match FnDatabaseAdapter.initialize_begin H w with
      | (AwaitImport specifier, w') => (Importing specifier, w')
      | (Finished c, w') => (Returned c, w')
      end
  end.

Definition turn (t : Turn) (c : Config) : Config :=
  match t with
  | Enter i =>
      match nth_error (callers c) i with
      | Some NotCalled =>
          let (caller, w) := enter (world c) in
          {| world := w; callers := update i caller (callers c) |}
      | _ => c
      end
  | Load specifier =>
      if existsb (waits_for specifier) (callers c)
      then {| world := snd (FnDatabaseAdapter.host_load H specifier (world c));
              callers := callers c |}
      else c
  | Wake i =>
      match nth_error (callers c) i with
      | Some (Importing specifier) =>
          match FnDatabaseAdapter.loaded specifier (moduleMap (world c)) with
          | Some settled =>
              let (returned, w) :=
                FnDatabaseAdapter.initialize_resume settled (world c) in
              {| world := w; callers := update i (Returned returned) (callers c) |}
          | None => c
          end
      | _ => c
      end
  | Finish i =>
      match nth_error (callers c) i with
      | Some (Returned returned) =>
          let (outcome, w) :=
            bind (lift returned) (fun _ => FnDatabaseAdapter.read_dbInstance)
              (world c) in
          {| world := w; callers := update i (Settled outcome) (callers c) |}
      | _ => c
      end
  end.

Definition run (schedule : list Turn) (c : Config) : Config :=
  fold_left (fun c t => turn t c) schedule c.

(** [n] callers, none of which has entered yet, on a fresh adapter. *)
Definition start (n : nat) : Config :=
  {| world := initial_world; callers := repeat NotCalled n |}.

Definition is_settled (c : Caller) : bool :=
  match c with Settled _ => true | _ => false end.

Definition is_returned (c : Caller) : bool :=
  match c with Returned _ => true | _ => false end.

(** Every caller enters, the host loads the module, every [initialize]
    resumes, every caller resumes. *)
Definition round_robin (n : nat) (specifier : string) : list Turn :=
  map Enter (seq 0 n) ++ [Load specifier] ++ map Wake (seq 0 n)
  ++ map Finish (seq 0 n).

End WithHost.
End EventLoop.

Definition is_ModuleEval (e : Event) : bool :=
  match e with ModuleEval _ => true | _ => false end.

(** How many times the host has set out to load a backend module, whether
    the load succeeded or failed.  The constructor of a backend service is
    called in one place only, the body of its module: a load that succeeds
    has constructed the exported instance once, a load that fails has called
    the constructor at most once. *)
Definition constructions (w : World) : nat :=
  List.length (filter is_ModuleEval (trace w)).

(** The backend services that exist: the default exports of the backend
    modules that have loaded.  A module whose load failed has exported
    none. *)
Definition constructed (w : World) : list Backend :=
  flat_map (fun entry : string * Completion Backend =>
              match snd entry with
              | Normal b => [b]
              | Throw _ => []
              end)
    (moduleMap w).

Definition is_cache_event (e : Event) : bool :=
  match e with RedisGet _ | RedisSet _ _ _ => true | _ => false end.

Definition is_backend_event (e : Event) : bool :=
  match e with DbGet _ _ | DbSet _ _ | DbFetch _ _ => true | _ => false end.

(** The calls made to the Cache Store, to the Storage Backend. *)
Definition cache_calls (w : World) : list Event := filter is_cache_event (trace w).
Definition backend_calls (w : World) : list Event := filter is_backend_event (trace w).

(* ================================================================== *)
(** ** modules/adaptors/FnCache.js and index.js                        *)
(* ================================================================== *)

Module FnCacheModule.

(** The bindings of the module scope of [FnCache.js]: the import, the
    class, the constant. *)
Definition module_scope : list string := ["fnConfig"; "FnCache"; "FnCacheInstance"].

(** [import name from specifier], linked against the namespace of the
    requested module: the module has to export [default], whose value the
    binding then holds. *)
Definition import_default (specifier : string) (namespace : list (string * JSValue))
  : Completion JSValue :=
  match JS.lookup "default" namespace with
  | Some value => Normal value
  | None =>
      Throw (mkError ESyntaxError
               ("The requested module '" ++ specifier ++
                "' does not provide an export named 'default'"))
  end.

(** An instance of the class: its [#cache] field, [None] for [null], or
    the specifier whose import promise it holds. *)
Record Instance : Type := { cache : option string }.

Section Body.
Context (globals : list string)   (* the names defined on [globalThis] *)
        (fnConfig : JSValue).     (* the value of the import binding *)

(** Evaluating an identifier that is not declared in the module: it has
    to be a property of the global object. *)
Definition resolve_identifier (name : string) : Completion unit :=
  if existsb (String.eqb name) (module_scope ++ globals) then Normal tt
  else Throw (mkError EReferenceError (name ++ " is not defined")).

(** [value === 'redis']. *)
Definition is_redis (value : JSValue) : bool :=
  match value with JStr s => s =? "redis" | _ => false end.

(** [new FnCache()], given the static [FnCache.instance]. *)
Definition constructor (FnCache_instance : option Instance) : Completion Instance :=
  match FnCache_instance with
  | Some existing => Normal existing
  | None =>
      let! configured := JS.get_prop fnConfig "cache" in
      let this := {| cache := if is_redis configured
                              then Some "../database/FnRedis.js" else None |} in
      let! _ := resolve_identifier "FnRedis" in
      Normal this
  end.

(** [static getInstance()]: the instance returned and the static
    [FnCache.instance] afterwards. *)
Definition getInstance (FnCache_instance : option Instance)
  : Completion Instance * option Instance :=
  match FnCache_instance with
  | Some existing => (Normal existing, FnCache_instance)
  | None =>
      match constructor FnCache_instance with
      | Normal created => (Normal created, Some created)
      | Throw e => (Throw e, FnCache_instance)
      end
  end.

(** The module body: [const FnCacheInstance = FnCache.getInstance();]
    and its export. *)
Definition evaluate : Completion Instance := fst (getInstance None).
End Body.

(** Importing [FnCache.js]: its import of [config.js] is linked, then its
    body is evaluated. *)
Definition load (globals : list string) (env : string -> option string)
  (serviceAccountPath : string) : Completion Instance :=
  let! fnConfig := import_default "./config.js" (Config.exports env serviceAccountPath) in
  evaluate globals fnConfig.

(** Importing [index.js], which imports [FnCache.js] and then calls its
    default export, an instance, as a function. *)
Definition load_index (globals : list string) (env : string -> option string)
  (serviceAccountPath : string) : Completion unit :=
  let! FnCacheAdaptor := load globals env serviceAccountPath in
  Throw (mkError ETypeError "FnCacheAdaptor is not a function").

End FnCacheModule.


(* ================================================================== *)
(** ** Concrete collaborators, for the examples                        *)
(* ================================================================== *)

Module Example.

(** The Firestore-style document of user [u1]. *)
Definition user_u1 : JSValue := JObj [("id", JStr "u1"); ("name", JStr "A")].

(** A backend that knows one document and stores whatever it is given. *)
Definition backend : Backend :=
  {| b_get := fun _ _ _ => Normal user_u1;
     b_set := fun _ _ args => Normal (last args JUndefined);
     b_fetch := fun _ _ _ => Normal [] |}.

Definition max_retries : JsError :=
  mkError (EHost "MaxRetriesPerRequestError")
    "Reached the max retries per request limit".

(** A host whose environment sets [DATABASE_TYPE] to [database_type], whose
    cluster client answers [get] with [reply] and [set] with [stored], and
    whose [JSON] knows the one payload the examples use. *)
Definition host (database_type : option string)
  (reply : Completion (option string)) (stored : Completion unit) : Host :=
  {| process_env := fun name => if name =? "DATABASE_TYPE" then database_type else None;
     client_get := fun _ _ => reply;
     client_set := fun _ _ _ _ => stored;
     JSON_parse := fun s => if s =? "42" then Normal (JNum 42)
                            else Throw (mkError ESyntaxError "Unexpected token");
     JSON_stringify := fun v => match v with
                                | JNum 42 => Some "42"
                                | JUndefined => None
                                | _ => Some "{...}"
                                end;
     module_eval := fun _ _ => Normal backend |}.

Definition use_cache : JSValue := JObj [("useCache", JBool true)].

End Example.

(* ================================================================== *)
(** ** Vocabulary of the statements                                    *)
(* ================================================================== *)

(** The arguments [set] hands to the backend's [set] after the collection,
    on either branch of its test of [DATABASE_TYPE]. *)
Definition set_arguments (H : Host) (keyOrQuery data : JSValue) : list JSValue :=
  if (FnDatabaseAdapter.DATABASE_TYPE H =? "dynamodb")%string
  then [data] else [keyOrQuery; data].

(** The cache key [set] derives after the write, on either branch. *)
Definition set_derived_cacheKey (H : Host) (collection : string)
  (keyOrQuery data updatedDoc : JSValue) : Completion (option string) :=
  if (FnDatabaseAdapter.DATABASE_TYPE H =? "dynamodb")%string
  then FnDatabaseAdapter.set_cacheKey_dynamodb collection data
  else FnDatabaseAdapter.set_cacheKey collection keyOrQuery updatedDoc.

(** The cache refresh of [set]: [client.set(key, payload, 'EX', ttl)] with
    the configured default expiry. *)
Definition refresh (H : Host) (cacheKey : string) (updatedDoc : JSValue) : Event :=
  RedisSet cacheKey (JSON_stringify H updatedDoc)
    (Some (JNum (FnDatabaseAdapter.DEFAULT_CACHE_EXPIRY H))).

(** [doc && doc.name] is truthy, and is [value]. *)
Definition holds (doc : JSValue) (name : string) (value : JSValue) : Prop :=
  JS.truthy doc = true /\ JS.get_prop doc name = Normal value /\ JS.truthy value = true.

(** [doc && doc.name] is falsy: there is no document, or its [name] is
    missing or falsy. *)
Definition lacks (doc : JSValue) (name : string) : Prop :=
  JS.truthy doc = false
  \/ exists value, JS.get_prop doc name = Normal value /\ JS.truthy value = false.

(** After the backend write, recorded in [w2], [set] refreshes the Cache
    Store at [cacheKey] with the updated document and the configured default
    expiry: it returns the updated document when the refresh succeeds and
    throws the cache error when the refresh fails. *)
Definition refreshed_at (H : Host) (collection : string) (keyOrQuery data : JSValue)
  (w w2 : World) (updatedDoc : JSValue) (cacheKey : string) : Prop :=
  match client_set H (trace w2) cacheKey (JSON_stringify H updatedDoc)
          (Some (JNum (FnDatabaseAdapter.DEFAULT_CACHE_EXPIRY H))) with
  | Normal _ =>
      FnDatabaseAdapter.set H collection keyOrQuery data w
      = (Normal updatedDoc,
         extend w2
           [refresh H cacheKey updatedDoc;
            ConsoleLog ("Key " ++ String (ascii_of_nat 34) cacheKey ++
                        String (ascii_of_nat 34) " successfully set in Redis Cluster.");
            ConsoleLog ("Updated cache for key: " ++ cacheKey ++ " (expires in " ++
                        JS.number_to_string (FnDatabaseAdapter.DEFAULT_CACHE_EXPIRY H)
                        ++ "s)")])
  | Throw e =>
      FnDatabaseAdapter.set H collection keyOrQuery data w
      = (Throw e,
         extend w2
           [refresh H cacheKey updatedDoc;
            ConsoleError ("Error setting data for key: " ++ cacheKey);
            ConsoleError "Error setting document:"])
  end.

(** After the backend write, recorded in [w2], [set] logs and throws
    [error] without a call to the Cache Store. *)
Definition fails_after_write (H : Host) (collection : string)
  (keyOrQuery data : JSValue) (w w2 : World) (error : JsError) : Prop :=
  FnDatabaseAdapter.set H collection keyOrQuery data w
  = (Throw error, extend w2 [ConsoleError "Error setting document:"]).

(** A caller agrees with the event loop: if its [initialize] waits, it
    waits for the configured module; if its [initialize] has finished or the
    caller has settled, that happened the way the module settled (or, when no
    module is configured, with the configuration error), and after a normal
    return [#dbInstance] holds the module's default export. *)
Definition caller_agrees (configured : Completion string)
  (settled : option (Completion Backend)) (db : option Backend)
  (c : EventLoop.Caller) : Prop :=
  match c with
  | EventLoop.NotCalled => True
  | EventLoop.Importing s => configured = Normal s
  | EventLoop.Returned returned =>
      match configured with
      | Normal _ =>
          match returned with
          | Normal _ => exists b, settled = Some (Normal b) /\ db = Some b
          | Throw e => settled = Some (Throw e)
          end
      | Throw error => returned = Throw error
      end
  | EventLoop.Settled outcome =>
      match configured with
      | Normal _ => settled = Some outcome
      | Throw error => outcome = Throw error
      end
  end.

(** The state of the adapter and of the host's module map between turns of
    the event loop: either nothing has been loaded, nothing constructed and
    [#dbInstance] is unset, or exactly the configured module has been loaded,
    once, and [#dbInstance] is unset or holds its default export. *)
Definition single_flight (H : Host) (c : EventLoop.Config) : Prop :=
  let w := EventLoop.world c in
  (moduleMap w = [] /\ constructions w = 0 /\ dbInstance w = None
   /\ Forall (caller_agrees (FnDatabaseAdapter.serviceModule_specifier H) None None)
        (EventLoop.callers c))
  \/ (exists specifier settled,
        FnDatabaseAdapter.serviceModule_specifier H = Normal specifier
        /\ moduleMap w = [(specifier, settled)]
        /\ constructions w = 1
        /\ (forall b, dbInstance w = Some b -> settled = Normal b)
        /\ Forall (caller_agrees (Normal specifier) (Some settled) (dbInstance w))
             (EventLoop.callers c)).

(** Whatever world a computation starts in, the world it ends in is
    related to it by [R]. *)
Definition respects {A} (R : World -> World -> Prop) (m : M A) : Prop :=
  forall w, R w (snd (m w)).

(** [R] relates a world to the same world after one more call [e]. *)
Definition allows (R : World -> World -> Prop) (e : Event) : Prop :=
  forall w, R w (extend w [e]).

(** A relation computations can be followed along: a preorder that allows
    console output. *)
Record Stepwise (R : World -> World -> Prop) : Prop := {
  stepwise_refl : forall w, R w w;
  stepwise_trans : forall a b c, R a b -> R b c -> R a c;
  stepwise_log : forall message, allows R (ConsoleLog message);
  stepwise_error : forall message, allows R (ConsoleError message)
}.

(** The later world has made further calls, each of which satisfies [P]. *)
Definition logs (P : Event -> Prop) (w w' : World) : Prop :=
  exists log, trace w' = (trace w ++ log)%list /\ Forall P log.

(** Every call a computation makes, from any world, satisfies [P]. *)
Definition footprint {A} (P : Event -> Prop) (m : M A) : Prop :=
  respects (logs P) m.

(** The adapter's field and the host's module map are as they were. *)
Definition same_adapter (w w' : World) : Prop :=
  dbInstance w' = dbInstance w /\ moduleMap w' = moduleMap w.

Definition is_console (e : Event) : bool :=
  match e with ConsoleLog _ | ConsoleError _ => true | _ => false end.

(** The expiry [FnRedisService.set] passes on to the client: ['EX', n] for
    a truthy [n], nothing otherwise. *)
Definition expiry_argument (expiresInSeconds : JSValue) : option JSValue :=
  if JS.truthy expiresInSeconds then Some expiresInSeconds else None.

(** Of a call: if it writes to the cache, it passes no expiry. *)
Definition written_without_expiry (e : Event) : Prop :=
  match e with
  | RedisSet _ _ ex => ex = None
  | _ => True
  end.

(** Run from [w], the computation leaves a trace that begins with [base]. *)
Definition continues {A} (base : list Event) (m : M A) (w : World) : Prop :=
  exists rest, trace (snd (m w)) = (base ++ rest)%list.

Definition any_event (e : Event) : Prop := True.

(** The error [initialize] throws when it has no branch for the configured
    type. *)
Definition unsupported_error (H : Host) : JsError :=
  mkError EError ("Unsupported database type: " ++ FnDatabaseAdapter.DATABASE_TYPE H).

Definition never_loads (e : Event) : Prop := is_ModuleEval e = false.

Definition leaves_cache_alone (e : Event) : Prop := is_cache_event e = false.

(** The values of [DATABASE_TYPE] that [initialize] has a branch for. *)
Definition supported_types : list string :=
  ["mongodb"; "firestore"; "redis"; "dynamodb"].

(* ================================================================== *)
(** ** Object spread                                                   *)
(* ================================================================== *)

Module Spread.

(** An array index: a canonical numeric string up to 2^32 - 2.  An object
    enumerates the properties so named first, in ascending order, and its
    other properties after them in the order they were created. *)
Definition array_index (name : string) : option nat :=
  match JS.index_of_string name with
  | Some i => if (Z.of_nat i <=? 4294967294)%Z then Some i else None
  | None => None
  end.

Fixpoint insert_index (i : nat) (name : string) (value : JSValue)
  (fields : list (string * JSValue)) : list (string * JSValue) :=
  match fields with
  | [] => [(name, value)]
  | (k, v) :: rest =>
      match array_index k with
      | Some j => if (j <? i)%nat then (k, v) :: insert_index i name value rest
                  else (name, value) :: fields
      | None => (name, value) :: fields
      end
  end.

(** [CreateDataProperty]: a property the object has keeps its place and
    takes the new value; a new one is created. *)
Definition set_field (name : string) (value : JSValue)
  (fields : list (string * JSValue)) : list (string * JSValue) :=
  match JS.lookup name fields with
  | Some _ => map (fun kv => if fst kv =? name then (fst kv, value) else kv) fields
  | None =>
      match array_index name with
      | Some i => insert_index i name value fields
      | None => (fields ++ [(name, value)])%list
      end
  end.

Definition characters (s : string) : list JSValue :=
  map (fun c => JStr (String c EmptyString)) (list_ascii_of_string s).

(** The own enumerable properties that [...source] copies: those of an
    object, the characters of a string, nothing of the other values. *)
Definition own_properties (source : JSValue) : list (string * JSValue) :=
  match source with
  | JObj fields => fields
  | JStr s => combine (JS.index_names 0 (String.length s)) (characters s)
  | _ => []
  end.

(** [...source] in an object literal, given the properties the literal
    has so far. *)
Definition spread (target : list (string * JSValue)) (source : JSValue)
  : list (string * JSValue) :=
  fold_left (fun object kv => set_field (fst kv) (snd kv) object)
    (own_properties source) target.

End Spread.

(** What the facade sees of a method of a backend: its completion, given
    the calls made so far.  What the method writes on the console is not
    part of it. *)
Definition observe {A} (method : M A) (history : list Event) : Completion A :=
  fst (method {| dbInstance := None; moduleMap := []; trace := history |}).

(** The argument at a position of a call; [undefined] when the call has
    fewer arguments. *)
Definition argument (position : nat) (args : list JSValue) : JSValue :=
  nth position args JUndefined.

(* ================================================================== *)
(** ** modules/database/MONGO/FnMongo.js                               *)
(* ================================================================== *)

Module FnMongoService.

(** Calling a method the instance does not have: a TypeError, with the
    message Node gives it. *)
Definition not_a_function (method : string) : JsError :=
  mkError ETypeError ("this[#dbInstance]." ++ method ++ " is not a function").

(** The default export: an instance of a class that defines [connect] and
    [get], and neither [set] nor [fetch]. *)
Definition instance (get : list Event -> string -> JSValue -> Completion JSValue)
  : Backend :=
  {| b_get := get;
     b_set := fun _ _ _ => Throw (not_a_function "set");
     b_fetch := fun _ _ _ => Throw (not_a_function "fetch") |}.

End FnMongoService.

(* ================================================================== *)
(** ** modules/database/GCP/FnFirestore.js                             *)
(* ================================================================== *)

Module FnFirestoreService.

(** A document snapshot: [exists], [id] and what [data()] returns. *)
Record DocumentSnapshot : Type := {
  snapshot_exists : bool;
  snapshot_id : string;
  snapshot_data : JSValue
}.

(** A [where] clause: field, operator, value. *)
Definition Clause : Type := (JSValue * JSValue * JSValue)%type.

(** The Firestore client [#db]: the references it builds, which check
    their arguments, and the reads and writes, answered from the history. *)
Record Firestore : Type := {
  collection_ref : string -> Completion unit;
  doc_ref : string -> JSValue -> Completion unit;
  doc_get : list Event -> string -> JSValue -> Completion DocumentSnapshot;
  doc_set : list Event -> string -> JSValue -> JSValue -> Completion unit;
  query_where : JSValue -> JSValue -> JSValue -> Completion unit;
  query_get : list Event -> string -> list Clause -> Completion (list DocumentSnapshot)
}.

(** An argument of [fetch]: a value of the facade's kind, or an array. *)
Inductive Argument : Type :=
| Value (v : JSValue)
| Array (items : list JSValue).

Definition not_iterable : JsError := mkError ETypeError "filters is not iterable".

Section WithClient.
Context (F : Firestore).
Local Open Scope js_scope.

(** [{ id: doc.id, ...doc.data() }]. *)
Definition document (snapshot : DocumentSnapshot) : JSValue :=
  JObj (Spread.spread [("id", JStr (snapshot_id snapshot))] (snapshot_data snapshot)).

(** [async get(collection, docId)]. *)
Definition get (collection : string) (docId : JSValue) : M JSValue :=
  try_catch
    (lift (collection_ref F collection) ;;;
     lift (doc_ref F collection docId) ;;;
     docSnapshot <- ask (fun history => doc_get F history collection docId) ;;
     if negb (snapshot_exists docSnapshot) then
       id <- lift (JS.to_string docId) ;;
       console_log ("No document found with ID: " ++ id ++
                    " in collection: " ++ collection) ;;;
       ret JNull
     else ret (document docSnapshot))
    (fun error =>
       console_error "Error getting document:" ;;;
       throw error).

(** [async set(collection, docId, data)]: no [return] statement. *)
Definition set (collection : string) (docId data : JSValue) : M JSValue :=
  try_catch
    (lift (collection_ref F collection) ;;;
     lift (doc_ref F collection docId) ;;;
     ask (fun history => doc_set F history collection docId data) ;;;
     id <- lift (JS.to_string docId) ;;
     console_log ("Document with ID: " ++ id ++
                  " successfully set/updated in collection: " ++ collection) ;;;
     ret JUndefined)
    (fun error =>
       console_error "Error setting document:" ;;;
       throw error).

(** The default of [filters], the empty array, stands in for [undefined]. *)
Definition filters_or_default (filters : Argument) : Argument :=
  match filters with
  | Value JUndefined => Array []
  | _ => filters
  end.

(** The elements [for (const filter of filters)] visits: those of an
    array, the characters of a string; no other value is iterable. *)
Definition iterate (filters : Argument) : Completion (list JSValue) :=
  match filters with
  | Array items => Normal items
  | Value (JStr s) => Normal (Spread.characters s)
  | Value _ => Throw not_iterable
  end.

(** The body of the loop, over the elements: one [where] per filter. *)
Fixpoint apply_filters (filters : list JSValue) (query : list Clause)
  : Completion (list Clause) :=
  match filters with
  | [] => Normal query
  | filter :: rest =>
      let! field := JS.get_prop filter "field" in
      let! op := JS.get_prop filter "op" in
      let! value := JS.get_prop filter "value" in
      let! _ := query_where F field op value in
      apply_filters rest (query ++ [(field, op, value)])%list
  end.

(** [async fetch(collection, filters = [])]. *)
Definition fetch (collection : string) (filters : Argument) : M (list JSValue) :=
  let filters := filters_or_default filters in
  try_catch
    (lift (collection_ref F collection) ;;;
     elements <- lift (iterate filters) ;;
     query <- lift (apply_filters elements []) ;;
     snapshot <- ask (fun history => query_get F history collection query) ;;
     if (List.length snapshot =? 0)%nat then
       console_log "No matching documents found." ;;;
       ret []
     else ret (map document snapshot))
    (fun error =>
       console_error "Error fetching documents:" ;;;
       throw error).

(** The default export, as the facade calls it. *)
Definition instance : Backend :=
  {| b_get := fun history collection key => observe (get collection key) history;
     b_set := fun history collection args =>
                observe (set collection (argument 0 args) (argument 1 args)) history;
     b_fetch := fun history collection filters =>
                  observe (fetch collection (Value filters)) history |}.

End WithClient.
End FnFirestoreService.

(* ================================================================== *)
(** ** modules/database/AWS/FnDynamoDB.js                              *)
(* ================================================================== *)

Module FnDynamoDBService.

Inductive Command : Type :=
| GetCommand (params : JSValue)
| PutCommand (params : JSValue)
| QueryCommand (params : JSValue)
| ScanCommand (params : JSValue).

(** The output of a command: its [Item] ([undefined] when there is none)
    and its [Items]. *)
Record Output : Type := {
  Item : JSValue;
  Items : list JSValue
}.

(** The document client [#client]. *)
Record DocumentClient : Type := {
  send : list Event -> Command -> Completion Output
}.

Section WithClient.
Context (D : DocumentClient).
Local Open Scope js_scope.

(** [async get(collectionName, primaryKey)]. *)
Definition get (collectionName : string) (primaryKey : JSValue) : M JSValue :=
  let params := JObj [("TableName", JStr collectionName); ("Key", primaryKey)] in
  try_catch
    (data <- ask (fun history => send D history (GetCommand params)) ;;
     ret (if JS.truthy (Item data) then Item data else JNull))
    (fun error =>
       console_error "Error getting document from DynamoDB:" ;;;
       throw error).

(** [async set(collectionName, data)]. *)
Definition set (collectionName : string) (data : JSValue) : M JSValue :=
  let params := JObj [("TableName", JStr collectionName); ("Item", data);
                      ("ReturnValues", JStr "ALL_OLD")] in
  try_catch
    (ask (fun history => send D history (PutCommand params)) ;;;
     ret data)
    (fun error =>
       console_error "Error setting document in DynamoDB:" ;;;
       throw error).

(** The default of [filters], the empty object, stands in for [undefined]. *)
Definition filters_or_default (filters : JSValue) : JSValue :=
  match filters with
  | JUndefined => JObj []
  | _ => filters
  end.

(** [{ ...params, ...filters }] with [params] being [{ TableName:
    collectionName }]. *)
Definition fetch_params (collectionName : string) (filters : JSValue) : JSValue :=
  JObj (Spread.spread
          (Spread.spread [] (JObj [("TableName", JStr collectionName)]))
          filters).

(** Lines 65-78 of [fetch]: the command to send. *)
Definition fetch_command (collectionName : string) (filters : JSValue)
  : Completion Command :=
  let! KeyConditionExpression := JS.get_prop filters "KeyConditionExpression" in
  if JS.truthy KeyConditionExpression
  then Normal (QueryCommand (fetch_params collectionName filters))
  else Normal (ScanCommand (fetch_params collectionName filters)).

(** [async fetch(collectionName, filters = {})]. *)
Definition fetch (collectionName : string) (filters : JSValue) : M (list JSValue) :=
  let filters := filters_or_default filters in
  command <- lift (fetch_command collectionName filters) ;;
  try_catch
    (data <- ask (fun history => send D history command) ;;
     ret (Items data))
    (fun error =>
       console_error "Error fetching documents from DynamoDB:" ;;;
       throw error).

(** The default export, as the facade calls it. *)
Definition instance : Backend :=
  {| b_get := fun history collection key => observe (get collection key) history;
     b_set := fun history collection args =>
                observe (set collection (argument 0 args)) history;
     b_fetch := fun history collection filters =>
                  observe (fetch collection filters) history |}.

End WithClient.
End FnDynamoDBService.

(* ================================================================== *)
(** ** modules/database/FnRedis.js                                     *)
(* ================================================================== *)

Module FnRedis.

(** A binding of a scope: declared and not yet initialized, or holding a
    value. *)
Inductive Binding : Type :=
| Uninitialized
| Initialized (value : JSValue).

Definition Scope : Type := list (string * Binding).

Fixpoint declared (name : string) (scope : Scope) : option Binding :=
  match scope with
  | [] => None
  | (n, b) :: rest => if n =? name then Some b else declared name rest
  end.

(** Evaluating an identifier: the innermost scope that declares the name
    answers; a [const] that is declared further down in its block is there
    from the start of the block, uninitialized. *)
Fixpoint resolve_binding (name : string) (scopes : list Scope) : Completion JSValue :=
  match scopes with
  | [] => Throw (mkError EReferenceError (name ++ " is not defined"))
  | scope :: outer =>
      match declared name scope with
      | Some (Initialized value) => Normal value
      | Some Uninitialized =>
          Throw (mkError EReferenceError
                   ("Cannot access '" ++ name ++ "' before initialization"))
      | None => resolve_binding name outer
      end
  end.

(** The cluster client [#cluster]: [exists]; [get] and [set] are the
    host's. *)
Record Cluster : Type := {
  cluster_exists : list Event -> string -> Completion JSValue
}.

Section WithCluster.
Context (H : Host) (C : Cluster)
        (stack : JsError -> JSValue).   (* the [stack] of an error *)
Local Open Scope js_scope.

(** [{ message: err.message, stack: err.stack }]. *)
Definition error_object (err : JsError) : JSValue :=
  JObj [("message", JStr (err_message err)); ("stack", stack err)].

(** [value === 1]. *)
Definition is_one (value : JSValue) : bool :=
  match value with
  | JNum n => (n =? 1)%Z
  | _ => false
  end.

(** [async getWithKey({ key })]. *)
Definition getWithKey (parameter : JSValue) : M JSValue :=
  key <- lift (JS.get_prop parameter "key") ;;
  let parameters : Scope := [("key", Initialized key)] in
  try_catch
    (let block : Scope := [("key", Uninitialized); ("response", Uninitialized)] in
     substitution <- lift (resolve_binding "key" [block; parameters]) ;;
     text <- lift (JS.to_string substitution) ;;
     let key := "FnRedis||" ++ text in
     found <- ask (fun history => cluster_exists C history key) ;;
     if is_one found then
       data <- call (RedisGet key) (fun history => client_get H history key) ;;
       parsed <- lift (JSON_parse H (match data with Some s => s | None => "null" end)) ;;
       ret (JObj [("cache", JStr "HIT"); ("error", JObj []); ("data", parsed)])
     else ret JUndefined)
    (fun err =>
       ret (JObj [("cache", JStr "MISS"); ("error", error_object err);
                  ("data", JObj [])])).

(** [setWithKey({ key, value })]: the promise of [set] is dropped. *)
Definition setWithKey (parameter : JSValue) : M JSValue :=
  key <- lift (JS.get_prop parameter "key") ;;
  value <- lift (JS.get_prop parameter "value") ;;
  let parameters : Scope := [("key", Initialized key); ("value", Initialized value)] in
  try_catch
    (let block : Scope := [("key", Uninitialized)] in
     substitution <- lift (resolve_binding "key" [block; parameters]) ;;
     text <- lift (JS.to_string substitution) ;;
     let key := "FnRedis||" ++ text in
     value <- lift (resolve_binding "value" [block; parameters]) ;;
     emit (RedisSet key (JSON_stringify H value) None) ;;;
     ret (JObj [("success", JBool true); ("error", JObj [])]))
    (fun err =>
       ret (JObj [("success", JBool false); ("error", error_object err)])).

End WithCluster.
End FnRedis.

(* ================================================================== *)
(** ** modules/fintech/stripe: the world of the two services           *)
(* ================================================================== *)

Module Stripe.

(** What leaves the two Stripe services, in the order it does: requests
    to the Stripe client and lines on the console. *)
Inductive Call : Type :=
| AccountsRetrieve
| ChargesList (options : JSValue)
| ChargesRetrieve (chargeId : JSValue)
| BalanceTransactionsRetrieve (id : JSValue)
| CustomersRetrieve (id : JSValue)
| NewStripe (secret : option string)
| ConsoleWarn (message : string)
| ConsoleError (message : string).

(** The constructor of the Stripe library: [new Stripe(secret, { apiVersion:
    '2023-10-16' })], which may reject its arguments. *)
Record Library : Type := {
  new_Stripe : list Call -> option string -> Completion unit
}.

(** The Stripe client [#stripeClient], answering from the calls made so
    far.  [charges_list] answers with the [data] of the list. *)
Record Client : Type := {
  accounts_retrieve : list Call -> Completion JSValue;
  charges_list : list Call -> JSValue -> Completion (list JSValue);
  charges_retrieve : list Call -> JSValue -> Completion JSValue;
  balanceTransactions_retrieve : list Call -> JSValue -> Completion JSValue;
  customers_retrieve : list Call -> JSValue -> Completion JSValue
}.

(** Code of the services: it may throw, and it adds to the calls made. *)
Definition S (A : Type) : Type := list Call -> Completion A * list Call.

Definition ret {A} (a : A) : S A := fun log => (Normal a, log).

Definition throw {A} (e : JsError) : S A := fun log => (Throw e, log).

Definition bind {A B} (m : S A) (k : A -> S B) : S B :=
  fun log =>
    match m log with
    | (Normal a, log') => k a log'
    | (Throw e, log') => (Throw e, log')
    end.

Definition try_catch {A} (body : S A) (handler : JsError -> S A) : S A :=
  fun log =>
    match body log with
    | (Normal a, log') => (Normal a, log')
    | (Throw e, log') => handler e log'
    end.

Definition lift {A} (c : Completion A) : S A := fun log => (c, log).

Definition say (c : Call) : S unit := fun log => (Normal tt, (log ++ [c])%list).

(** A request to the client: recorded, then answered from the history. *)
Definition request {A} (c : Call) (answer : list Call -> Completion A) : S A :=
  fun log => (answer log, (log ++ [c])%list).

Declare Scope stripe_scope.
Delimit Scope stripe_scope with stripe.
Notation "x <- m ;; k" := (bind m (fun x => k))
  (at level 61, m at next level, right associativity) : stripe_scope.
Notation "m ;;; k" := (bind m (fun _ => k))
  (at level 61, right associativity) : stripe_scope.

(** [a || b], with [b] evaluated only when [a] is falsy. *)
Definition or_else (a : JSValue) (b : Completion JSValue) : Completion JSValue :=
  if JS.truthy a then Normal a else b.

(** [a === b].  Two objects are equal only when they are one and the same
    object; an object that a request has just answered with is not one the
    caller holds. *)
Definition strict_equal (a b : JSValue) : bool :=
  match a, b with
  | JUndefined, JUndefined => true
  | JNull, JNull => true
  | JBool x, JBool y => Bool.eqb x y
  | JNum x, JNum y => (x =? y)%Z
  | JStr x, JStr y => (x =? y)%string
  | _, _ => false
  end.

(** [text.includes(part)]. *)
Definition includes (text part : string) : bool :=
  match String.index 0 part text with
  | Some _ => true
  | None => false
  end.

(** The parameter of a function with a default value. *)
Definition or_default (value default : JSValue) : JSValue :=
  match value with
  | JUndefined => default
  | _ => value
  end.

End Stripe.

(* ================================================================== *)
(** ** modules/fintech/stripe/stripeService.js                         *)
(* ================================================================== *)

Module StripeService.
Import Stripe.
Section WithClient.
Context (client : Client)
        (toISOString : JSValue -> Completion JSValue).
          (* [new Date(created * 1000).toISOString()], given [created] *)
Local Open Scope stripe_scope.

(** [async getAccountDetails()]. *)
Definition getAccountDetails : S JSValue :=
  try_catch
    (request AccountsRetrieve (accounts_retrieve client))
    (fun error =>
       say (ConsoleError "Error retrieving Stripe account details:") ;;;
       throw (mkError EError "Failed to retrieve Stripe account details.")).

(** [async #_listCharges(options = {})]. *)
Definition listCharges (options : JSValue) : S (list JSValue) :=
  let options := or_default options (JObj []) in
  try_catch
    (request (ChargesList options) (fun history => charges_list client history options))
    (fun error =>
       say (ConsoleError "Error listing Stripe charges:") ;;;
       throw (mkError EError "Failed to list Stripe charges.")).

(** [async getPaymentHistory({ limit = 10 } = {})]. *)
Definition getPaymentHistory (parameter : JSValue) : S (list JSValue) :=
  let parameter := or_default parameter (JObj []) in
  limit <- lift (JS.get_prop parameter "limit") ;;
  let limit := or_default limit (JNum 10) in
  listCharges (JObj [("limit", limit)]).

(** [async listChargesByCustomer({ customerId, limit = 10 } = {})]. *)
Definition listChargesByCustomer (parameter : JSValue) : S (list JSValue) :=
  let parameter := or_default parameter (JObj []) in
  customerId <- lift (JS.get_prop parameter "customerId") ;;
  limit <- lift (JS.get_prop parameter "limit") ;;
  let limit := or_default limit (JNum 10) in
  if negb (JS.truthy customerId) then
    throw (mkError EError "customerId is required to list charges by customer.")
  else listCharges (JObj [("customer", customerId); ("limit", limit)]).

(** [async getChargeById(chargeId)]. *)
Definition getChargeById (chargeId : JSValue) : S JSValue :=
  if negb (JS.truthy chargeId) then
    throw (mkError EError "chargeId is required to retrieve a raw charge.")
  else
    try_catch
      (charge <- request (ChargesRetrieve chargeId)
                   (fun history => charges_retrieve client history chargeId) ;;
       if negb (JS.truthy charge) then
         id <- lift (JS.to_string chargeId) ;;
         throw (mkError EError ("Charge with ID " ++ id ++ " not found."))
       else ret charge)
      (fun error =>
         id <- lift (JS.to_string chargeId) ;;
         say (ConsoleError ("Error retrieving raw charge for ID " ++ id ++ ":")) ;;;
         throw (mkError EError ("Failed to retrieve raw charge for ID " ++ id ++ "."))).

(** Lines 95-106 of [getDetailedTransaction]: [feeDetails], as the pair of
    its [fee] and [net]. *)
Definition feeDetails (chargeId charge : JSValue) : S (JSValue * JSValue) :=
  amount <- lift (JS.get_prop charge "amount") ;;
  balance_transaction <- lift (JS.get_prop charge "balance_transaction") ;;
  if JS.truthy balance_transaction then
    balanceTransaction <- request (BalanceTransactionsRetrieve balance_transaction)
                            (fun history =>
                               balanceTransactions_retrieve client history
                                 balance_transaction) ;;
    fee <- lift (JS.get_prop balanceTransaction "fee") ;;
    net <- lift (JS.get_prop balanceTransaction "net") ;;
    ret (fee, net)
  else
    id <- lift (JS.to_string chargeId) ;;
    say (ConsoleWarn ("No balance_transaction found for charge " ++ id ++
                      ". Fee and net breakdown may not be available.")) ;;;
    ret (JNum 0, amount).

(** Lines 108-119 of [getDetailedTransaction]: [customerName]. *)
Definition customerName (charge : JSValue) : S JSValue :=
  customer_id <- lift (JS.get_prop charge "customer") ;;
  if JS.truthy customer_id then
    try_catch
      (customer <- request (CustomersRetrieve customer_id)
                     (fun history => customers_retrieve client history customer_id) ;;
       name <- lift (JS.get_prop customer "name") ;;
       lift (or_else name
               (let! description := JS.get_prop customer "description" in
                or_else description
                  (let! email := JS.get_prop customer "email" in
                   or_else email
                     (let! id := JS.get_prop customer "id" in
                      let! text := JS.to_string id in
                      Normal (JStr ("Customer ID: " ++ text)))))))
      (fun customerError =>
         text <- lift (JS.to_string customer_id) ;;
         say (ConsoleWarn ("Could not retrieve customer details for ID " ++ text ++ ":")) ;;;
         ret (JStr ("Customer ID: " ++ text ++ " (details unavailable)")))
  else
    billing_details <- lift (JS.get_prop charge "billing_details") ;;
    named <- lift (if JS.truthy billing_details
                   then JS.get_prop billing_details "name"
                   else Normal billing_details) ;;
    if JS.truthy named then ret named else ret (JStr "N/A").

(** [value || null]. *)
Definition or_null (value : JSValue) : JSValue :=
  if JS.truthy value then value else JNull.

(** [async getDetailedTransaction({ chargeId })]. *)
Definition getDetailedTransaction (parameter : JSValue) : S JSValue :=
  chargeId <- lift (JS.get_prop parameter "chargeId") ;;
  if negb (JS.truthy chargeId) then
    throw (mkError EError "chargeId is required to retrieve a detailed transaction.")
  else
    try_catch
      (charge <- getChargeById chargeId ;;
       fees <- feeDetails chargeId charge ;;
       name <- customerName charge ;;
       invoice <- lift (JS.get_prop charge "invoice") ;;
       receipt_url <- lift (JS.get_prop charge "receipt_url") ;;
       id <- lift (JS.get_prop charge "id") ;;
       status <- lift (JS.get_prop charge "status") ;;
       amount <- lift (JS.get_prop charge "amount") ;;
       currency <- lift (JS.get_prop charge "currency") ;;
       description <- lift (JS.get_prop charge "description") ;;
       created <- lift (JS.get_prop charge "created") ;;
       created <- lift (toISOString created) ;;
       ret (JObj [("id", id); ("status", status); ("total", amount);
                  ("currency", currency); ("fee", fst fees); ("net", snd fees);
                  ("customerName", name); ("invoiceId", or_null invoice);
                  ("receiptUrl", or_null receipt_url);
                  ("description", description); ("created", created)]))
      (fun error =>
         id <- lift (JS.to_string chargeId) ;;
         say (ConsoleError ("Error retrieving detailed transaction for charge ID "
                            ++ id ++ ":")) ;;;
         throw (mkError EError
                  ("Failed to retrieve detailed transaction for charge ID " ++ id ++
                   ". Check if the ID is valid and API key has permissions."))).

End WithClient.

(** An instance of the class, known by the client it created: the number
    of calls made before. *)
Record Instance : Type := { stripeClient : nat }.

(** What an instance answers to [instance.name]: the methods of the class
    body, which it inherits from the prototype.  The static [getInstance]
    belongs to the class, and [#_listCharges] is private. *)
Definition members : list string :=
  ["constructor"; "getAccountDetails"; "getPaymentHistory"; "listChargesByCustomer";
   "getChargeById"; "getDetailedTransaction"].

Section Class.
Context (env : string -> option string) (library : Library).
Local Open Scope stripe_scope.

(** [!process.env.STRIPE_SECRET_KEY]. *)
Definition no_secret : bool :=
  match env "STRIPE_SECRET_KEY" with
  | Some s => negb (JS.truthy_str s)
  | None => true
  end.

(** [new StripeService()], given the static [#instance]: the instance the
    expression yields and the static afterwards. *)
Definition constructor (instance : option Instance) : S (Instance * option Instance) :=
  match instance with
  | Some existing => ret (existing, instance)
  | None =>
      (if no_secret then
         say (ConsoleWarn "Stripe secret key (STRIPE_SECRET_KEY) is not set in environment variables. Stripe operations may fail.")
       else ret tt) ;;;
      created <- (fun log => (Normal (List.length log), log)) ;;
      request (NewStripe (env "STRIPE_SECRET_KEY"))
        (fun history => new_Stripe library history (env "STRIPE_SECRET_KEY")) ;;;
      let this := {| stripeClient := created |} in
      ret (this, Some this)
  end.

(** [static getInstance()]. *)
Definition getInstance (instance : option Instance) : S (Instance * option Instance) :=
  match instance with
  | Some existing => ret (existing, instance)
  | None => constructor instance
  end.

(** The module body: [export default StripeService.getInstance()]. *)
Definition evaluate : S Instance :=
  made <- getInstance None ;;
  ret (fst made).

End Class.
End StripeService.

(* ================================================================== *)
(** ** modules/fintech/stripe/customer_account.js                      *)
(* ================================================================== *)

Module CustomerStripeService.
Import Stripe.
Section WithClient.
Context (client : Client)
        (toISOString : JSValue -> Completion JSValue).
Local Open Scope stripe_scope.

(** The callback of [charges.map] in [getCustomerPayments]. *)
Definition payment (charge : JSValue) : Completion JSValue :=
  let! id := JS.get_prop charge "id" in
  let! status := JS.get_prop charge "status" in
  let! amount := JS.get_prop charge "amount" in
  let! currency := JS.get_prop charge "currency" in
  let! receipt_url := JS.get_prop charge "receipt_url" in
  let! invoice := JS.get_prop charge "invoice" in
  let! description := JS.get_prop charge "description" in
  let! created := JS.get_prop charge "created" in
  let! created := toISOString created in
  Normal (JObj [("id", id); ("status", status); ("total", amount);
                ("currency", currency);
                ("receiptUrl", StripeService.or_null receipt_url);
                ("invoiceId", StripeService.or_null invoice);
                ("description", description); ("created", created)]).

Fixpoint payments (charges : list JSValue) : Completion (list JSValue) :=
  match charges with
  | [] => Normal []
  | charge :: rest =>
      let! first := payment charge in
      let! others := payments rest in
      Normal (first :: others)
  end.

(** [async getCustomerPayments({ customerId, limit = 10 })]. *)
Definition getCustomerPayments (parameter : JSValue) : S (list JSValue) :=
  customerId <- lift (JS.get_prop parameter "customerId") ;;
  limit <- lift (JS.get_prop parameter "limit") ;;
  let limit := or_default limit (JNum 10) in
  if negb (JS.truthy customerId) then
    throw (mkError EError "customerId is required to retrieve customer payments.")
  else
    try_catch
      (charges <- StripeService.listChargesByCustomer client
                    (JObj [("customerId", customerId); ("limit", limit)]) ;;
       lift (payments charges))
      (fun error =>
         id <- lift (JS.to_string customerId) ;;
         say (ConsoleError ("Error retrieving payments for customer ID " ++ id ++ ":")) ;;;
         throw (mkError EError
                  ("Failed to retrieve customer payments for ID " ++ id ++ "."))).

Definition unauthorized : JsError :=
  mkError EError "Unauthorized: Charge does not belong to the specified customer.".

(** [async getCustomerDetailedTransaction({ customerId, chargeId })]. *)
Definition getCustomerDetailedTransaction (parameter : JSValue) : S JSValue :=
  customerId <- lift (JS.get_prop parameter "customerId") ;;
  chargeId <- lift (JS.get_prop parameter "chargeId") ;;
  if negb (JS.truthy customerId) || negb (JS.truthy chargeId) then
    throw (mkError EError
             "customerId and chargeId are required to retrieve a detailed customer transaction.")
  else
    try_catch
      (rawCharge <- StripeService.getChargeById client chargeId ;;
       owner <- lift (JS.get_prop rawCharge "customer") ;;
       if negb (JS.truthy owner) || negb (strict_equal owner customerId) then
         throw unauthorized
       else
         fullTransaction <- StripeService.getDetailedTransaction client toISOString
                              (JObj [("chargeId", chargeId)]) ;;
         id <- lift (JS.get_prop fullTransaction "id") ;;
         status <- lift (JS.get_prop fullTransaction "status") ;;
         total <- lift (JS.get_prop fullTransaction "total") ;;
         currency <- lift (JS.get_prop fullTransaction "currency") ;;
         customerName <- lift (JS.get_prop fullTransaction "customerName") ;;
         invoiceId <- lift (JS.get_prop fullTransaction "invoiceId") ;;
         receiptUrl <- lift (JS.get_prop fullTransaction "receiptUrl") ;;
         description <- lift (JS.get_prop fullTransaction "description") ;;
         created <- lift (JS.get_prop fullTransaction "created") ;;
         ret (JObj [("id", id); ("status", status); ("total", total);
                    ("currency", currency); ("customerName", customerName);
                    ("invoiceId", invoiceId); ("receiptUrl", receiptUrl);
                    ("description", description); ("created", created)]))
      (fun error =>
         customer <- lift (JS.to_string customerId) ;;
         charge <- lift (JS.to_string chargeId) ;;
         say (ConsoleError ("Error retrieving detailed transaction for customer ID "
                            ++ customer ++ ", charge ID " ++ charge ++ ":")) ;;;
         if includes (err_message error) "Unauthorized" then throw error
         else
           throw (mkError EError
                    ("Failed to retrieve detailed transaction for customer ID "
                     ++ customer ++ ", charge ID " ++ charge ++ "."))).

End WithClient.

(** An instance of the class: its [#baseStripeService]. *)
Record Instance : Type := { baseStripeService : StripeService.Instance }.

(** [receiver.name(...)] on an instance of [StripeService]: a name that is
    none of its members yields [undefined], and calling that throws. *)
Definition call_member (receiver name : string) : Completion unit :=
  if existsb (String.eqb name) StripeService.members then Normal tt
  else Throw (mkError ETypeError (receiver ++ "." ++ name ++ " is not a function")).

(** [new CustomerStripeService()], given the static [#instance] and the
    binding [StripeService], which is the default export of
    [stripeService.js]: an instance. *)
Definition constructor (StripeService : StripeService.Instance)
  (instance : option Instance) : Completion (Instance * option Instance) :=
  match instance with
  | Some existing => Normal (existing, instance)
  | None =>
      let! _ := call_member "StripeService" "getInstance" in
      let this := {| baseStripeService := StripeService |} in
      Normal (this, Some this)
  end.

(** [static getInstance()]. *)
Definition getInstance (StripeService : StripeService.Instance)
  (instance : option Instance) : Completion (Instance * option Instance) :=
  match instance with
  | Some existing => Normal (existing, instance)
  | None => constructor StripeService instance
  end.

(** Importing the module: [stripeService.js] is evaluated for the import,
    then the body, [export default CustomerStripeService.getInstance()]. *)
Definition load (env : string -> option string) (library : Library) : S Instance :=
  bind (StripeService.evaluate env library) (fun StripeService =>
  bind (lift (getInstance StripeService None)) (fun made =>
  ret (fst made))).

End CustomerStripeService.

(* ================================================================== *)
(** ** Further vocabulary                                              *)
(* ================================================================== *)

(** [get] gets past the cache from [w] and reaches the backend in [w1]:
    either the cache is not used, or the lookup returns nothing. *)
Definition reaches_backend (H : Host) (useCache : JSValue) (cacheKey : option string)
  (w w1 : World) : Prop :=
  (JS.truthy useCache && FnDatabaseAdapter.truthy_cacheKey cacheKey = false /\ w1 = w)
  \/ (JS.truthy useCache && FnDatabaseAdapter.truthy_cacheKey cacheKey = true
      /\ exists cached,
           FnRedisService.get H (FnDatabaseAdapter.cacheKey_text cacheKey) w
           = (Normal cached, w1)
           /\ JS.truthy cached = false).

(** What [get] does inside its [try] once it is past the cache, and its
    [catch] clause. *)
Definition get_backend_part (H : Host) (collection : string)
  (key useCache cacheExpiry : JSValue) (cacheKey : option string) : M JSValue :=
  bind (FnDatabaseAdapter.resolve H) (fun db =>
  bind (call (DbGet collection key) (fun history => b_get db history collection key))
    (fun doc =>
  bind (if JS.truthy doc && JS.truthy useCache
           && FnDatabaseAdapter.truthy_cacheKey cacheKey
        then
          bind (FnRedisService.set H (FnDatabaseAdapter.cacheKey_text cacheKey)
                  doc cacheExpiry) (fun _ =>
          bind (lift (JS.to_string cacheExpiry)) (fun expiry =>
          console_log ("Stored in cache with key: "
                       ++ FnDatabaseAdapter.cacheKey_text cacheKey
                       ++ " (expires in " ++ expiry ++ "s)")))
        else ret tt)
    (fun _ => ret doc))).

Definition get_catch (key : JSValue) (error : JsError) : M JSValue :=
  bind (lift (JS.to_string key)) (fun k =>
  bind (console_error ("Error getting document with key: " ++ k)) (fun _ =>
  throw error)).

(** A request to the facade, and the world after it has been served. *)
Inductive Request : Type :=
| GetRequest (collection : string) (key options : JSValue)
| SetRequest (collection : string) (keyOrQuery data : JSValue)
| FetchRequest (collection : string) (filters : JSValue).

Definition serve (H : Host) (r : Request) (w : World) : World :=
  match r with
  | GetRequest collection key options =>
      snd (FnDatabaseAdapter.get H collection key options w)
  | SetRequest collection keyOrQuery data =>
      snd (FnDatabaseAdapter.set H collection keyOrQuery data w)
  | FetchRequest collection filters =>
      snd (FnDatabaseAdapter.fetch H collection filters w)
  end.

Definition serve_all (H : Host) (requests : list Request) (w : World) : World :=
  fold_left (fun w r => serve H r w) requests w.

(** The adapter and the module map agree: nothing is loaded and
    [#dbInstance] is unset, or the configured module has been loaded once and
    [#dbInstance] is unset or holds its default export. *)
Definition loaded_once (H : Host) (w : World) : Prop :=
  (moduleMap w = [] /\ constructions w = 0 /\ dbInstance w = None)
  \/ (exists specifier settled,
        FnDatabaseAdapter.serviceModule_specifier H = Normal specifier
        /\ moduleMap w = [(specifier, settled)]
        /\ constructions w = 1
        /\ (forall b, dbInstance w = Some b -> settled = Normal b)).

(** From [w] to [w']: [loaded_once] is kept, and a backend handle, once
    held, is kept without any further load. *)
Definition keeps_loaded_once (H : Host) (w w' : World) : Prop :=
  loaded_once H w ->
  loaded_once H w'
  /\ (forall b, dbInstance w = Some b ->
                dbInstance w' = Some b /\ constructions w' = constructions w).

(** What the last [client.set] on [key] in a history stored ([None] before
    any). *)
Definition stored (key : string) (history : list Event) : option string :=
  fold_left (fun found e =>
               match e with
               | RedisSet k payload _ => if (k =? key)%string then payload else found
               | _ => found
               end) history None.

(** A cluster client that, at least until the entries expire, answers
    [get] with the payload last set on the key. *)
Definition remembers (H : Host) : Prop :=
  forall history key, client_get H history key = Normal (stored key history).

(** The text after a number stops [parseInt]: it is empty or begins with a
    character that is no decimal digit. *)
Definition ends_number (rest : string) : Prop :=
  match rest with
  | EmptyString => True
  | String c _ => Config.digit_value c = None
  end.

(** The integers a JS Number holds exactly. *)
Definition MAX_SAFE_INTEGER : Z := 9007199254740991.

(** A host whose cluster answers every [get] with what was last set, and
    whose [JSON] writes and reads the one document of the examples. *)
Definition remembering_host : Host :=
  {| process_env := fun _ => None;
     client_get := fun history key => Normal (stored key history);
     client_set := fun _ _ _ _ => Normal tt;
     JSON_parse := fun s => if (s =? "{...}")%string then Normal Example.user_u1
                            else Throw (mkError ESyntaxError "Unexpected token");
     JSON_stringify := fun v => match v with
                                | JUndefined => None
                                | _ => Some "{...}"
                                end;
     module_eval := fun _ _ => Normal Example.backend |}.

(** The document that a value read from the cluster holds, if it holds
    one: the parse of a text that is not empty, unless that is [null]. *)
Definition document_in (H : Host) (value : option string) : list JSValue :=
  match value with
  | Some s =>
      if JS.truthy_str s then
        match JSON_parse H s with
        | Normal JNull => []
        | Normal document => [document]
        | Throw _ => []
        end
      else []
  | None => []
  end.

(** The adapter has no backend, and the host has loaded nothing or has
    recorded the failure [error] for the module [specifier]. *)
Definition load_failed (specifier : string) (error : JsError) (w : World) : Prop :=
  dbInstance w = None
  /\ (moduleMap w = [] \/ moduleMap w = [(specifier, Throw error)]).

Definition keeps_load_failed (specifier : string) (error : JsError) (w w' : World)
  : Prop :=
  load_failed specifier error w -> load_failed specifier error w'.

(** Uses of the class [StripeService]: [new StripeService()] and
    [StripeService.getInstance()]; and a sequence of them, with the instances
    they yield. *)
Inductive Use : Type := New | GetInstance.

Definition use (env : string -> option string) (library : Stripe.Library) (u : Use)
  (instance : option StripeService.Instance)
  : Stripe.S (StripeService.Instance * option StripeService.Instance) :=
  match u with
  | New => StripeService.constructor env library instance
  | GetInstance => StripeService.getInstance env library instance
  end.

Fixpoint uses (env : string -> option string) (library : Stripe.Library)
  (us : list Use) (instance : option StripeService.Instance) (log : list Stripe.Call)
  : list StripeService.Instance * list Stripe.Call :=
  match us with
  | [] => ([], log)
  | u :: rest =>
      match use env library u instance log with
      | (Normal (yielded, instance'), log') =>
          let (others, final) := uses env library rest instance' log' in
          (yielded :: others, final)
      | (Throw _, log') => uses env library rest instance log'
      end
  end.

Definition is_NewStripe (c : Stripe.Call) : bool :=
  match c with Stripe.NewStripe _ => true | _ => false end.

(** Two objects with the same property names in the same order, which
    hold the same values except possibly under [name]. *)
Definition same_but (name : string) (a b : list (string * JSValue)) : Prop :=
  Forall2 (fun x y => fst x = fst y /\ (fst x <> name -> snd x = snd y)) a b.

(** Collaborators of the backends, for the examples: a Firestore client
    that holds one document, which has a field named [id]; a DynamoDB client
    that accepts every command; and a host that loads a given backend. *)
Module Collaborators.

Definition firestore : FnFirestoreService.Firestore :=
  {| FnFirestoreService.collection_ref := fun _ => Normal tt;
     FnFirestoreService.doc_ref := fun _ _ => Normal tt;
     FnFirestoreService.doc_get := fun _ _ _ =>
       Normal {| FnFirestoreService.snapshot_exists := true;
                 FnFirestoreService.snapshot_id := "u1";
                 FnFirestoreService.snapshot_data :=
                   JObj [("name", JStr "A"); ("id", JStr "legacy-7")] |};
     FnFirestoreService.doc_set := fun _ _ _ _ => Normal tt;
     FnFirestoreService.query_where := fun _ _ _ => Normal tt;
     FnFirestoreService.query_get := fun _ _ _ => Normal [] |}.

Definition dynamodb : FnDynamoDBService.DocumentClient :=
  {| FnDynamoDBService.send := fun _ _ =>
       Normal {| FnDynamoDBService.Item := JUndefined;
                 FnDynamoDBService.Items := [] |} |}.

Definition host (database_type : string) (backend : Backend) : Host :=
  {| process_env := fun name => if (name =? "DATABASE_TYPE")%string
                                then Some database_type else None;
     client_get := fun _ _ => Normal None;
     client_set := fun _ _ _ _ => Normal tt;
     JSON_parse := fun _ => Throw (mkError ESyntaxError "Unexpected token");
     JSON_stringify := fun v => match v with
                                | JUndefined => None
                                | _ => Some "{...}"
                                end;
     module_eval := fun _ _ => Normal backend |}.

(** The same host with a cluster that answers every [get] with what was
    last set, and a [JSON] that reads the one payload back as the document of
    the examples. *)
Definition remembering_host (database_type : string) (backend : Backend) : Host :=
  {| process_env := process_env (host database_type backend);
     client_get := fun history key => Normal (stored key history);
     client_set := fun _ _ _ _ => Normal tt;
     JSON_parse := fun s => if (s =? "{...}")%string then Normal Example.user_u1
                            else Throw (mkError ESyntaxError "Unexpected token");
     JSON_stringify := JSON_stringify (host database_type backend);
     module_eval := fun _ _ => Normal backend |}.

End Collaborators.

(* ================================================================== *)
(** * Properties                                                       *)
(* ================================================================== *)

Open Scope list_scope.

Ltac inv H := inversion H; subst; clear H.

Lemma append_colon_nonempty (collection rest : string) :
  JS.truthy_str (collection ++ ":" ++ rest)%string = true.
Proof. destruct collection; reflexivity. Qed.

Lemma get_cacheKey_truthy (collection : string) (key : JSValue) (ck : string) :
  FnDatabaseAdapter.get_cacheKey collection key = Normal (Some ck) ->
  FnDatabaseAdapter.truthy_cacheKey (Some ck) = true.
Proof.
  unfold FnDatabaseAdapter.get_cacheKey, bindC. intros Hk.
  repeat match type of Hk with
         | context [if ?b then _ else _] => destruct b
         | context [match ?c with Normal _ => _ | Throw _ => _ end] => destruct c
         end; inv Hk; apply append_colon_nonempty.
Qed.

(** What one [FnRedisService.get] does to the world: a [client.get], then
    at most a line on the console. *)
Lemma redis_get_footprint (H : Host) (key : string) (w : World) :
  exists log,
    trace (snd (FnRedisService.get H key w)) = trace w ++ RedisGet key :: log
    /\ Forall (fun e => is_cache_event e = false /\ is_backend_event e = false
                        /\ is_ModuleEval e = false) log
    /\ dbInstance (snd (FnRedisService.get H key w)) = dbInstance w
    /\ moduleMap (snd (FnRedisService.get H key w)) = moduleMap w.
Proof.
  unfold FnRedisService.get, FnRedisService.connect, try_catch, bind, call, ret,
    lift, throw, console_error, emit. simpl.
  destruct (client_get H (trace w) key) as [[s|]|e]; simpl.
  - destruct (JS.truthy_str s); simpl.
    + destruct (JSON_parse H s); simpl.
      * exists []. auto.
      * exists [ConsoleError ("Error getting data for key: " ++ key)%string].
        rewrite <- app_assoc. simpl. repeat split; auto.
    + exists []. auto.
  - exists []. auto.
  - exists [ConsoleError ("Error getting data for key: " ++ key)%string].
    rewrite <- app_assoc. simpl. repeat split; auto.
Qed.

Lemma get_prop_total (v : JSValue) (name other : string) (x : JSValue) :
  JS.get_prop v name = Normal x -> exists y, JS.get_prop v other = Normal y.
Proof.
  destruct v; simpl; intros Hx; try discriminate; eauto.
  destruct (other =? "length")%string; eauto.
  destruct (JS.index_of_string other); eauto.
Qed.

Lemma get_prop_not_default (H : Host) (v : JSValue) (name : string) (x : JSValue) :
  JS.get_prop v name = Normal x ->
  FnDatabaseAdapter.options_or_default H v = v.
Proof. destruct v; simpl; intros Hx; try discriminate; reflexivity. Qed.

Lemma filter_footprint (f : Event -> bool) (log : list Event) :
  Forall (fun e => f e = false) log -> filter f log = [].
Proof.
  induction 1 as [|e log He _ IH]; simpl; [reflexivity|]. now rewrite He.
Qed.

(** C1, as the code has it: with [useCache] truthy and a cache key derived,
    a failure of the Cache Store lookup ([redisService.get] throws) never
    becomes a miss: [get] fails, the Storage Backend is not consulted and no
    backend module is loaded.  What [get] throws is the cache error, after a
    line on the console; unless the key is an object whose conversion to a
    string throws: the template literal in the [catch] of [get] then throws
    that error in place of the cache error, and [get] logs nothing. *)
Theorem get_raises_cache_lookup_failure
  (H : Host) (collection : string) (key options : JSValue) (w w1 : World)
  (useCache : JSValue) (ck : string) (e : JsError) :
  JS.get_prop options "useCache" = Normal useCache ->
  JS.truthy useCache = true ->
  FnDatabaseAdapter.get_cacheKey collection key = Normal (Some ck) ->
  FnRedisService.get H ck w = (Throw e, w1) ->
  FnDatabaseAdapter.get H collection key options w
  = match JS.to_string key with
    | Normal k =>
        (Throw e,
         extend w1 [ConsoleError ("Error getting document with key: " ++ k)%string])
    | Throw conversion => (Throw conversion, w1)
    end
  /\ (forall doc, fst (FnDatabaseAdapter.get H collection key options w) <> Normal doc)
  /\ backend_calls (snd (FnDatabaseAdapter.get H collection key options w))
     = backend_calls w
  /\ constructions (snd (FnDatabaseAdapter.get H collection key options w))
     = constructions w.
Proof.
  intros Hu Ht Hk Hr.
  assert (Hget : FnDatabaseAdapter.get H collection key options w
                 = match JS.to_string key with
                   | Normal k =>
                       (Throw e,
                        extend w1 [ConsoleError
                                     ("Error getting document with key: " ++ k)%string])
                   | Throw conversion => (Throw conversion, w1)
                   end).
  { unfold FnDatabaseAdapter.get.
    rewrite (get_prop_not_default H _ _ _ Hu).
    destruct (get_prop_total _ _ "cacheExpiry" _ Hu) as [cacheExpiry He].
    unfold bind at 1, lift at 1. rewrite Hu.
    unfold bind at 1, lift at 1. rewrite He.
    unfold bind at 1, lift at 1. rewrite Hk.
    unfold FnDatabaseAdapter.get_try, try_catch.
    rewrite Ht, (get_cacheKey_truthy _ _ _ Hk). simpl.
    unfold bind at 1. unfold bind at 1. rewrite Hr.
    unfold bind, lift, console_error, emit, throw, extend.
    now destruct (JS.to_string key). }
  rewrite Hget. split; [reflexivity|].
  destruct (redis_get_footprint H ck w) as (log & Htr & Hlog & _ & _).
  rewrite Hr in Htr. simpl in Htr.
  assert (Hb : filter is_backend_event log = [])
    by (apply filter_footprint; eapply Forall_impl; [|exact Hlog]; simpl; tauto).
  assert (Hm : filter is_ModuleEval log = [])
    by (apply filter_footprint; eapply Forall_impl; [|exact Hlog]; simpl; tauto).
  destruct (JS.to_string key) as [k|conversion]; cbn [fst snd];
    (split; [discriminate|]);
    unfold backend_calls, constructions, extend; cbn [trace]; rewrite Htr;
    rewrite !filter_app; simpl; rewrite Hb, Hm; simpl; rewrite ?app_nil_r; auto.
Qed.

(** C1 fails as stated: the cluster client rejects the lookup, and [get]
    rejects with that error instead of returning the backend's document;
    the backend is never asked. *)
Lemma get_cache_failure_reaches_caller :
  let r := FnDatabaseAdapter.get
             (Example.host None (Throw Example.max_retries) (Normal tt))
             "users" (JStr "u1") Example.use_cache initial_world in
  fst r = Throw Example.max_retries
  /\ fst r <> Normal Example.user_u1
  /\ backend_calls (snd r) = [].
Proof.
  vm_compute. split; [reflexivity|]. split; [discriminate|reflexivity].
Qed.

Lemma get_raises_cache_lookup_failure_witness :
  let H := Example.host None (Throw Example.max_retries) (Normal tt) in
  let w1 := extend initial_world
              [RedisGet "users:u1"; ConsoleError "Error getting data for key: users:u1"] in
  let conversion := mkError ETypeError "Cannot convert object to primitive value" in
  FnDatabaseAdapter.get H "users" (JStr "u1") Example.use_cache initial_world =
    (Throw Example.max_retries,
     extend w1 [ConsoleError "Error getting document with key: u1"])
  /\ FnDatabaseAdapter.get H "users" (JObj [("toString", JStr "x")]) Example.use_cache
       initial_world
     = (Throw conversion,
        extend initial_world
          [RedisGet "users:x"; ConsoleError "Error getting data for key: users:x"])
  /\ backend_calls
       (snd (FnDatabaseAdapter.get H "users" (JStr "u1") Example.use_cache initial_world))
     = backend_calls initial_world
  /\ constructions
       (snd (FnDatabaseAdapter.get H "users" (JStr "u1") Example.use_cache initial_world))
     = constructions initial_world.
Proof.
  intros H w1 conversion.
  destruct (get_raises_cache_lookup_failure H "users" (JStr "u1") Example.use_cache
              initial_world w1 (JBool true) "users:u1" Example.max_retries
              eq_refl eq_refl eq_refl eq_refl) as (thrown & _ & backend & loads).
  destruct (get_raises_cache_lookup_failure H "users" (JObj [("toString", JStr "x")])
              Example.use_cache initial_world
              (extend initial_world
                 [RedisGet "users:x"; ConsoleError "Error getting data for key: users:x"])
              (JBool true) "users:x" Example.max_retries
              eq_refl eq_refl eq_refl eq_refl) as (converted & _).
  split; [exact thrown|]. split; [exact converted|]. split; [exact backend|exact loads].
Defined.

(* ------------------------------------------------------------------ *)
(** *** The configured default expiry                                  *)

Lemma DEFAULT_CACHE_EXPIRY_truthy (H : Host) :
  JS.truthy (JNum (FnDatabaseAdapter.DEFAULT_CACHE_EXPIRY H)) = true.
Proof.
  unfold FnDatabaseAdapter.DEFAULT_CACHE_EXPIRY, Config.DEFAULT_CACHE_EXPIRY. simpl.
  destruct (process_env H "DEFAULT_CACHE_EXPIRY") as [s|]; [|reflexivity].
  destruct (Config.parseInt s) as [n|]; [|reflexivity].
  destruct (n =? 0)%Z eqn:En; [reflexivity|]. now rewrite En.
Qed.

(* ------------------------------------------------------------------ *)
(** *** [set]                                                          *)

Lemma set_derived_cacheKey_truthy (H : Host) (collection : string)
  (keyOrQuery data updatedDoc : JSValue) (ck : string) :
  set_derived_cacheKey H collection keyOrQuery data updatedDoc = Normal (Some ck) ->
  FnDatabaseAdapter.truthy_cacheKey (Some ck) = true.
Proof.
  unfold set_derived_cacheKey, FnDatabaseAdapter.set_cacheKey_dynamodb,
    FnDatabaseAdapter.set_cacheKey, bindC. intros Hk.
  repeat match type of Hk with
         | context [if ?b then _ else _] => destruct b
         | context [match ?c with Normal _ => _ | Throw _ => _ end] => destruct c
         end; inv Hk; apply append_colon_nonempty.
Qed.

Ltac same_world :=
  unfold extend; simpl; rewrite <- ?app_assoc; reflexivity.

(** After a successful backend write, [set] goes by the cache key it
    derives: with a key it refreshes the Cache Store there, without one it
    leaves the cache alone, and when deriving the key throws it throws. *)
Lemma set_goes_by_derived_cacheKey
  (H : Host) (collection : string) (keyOrQuery data : JSValue) (w w1 : World)
  (db : Backend) (updatedDoc : JSValue) :
  FnDatabaseAdapter.resolve H w = (Normal db, w1) ->
  b_set db (trace w1) collection (set_arguments H keyOrQuery data) = Normal updatedDoc ->
  let w2 := extend w1 [DbSet collection (set_arguments H keyOrQuery data)] in
  match set_derived_cacheKey H collection keyOrQuery data updatedDoc with
  | Normal (Some ck) =>
      match client_set H (trace w2) ck (JSON_stringify H updatedDoc)
              (Some (JNum (FnDatabaseAdapter.DEFAULT_CACHE_EXPIRY H))) with
      | Normal _ =>
          FnDatabaseAdapter.set H collection keyOrQuery data w =
            (Normal updatedDoc,
             extend w2
               [refresh H ck updatedDoc;
                ConsoleLog ("Key " ++ String (ascii_of_nat 34) ck ++
                            String (ascii_of_nat 34) " successfully set in Redis Cluster.")%string;
                ConsoleLog ("Updated cache for key: " ++ ck ++ " (expires in " ++
                            JS.number_to_string (FnDatabaseAdapter.DEFAULT_CACHE_EXPIRY H)
                            ++ "s)")%string])
      | Throw e =>
          FnDatabaseAdapter.set H collection keyOrQuery data w =
            (Throw e,
             extend w2
               [refresh H ck updatedDoc;
                ConsoleError ("Error setting data for key: " ++ ck)%string;
                ConsoleError "Error setting document:"])
      end
  | Normal None =>
      FnDatabaseAdapter.set H collection keyOrQuery data w = (Normal updatedDoc, w2)
  | Throw e =>
      FnDatabaseAdapter.set H collection keyOrQuery data w =
        (Throw e, extend w2 [ConsoleError "Error setting document:"])
  end.
Proof.
  intros Hres Hset w2.
  pose proof (set_derived_cacheKey_truthy H collection keyOrQuery data updatedDoc) as Htruthy.
  pose proof (DEFAULT_CACHE_EXPIRY_truthy H) as Httl.
  destruct (set_derived_cacheKey H collection keyOrQuery data updatedDoc)
    as [[ck|]|e] eqn:Ed;
    [specialize (Htruthy ck eq_refl);
     destruct (client_set H (trace w2) ck (JSON_stringify H updatedDoc)
                 (Some (JNum (FnDatabaseAdapter.DEFAULT_CACHE_EXPIRY H)))) eqn:Ec | |];
    subst w2;
    unfold FnDatabaseAdapter.set, set_arguments, set_derived_cacheKey, refresh in *;
    unfold try_catch, bind; rewrite Hres;
    destruct (FnDatabaseAdapter.DATABASE_TYPE H =? "dynamodb")%string;
    unfold call, lift, ret; rewrite Hset, Ed;
    try rewrite Htruthy;
    unfold FnRedisService.set, FnRedisService.connect, try_catch, bind, ret, call,
      console_log, console_error, emit, throw, FnDatabaseAdapter.cacheKey_text;
    try rewrite Httl; unfold extend in *; simpl trace in *; try rewrite Ec;
    f_equal; same_world.
Qed.


Lemma lacks_is_falsy (doc : JSValue) (name : string) :
  lacks doc name ->
  exists x, FnDatabaseAdapter.and_prop doc name = Normal x /\ JS.truthy x = false.
Proof.
  unfold FnDatabaseAdapter.and_prop.
  intros [Hdoc|(value & Hvalue & Hfalsy)].
  - rewrite Hdoc. eauto.
  - destruct (JS.truthy doc) eqn:Hdoc; eauto.
Qed.

Lemma holds_is_truthy (doc : JSValue) (name : string) (value : JSValue) :
  holds doc name value -> FnDatabaseAdapter.and_prop doc name = Normal value.
Proof.
  unfold FnDatabaseAdapter.and_prop. intros (Hdoc & Hvalue & _). now rewrite Hdoc.
Qed.



(* ------------------------------------------------------------------ *)
(** *** Concurrent callers                                             *)

Section EventLoopFacts.
Context (H : Host).

Lemma Forall_update {A} (P : A -> Prop) (l : list A) (i : nat) (x : A) :
  Forall P l -> P x -> Forall P (EventLoop.update i x l).
Proof.
  intros Hl Hx. revert i.
  induction Hl as [|y l Hy Hl IH]; intros [|i]; simpl; auto.
Qed.

Lemma Forall_nth_error {A} (P : A -> Prop) (l : list A) (i : nat) (x : A) :
  Forall P l -> nth_error l i = Some x -> P x.
Proof.
  intros Hl Hi. rewrite Forall_forall in Hl. eauto using nth_error_In.
Qed.

Lemma loaded_singleton (specifier : string) (settled : Completion Backend) :
  FnDatabaseAdapter.loaded specifier [(specifier, settled)] = Some settled.
Proof. simpl. now rewrite String.eqb_refl. Qed.

Lemma count_after (history : list Event) (e : Event) :
  List.length (filter is_ModuleEval (history ++ [e])) =
  List.length (filter is_ModuleEval history) + (if is_ModuleEval e then 1 else 0).
Proof.
  rewrite filter_app, length_app. simpl. now destruct (is_ModuleEval e).
Qed.

Lemma single_flight_start (n : nat) : single_flight H (EventLoop.start n).
Proof.
  left. simpl. repeat split; auto.
  induction n; simpl; constructor; simpl; auto.
Qed.

Lemma waits_for_agrees (configured : Completion string) (s : string) settled db
  (callers : list EventLoop.Caller) :
  Forall (caller_agrees configured settled db) callers ->
  existsb (EventLoop.waits_for s) callers = true ->
  configured = Normal s.
Proof.
  intros Hall Hex. apply existsb_exists in Hex as (c & Hin & Hw).
  rewrite Forall_forall in Hall. specialize (Hall c Hin).
  destruct c; simpl in *; try discriminate.
  apply String.eqb_eq in Hw. now subst.
Qed.

(** Before the module is loaded no [initialize] has finished. *)
Lemma nothing_returned_before_load (specifier : string) settled
  (callers : list EventLoop.Caller) :
  Forall (caller_agrees (Normal specifier) None None) callers ->
  Forall (caller_agrees (Normal specifier) (Some settled) None) callers.
Proof.
  intros Hall. eapply Forall_impl; [|exact Hall].
  intros [| |[|]|]; simpl; auto; try discriminate.
  intros (b & Hb & _). discriminate.
Qed.

(** Setting [#dbInstance] to the module's default export keeps every
    caller in agreement. *)
Lemma agreement_after_assignment (specifier : string) (b : Backend) db
  (callers : list EventLoop.Caller) :
  (forall b', db = Some b' -> Normal b = Normal b') ->
  Forall (caller_agrees (Normal specifier) (Some (Normal b)) db) callers ->
  Forall (caller_agrees (Normal specifier) (Some (Normal b)) (Some b)) callers.
Proof.
  intros Hdb Hall. eapply Forall_impl; [|exact Hall].
  intros [| |[|]|]; simpl; auto.
  intros (b' & Hb' & Hdb'). inv Hb'. eauto.
Qed.

Lemma single_flight_turn (t : EventLoop.Turn) (c : EventLoop.Config) :
  single_flight H c -> single_flight H (EventLoop.turn H t c).
Proof.
  intros Hinv. destruct t as [i|s|i|i]; simpl.
  - (* a caller enters *)
    destruct (nth_error (EventLoop.callers c) i) as [[| | |]|] eqn:Ei; auto.
    unfold EventLoop.enter, FnDatabaseAdapter.initialize_begin,
      FnDatabaseAdapter.initialize_catch, FnDatabaseAdapter.read_dbInstance,
      bind, lift, throw, console_error, emit.
    destruct Hinv as [(Hmap & Hn & Hdb & Hall) | (sp & r & Hsp & Hmap & Hn & Hdb & Hall)].
    + rewrite Hdb.
      destruct (FnDatabaseAdapter.serviceModule_specifier H) as [sp|error] eqn:Esp; simpl.
      * left. simpl. repeat split; auto.
        rewrite Esp. apply Forall_update; simpl; auto.
      * left. unfold constructions in *. simpl. rewrite count_after, Hn. simpl.
        repeat split; auto. rewrite Esp. apply Forall_update; simpl; auto.
    + destruct (dbInstance (EventLoop.world c)) as [b|] eqn:Eb; simpl.
      * right. exists sp, r. simpl. rewrite ?Eb. repeat split; auto.
        apply Forall_update; simpl; auto. now rewrite (Hdb b eq_refl).
      * rewrite Hsp. simpl. right. exists sp, r. simpl. rewrite ?Eb.
        repeat split; auto.
        apply Forall_update; simpl; auto.
  - (* the host finishes loading a module *)
    destruct (existsb (EventLoop.waits_for s) (EventLoop.callers c)) eqn:Ew; auto.
    unfold FnDatabaseAdapter.host_load.
    destruct Hinv as [(Hmap & Hn & Hdb & Hall) | (sp & r & Hsp & Hmap & Hn & Hdb & Hall)].
    + pose proof (waits_for_agrees _ _ _ _ _ Hall Ew) as Hsp.
      rewrite Hmap in *. simpl. right.
      exists s, (module_eval H (trace (EventLoop.world c)) s). simpl.
      unfold constructions in *. simpl. rewrite count_after, Hn, Hdb. simpl.
      repeat split; auto; try discriminate.
      rewrite Hsp in Hall. now apply nothing_returned_before_load.
    + pose proof (waits_for_agrees _ _ _ _ _ Hall Ew) as Heq. inv Heq.
      rewrite Hmap, loaded_singleton. simpl. right. exists s, r. auto.
  - (* an [initialize] resumes *)
    destruct (nth_error (EventLoop.callers c) i) as [[|s| |]|] eqn:Ei; auto.
    destruct (FnDatabaseAdapter.loaded s (moduleMap (EventLoop.world c)))
      as [settled|] eqn:El; auto.
    destruct Hinv as [(Hmap & Hn & Hdb & Hall) | (sp & r & Hsp & Hmap & Hn & Hdb & Hall)].
    { rewrite Hmap in El. discriminate. }
    pose proof (Forall_nth_error _ _ _ _ Hall Ei) as Hs. simpl in Hs. inv Hs.
    rewrite Hmap, loaded_singleton in El. inv El.
    unfold FnDatabaseAdapter.initialize_resume,
      FnDatabaseAdapter.initialize_catch, FnDatabaseAdapter.set_dbInstance,
      try_catch, bind, lift, throw, console_error, emit.
    destruct settled as [b|e]; simpl.
    + right. exists s, (Normal b). simpl. repeat split; auto.
      * intros b' Hb'. now inv Hb'.
      * apply Forall_update; simpl; eauto.
        eapply agreement_after_assignment; eauto.
    + right. exists s, (Throw e). unfold constructions in *. simpl.
      rewrite count_after, Hn. simpl. repeat split; auto.
      apply Forall_update; simpl; auto.
  - (* a caller resumes *)
    destruct (nth_error (EventLoop.callers c) i) as [[| |returned|]|] eqn:Ei; auto.
    unfold FnDatabaseAdapter.read_dbInstance, bind, lift.
    destruct Hinv as [(Hmap & Hn & Hdb & Hall) | (sp & r & Hsp & Hmap & Hn & Hdb & Hall)].
    + pose proof (Forall_nth_error _ _ _ _ Hall Ei) as Hr. simpl in Hr.
      destruct (FnDatabaseAdapter.serviceModule_specifier H) as [sp|error] eqn:Esp.
      * destruct returned; [destruct Hr as (b & Hb & _)|]; discriminate.
      * subst returned. simpl. left. repeat split; auto.
        rewrite Esp. apply Forall_update; simpl; auto.
    + pose proof (Forall_nth_error _ _ _ _ Hall Ei) as Hr. simpl in Hr.
      destruct returned as [[]|e]; simpl.
      * destruct Hr as (b & Hb & Hdbb). rewrite Hdbb in *. simpl.
        right. exists sp, r. simpl. rewrite ?Hdbb. repeat split; auto.
        apply Forall_update; simpl; auto.
      * right. exists sp, r. repeat split; auto.
        apply Forall_update; simpl; auto.
Qed.

Lemma single_flight_run (schedule : list EventLoop.Turn) (c : EventLoop.Config) :
  single_flight H c -> single_flight H (EventLoop.run H schedule c).
Proof.
  revert c. induction schedule as [|t schedule IH]; intros c Hinv; simpl; auto.
  apply IH, single_flight_turn, Hinv.
Qed.

End EventLoopFacts.

(** C3, as the code has it: however the event loop interleaves [n] callers
    that find the adapter uninitialised, the host sets out to load a backend
    module at most once, and at most one backend service is constructed; any
    two callers that have settled have the same outcome, the same backend
    handle or the same error.  When that outcome is a handle, exactly one
    backend has been constructed, the one the callers hold; when it is an
    error, none has. *)
Theorem concurrent_resolutions_construct_at_most_once
  (H : Host) (n : nat) (schedule : list EventLoop.Turn) :
  let c := EventLoop.run H schedule (EventLoop.start n) in
  constructions (EventLoop.world c) <= 1
  /\ List.length (constructed (EventLoop.world c)) <= 1
  /\ (forall i j oi oj,
        nth_error (EventLoop.callers c) i = Some (EventLoop.Settled oi) ->
        nth_error (EventLoop.callers c) j = Some (EventLoop.Settled oj) ->
        oi = oj)
  /\ (forall i b,
        nth_error (EventLoop.callers c) i = Some (EventLoop.Settled (Normal b)) ->
        constructed (EventLoop.world c) = [b]
        /\ constructions (EventLoop.world c) = 1)
  /\ (forall i e,
        nth_error (EventLoop.callers c) i = Some (EventLoop.Settled (Throw e)) ->
        constructed (EventLoop.world c) = []).
Proof.
  intros c.
  pose proof (single_flight_run H schedule _ (single_flight_start H n)) as Hinv.
  fold c in Hinv. unfold constructed.
  destruct Hinv as [(Hmap & Hn & Hdb & Hall) | (sp & r & Hsp & Hmap & Hn & Hdb & Hall)];
    rewrite Hmap; cbn [flat_map snd].
  - split; [lia|]. split; [simpl; lia|]. split; [|split].
    + intros i j oi oj Hi Hj.
      pose proof (Forall_nth_error _ _ _ _ Hall Hi) as Hoi.
      pose proof (Forall_nth_error _ _ _ _ Hall Hj) as Hoj.
      simpl in Hoi, Hoj.
      destruct (FnDatabaseAdapter.serviceModule_specifier H); congruence.
    + intros i b Hi.
      pose proof (Forall_nth_error _ _ _ _ Hall Hi) as Ho. simpl in Ho.
      destruct (FnDatabaseAdapter.serviceModule_specifier H); discriminate.
    + reflexivity.
  - split; [lia|]. split; [destruct r; simpl; lia|]. split; [|split].
    + intros i j oi oj Hi Hj.
      pose proof (Forall_nth_error _ _ _ _ Hall Hi) as Hoi.
      pose proof (Forall_nth_error _ _ _ _ Hall Hj) as Hoj.
      simpl in Hoi, Hoj. congruence.
    + intros i b Hi.
      pose proof (Forall_nth_error _ _ _ _ Hall Hi) as Ho. simpl in Ho.
      injection Ho as ->. split; [reflexivity|exact Hn].
    + intros i e Hi.
      pose proof (Forall_nth_error _ _ _ _ Hall Hi) as Ho. simpl in Ho.
      injection Ho as ->. reflexivity.
Qed.

(** C3 fails as stated when the outcome is an error.  Three callers of an
    adapter whose [DATABASE_TYPE] has no branch all settle with the same
    error, and three callers of an adapter whose backend module fails to
    load do too: in neither case has a backend been constructed, let alone
    exactly once. *)
Lemma concurrent_callers_may_construct_no_backend :
  let unsupported := Example.host (Some "oracle") (Normal None) (Normal tt) in
  let missing := mkError (EHost "ERR_MODULE_NOT_FOUND") "Cannot find module" in
  let failing := {| process_env := fun name =>
                      if (name =? "DATABASE_TYPE")%string then Some "redis" else None;
                    client_get := fun _ _ => Normal None;
                    client_set := fun _ _ _ _ => Normal tt;
                    JSON_parse := fun _ => Normal JNull;
                    JSON_stringify := fun _ => None;
                    module_eval := fun _ _ => Throw missing |} in
  let c := EventLoop.run unsupported
             (EventLoop.round_robin 3 "../database/GCP/FnFirestore.js")
             (EventLoop.start 3) in
  let c' := EventLoop.run failing
              (EventLoop.round_robin 3 "../database/CACHE/FnRedis.js")
              (EventLoop.start 3) in
  (EventLoop.callers c
   = repeat (EventLoop.Settled (Throw (unsupported_error unsupported))) 3
   /\ constructed (EventLoop.world c) = []
   /\ constructions (EventLoop.world c) = 0)
  /\ (EventLoop.callers c' = repeat (EventLoop.Settled (Throw missing)) 3
      /\ constructed (EventLoop.world c') = []).
Proof.
  vm_compute. repeat split.
Qed.

(* ------------------------------------------------------------------ *)
(** *** Every caller gets its outcome                                  *)

Section RoundRobin.
Context (H : Host) (specifier : string).
Hypothesis configured : FnDatabaseAdapter.serviceModule_specifier H = Normal specifier.

Lemma nth_error_middle {A} (pre rest : list A) (x : A) :
  nth_error (pre ++ x :: rest) (List.length pre) = Some x.
Proof. induction pre; simpl; auto. Qed.

Lemma update_middle {A} (pre rest : list A) (x y : A) :
  EventLoop.update (List.length pre) y (pre ++ x :: rest) = pre ++ y :: rest.
Proof. induction pre; simpl; auto. now rewrite IHpre. Qed.

Lemma run_app (s1 s2 : list EventLoop.Turn) (c : EventLoop.Config) :
  EventLoop.run H (s1 ++ s2) c = EventLoop.run H s2 (EventLoop.run H s1 c).
Proof. apply fold_left_app. Qed.

Lemma everyone_enters (m : nat) (pre : list EventLoop.Caller) (w : World) :
  dbInstance w = None ->
  EventLoop.run H (map EventLoop.Enter (seq (List.length pre) m))
    {| EventLoop.world := w;
       EventLoop.callers := pre ++ repeat EventLoop.NotCalled m |}
  = {| EventLoop.world := w;
       EventLoop.callers := pre ++ repeat (EventLoop.Importing specifier) m |}.
Proof.
  intros Hdb. revert pre.
  induction m as [|m IH]; intros pre; simpl; [reflexivity|].
  rewrite nth_error_middle.
  unfold EventLoop.enter, FnDatabaseAdapter.initialize_begin.
  rewrite Hdb, configured, update_middle.
  specialize (IH (pre ++ [EventLoop.Importing specifier])).
  rewrite length_app, Nat.add_1_r, <- !app_assoc in IH. exact IH.
Qed.

Lemma everyone_wakes (m : nat) (pre : list EventLoop.Caller) (w : World)
  (settled : Completion Backend) :
  FnDatabaseAdapter.loaded specifier (moduleMap w) = Some settled ->
  Forall (fun c => EventLoop.is_returned c = true) pre ->
  Forall (fun c => EventLoop.is_returned c = true)
    (EventLoop.callers
       (EventLoop.run H (map EventLoop.Wake (seq (List.length pre) m))
          {| EventLoop.world := w;
             EventLoop.callers := pre ++ repeat (EventLoop.Importing specifier) m |})).
Proof.
  revert pre w.
  induction m as [|m IH]; intros pre w Hl Hpre; simpl.
  { now rewrite app_nil_r. }
  rewrite nth_error_middle, Hl.
  destruct (FnDatabaseAdapter.initialize_resume settled w) as [returned w'] eqn:Er.
  rewrite update_middle.
  assert (Hmap : moduleMap w' = moduleMap w).
  { revert Er.
    unfold FnDatabaseAdapter.initialize_resume,
      FnDatabaseAdapter.initialize_catch, FnDatabaseAdapter.set_dbInstance,
      try_catch, bind, lift, throw, console_error, emit.
    destruct settled; simpl; intros Er; inv Er; reflexivity. }
  specialize (IH (pre ++ [EventLoop.Returned returned]) w').
  rewrite length_app, Nat.add_1_r, <- !app_assoc in IH. apply IH.
  - now rewrite Hmap.
  - apply Forall_app. split; auto.
Qed.

Lemma everyone_finishes (rest pre : list EventLoop.Caller) (w : World) :
  Forall (fun c => EventLoop.is_settled c = true) pre ->
  Forall (fun c => EventLoop.is_returned c = true) rest ->
  Forall (fun c => EventLoop.is_settled c = true)
    (EventLoop.callers
       (EventLoop.run H
          (map EventLoop.Finish (seq (List.length pre) (List.length rest)))
          {| EventLoop.world := w; EventLoop.callers := pre ++ rest |})).
Proof.
  revert pre w.
  induction rest as [|x rest IH]; intros pre w Hpre Hrest; simpl.
  { now rewrite app_nil_r. }
  inv Hrest. destruct x as [| |returned|]; try discriminate.
  rewrite nth_error_middle.
  destruct (bind (lift returned) (fun _ => FnDatabaseAdapter.read_dbInstance) w)
    as [outcome w'].
  rewrite update_middle.
  specialize (IH (pre ++ [EventLoop.Settled outcome]) w').
  rewrite length_app, Nat.add_1_r, <- !app_assoc in IH. apply IH; auto.
  apply Forall_app. split; auto.
Qed.

Lemma length_update {A} (i : nat) (x : A) (l : list A) :
  List.length (EventLoop.update i x l) = List.length l.
Proof. revert i. induction l; intros [|i]; simpl; auto. Qed.

Lemma length_callers_turn (t : EventLoop.Turn) (c : EventLoop.Config) :
  List.length (EventLoop.callers (EventLoop.turn H t c))
  = List.length (EventLoop.callers c).
Proof.
  destruct t as [i|s|i|i]; simpl.
  - destruct (nth_error (EventLoop.callers c) i) as [[| | |]|]; auto.
    destruct (EventLoop.enter H (EventLoop.world c)).
    simpl. apply length_update.
  - destruct (existsb (EventLoop.waits_for s) (EventLoop.callers c)); auto.
  - destruct (nth_error (EventLoop.callers c) i) as [[|s| |]|]; auto.
    destruct (FnDatabaseAdapter.loaded s (moduleMap (EventLoop.world c))); auto.
    destruct (FnDatabaseAdapter.initialize_resume c0 (EventLoop.world c)).
    simpl. apply length_update.
  - destruct (nth_error (EventLoop.callers c) i) as [[| |returned|]|]; auto.
    destruct (bind (lift returned) (fun _ => FnDatabaseAdapter.read_dbInstance)
                (EventLoop.world c)).
    simpl. apply length_update.
Qed.

Lemma length_callers_run (schedule : list EventLoop.Turn) (c : EventLoop.Config) :
  List.length (EventLoop.callers (EventLoop.run H schedule c))
  = List.length (EventLoop.callers c).
Proof.
  revert c. induction schedule as [|t schedule IH]; intros c; simpl; [reflexivity|].
  now rewrite IH, length_callers_turn.
Qed.

(** Under the schedule that lets everybody enter, lets the host load the
    module, resumes every [initialize] and then every caller, all [n]
    callers settle. *)
Lemma round_robin_settles_everyone (n : nat) :
  Forall (fun c => EventLoop.is_settled c = true)
    (EventLoop.callers
       (EventLoop.run H (EventLoop.round_robin n specifier) (EventLoop.start n)))
  /\ List.length
       (EventLoop.callers
          (EventLoop.run H (EventLoop.round_robin n specifier) (EventLoop.start n))) = n.
Proof.
  split.
  2:{ rewrite length_callers_run. simpl. apply repeat_length. }
  unfold EventLoop.round_robin, EventLoop.start.
  rewrite !run_app.
  pose proof (everyone_enters n [] initial_world eq_refl) as Henter.
  simpl in Henter. rewrite Henter. clear Henter.
  destruct n as [|n].
  { simpl. auto. }
  assert (Hwait : existsb (EventLoop.waits_for specifier)
                    (repeat (EventLoop.Importing specifier) (S n)) = true).
  { simpl. now rewrite String.eqb_refl. }
  unfold EventLoop.run at 3.
  cbn [fold_left EventLoop.turn EventLoop.callers EventLoop.world].
  rewrite Hwait.
  set (loaded_world := snd (FnDatabaseAdapter.host_load H specifier initial_world)).
  assert (Hloaded : FnDatabaseAdapter.loaded specifier (moduleMap loaded_world)
                    = Some (module_eval H [] specifier)).
  { subst loaded_world. simpl. now rewrite String.eqb_refl. }
  pose proof (everyone_wakes (S n) [] loaded_world _ Hloaded (Forall_nil _)) as Hwake.
  cbn [List.length app] in Hwake.
  pose proof (length_callers_run (map EventLoop.Wake (seq 0 (S n)))
                {| EventLoop.world := loaded_world;
                   EventLoop.callers := repeat (EventLoop.Importing specifier) (S n) |})
    as Hlen.
  cbn [EventLoop.callers] in Hlen. rewrite repeat_length in Hlen.
  destruct (EventLoop.run H (map EventLoop.Wake (seq 0 (S n)))
              {| EventLoop.world := loaded_world;
                 EventLoop.callers := repeat (EventLoop.Importing specifier) (S n) |})
    as [w' returned].
  cbn [EventLoop.callers] in Hlen, Hwake. rewrite <- Hlen.
  apply (everyone_finishes returned [] w'); [constructor|exact Hwake].
Qed.

End RoundRobin.

Lemma concurrent_resolutions_construct_at_most_once_witness :
  let H := Example.host None (Normal None) (Normal tt) in
  let c := EventLoop.run H (EventLoop.round_robin 50 "../database/GCP/FnFirestore.js")
             (EventLoop.start 50) in
  nth_error (EventLoop.callers c) 0 = Some (EventLoop.Settled (Normal Example.backend))
  /\ nth_error (EventLoop.callers c) 49 = Some (EventLoop.Settled (Normal Example.backend))
  /\ constructed (EventLoop.world c) = [Example.backend]
  /\ constructions (EventLoop.world c) = 1.
Proof.
  intros H c.
  assert (first : nth_error (EventLoop.callers c) 0
                  = Some (EventLoop.Settled (Normal Example.backend)))
    by (vm_compute; reflexivity).
  assert (last : nth_error (EventLoop.callers c) 49
                 = Some (EventLoop.Settled (Normal Example.backend)))
    by (vm_compute; reflexivity).
  destruct (concurrent_resolutions_construct_at_most_once H 50
              (EventLoop.round_robin 50 "../database/GCP/FnFirestore.js"))
    as (_ & _ & _ & once & _).
  split; [exact first|]. split; [exact last|].
  exact (once 0 Example.backend first).
Defined.

(* ------------------------------------------------------------------ *)
(** *** Following a computation along a relation on worlds             *)

Section Respects.
Context (R : World -> World -> Prop) (HR : Stepwise R).

Lemma respects_ret {A} (a : A) : respects R (ret a).
Proof. intros w. apply HR. Qed.

Lemma respects_throw {A} (e : JsError) : respects R (@throw A e).
Proof. intros w. apply HR. Qed.

Lemma respects_lift {A} (c : Completion A) : respects R (lift c).
Proof. intros w. apply HR. Qed.

Lemma respects_emit (e : Event) : allows R e -> respects R (emit e).
Proof. intros He w. apply He. Qed.

Lemma respects_call {A} (e : Event) (answer : list Event -> Completion A) :
  allows R e -> respects R (call e answer).
Proof. intros He w. apply He. Qed.

Lemma respects_bind {A B} (m : M A) (k : A -> M B) :
  respects R m -> (forall a, respects R (k a)) -> respects R (bind m k).
Proof.
  intros Hm Hk w. unfold bind. specialize (Hm w).
  destruct (m w) as [[a|e] w1]; simpl in *; [|exact Hm].
  eapply stepwise_trans; [exact HR|exact Hm|apply Hk].
Qed.

Lemma respects_try_catch {A} (body : M A) (handler : JsError -> M A) :
  respects R body -> (forall e, respects R (handler e)) ->
  respects R (try_catch body handler).
Proof.
  intros Hm Hk w. unfold try_catch. specialize (Hm w).
  destruct (body w) as [[a|e] w1]; simpl in *; [exact Hm|].
  eapply stepwise_trans; [exact HR|exact Hm|apply Hk].
Qed.

(** The continuation of a pure step may use what the step returned. *)
Lemma respects_bind_lift {A B} (c : Completion A) (k : A -> M B) :
  (forall a, c = Normal a -> respects R (k a)) -> respects R (bind (lift c) k).
Proof.
  intros Hk. destruct c as [a|e]; intros w.
  - apply (Hk a eq_refl w).
  - apply HR.
Qed.

Lemma respects_console_log (message : string) : respects R (console_log message).
Proof. apply respects_emit, HR. Qed.

Lemma respects_console_error (message : string) : respects R (console_error message).
Proof. apply respects_emit, HR. Qed.

Ltac along :=
  repeat first
    [ apply respects_ret
    | apply respects_throw
    | apply respects_lift
    | apply respects_console_log
    | apply respects_console_error
    | assumption
    | apply respects_call; solve [auto]
    | apply respects_bind; [|intros ?]
    | apply respects_try_catch; [|intros ?] ].

Context (H : Host).

Lemma respects_redis_get (key : string) :
  allows R (RedisGet key) -> respects R (FnRedisService.get H key).
Proof.
  intros Hk. unfold FnRedisService.get, FnRedisService.connect. along.
  destruct a0 as [s|]; [|along]. destruct (JS.truthy_str s); along.
Qed.

Lemma respects_redis_set (key : string) (data expiresInSeconds : JSValue) :
  allows R (RedisSet key (JSON_stringify H data) (expiry_argument expiresInSeconds)) ->
  respects R (FnRedisService.set H key data expiresInSeconds).
Proof.
  intros Hk. unfold FnRedisService.set, FnRedisService.connect, expiry_argument in *.
  along. destruct (JS.truthy expiresInSeconds); along.
Qed.

Hypothesis resolving : respects R (FnDatabaseAdapter.resolve H).

(** [get] stays within [R] if its calls do: the lookup and the write in
    the Cache Store under the derived key, the write with the caller's
    [cacheExpiry], and the read on the backend. *)
Lemma respects_get (collection : string) (key options : JSValue) :
  allows R (DbGet collection key) ->
  (forall ck, FnDatabaseAdapter.get_cacheKey collection key = Normal (Some ck) ->
              allows R (RedisGet ck)) ->
  (forall ck doc cacheExpiry,
      FnDatabaseAdapter.get_cacheKey collection key = Normal (Some ck) ->
      JS.get_prop (FnDatabaseAdapter.options_or_default H options) "cacheExpiry"
      = Normal cacheExpiry ->
      allows R (RedisSet ck (JSON_stringify H doc) (expiry_argument cacheExpiry))) ->
  respects R (FnDatabaseAdapter.get H collection key options).
Proof.
  intros Hdb Hget Hset. unfold FnDatabaseAdapter.get.
  apply respects_bind_lift. intros useCache _.
  apply respects_bind_lift. intros cacheExpiry Hexp.
  apply respects_bind_lift. intros cacheKey Hkey.
  unfold FnDatabaseAdapter.get_try.
  apply respects_try_catch; [|intros e; along].
  apply respects_bind.
  - destruct (JS.truthy useCache && FnDatabaseAdapter.truthy_cacheKey cacheKey)
      eqn:Euse; [|along].
    destruct cacheKey as [ck|]; [|now rewrite andb_false_r in Euse]. simpl.
    apply respects_bind; [apply respects_redis_get; auto|intros cachedData].
    destruct (JS.truthy cachedData); along.
  - intros [cachedData|]; [along|].
    apply respects_bind; [along|intros db].
    apply respects_bind; [along|intros doc].
    apply respects_bind; [|intros _; along].
    destruct (JS.truthy doc && JS.truthy useCache
              && FnDatabaseAdapter.truthy_cacheKey cacheKey) eqn:Euse; [|along].
    destruct cacheKey as [ck|]; [|now rewrite andb_false_r in Euse]. simpl.
    apply respects_bind; [apply respects_redis_set; auto|intros _]. along.
Qed.

(** [set] stays within [R] if the write on the backend and the refresh of
    the Cache Store with the default expiry do. *)
Lemma respects_set (collection : string) (keyOrQuery data : JSValue) :
  allows R (DbSet collection (set_arguments H keyOrQuery data)) ->
  (forall ck updatedDoc, allows R (refresh H ck updatedDoc)) ->
  respects R (FnDatabaseAdapter.set H collection keyOrQuery data).
Proof.
  intros Hdb Hrefresh. unfold FnDatabaseAdapter.set, set_arguments, refresh in *.
  apply respects_try_catch; [|intros e; along].
  apply respects_bind; [along|intros db].
  apply respects_bind.
  - destruct (FnDatabaseAdapter.DATABASE_TYPE H =? "dynamodb")%string; along.
  - intros [updatedDoc cacheKey].
    apply respects_bind; [|intros _; along].
    destruct (FnDatabaseAdapter.truthy_cacheKey cacheKey); [|along].
    apply respects_bind; [|intros _; along].
    apply respects_redis_set. unfold expiry_argument.
    now rewrite DEFAULT_CACHE_EXPIRY_truthy.
Qed.

(** [fetch] stays within [R] if the query on the backend does. *)
Lemma respects_fetch (collection : string) (filters : JSValue) :
  allows R (DbFetch collection (FnDatabaseAdapter.filters_or_default filters)) ->
  respects R (FnDatabaseAdapter.fetch H collection filters).
Proof. intros Hdb. unfold FnDatabaseAdapter.fetch. along. Qed.

End Respects.

(* ------------------------------------------------------------------ *)
(** *** The two relations in use                                       *)

Lemma logs_stepwise (P : Event -> Prop) :
  (forall e, is_console e = true -> P e) -> Stepwise (logs P).
Proof.
  intros Hconsole. split.
  - intros w. exists []. now rewrite app_nil_r.
  - intros a b c (l1 & H1 & P1) (l2 & H2 & P2).
    exists (l1 ++ l2). rewrite H2, H1, app_assoc. split; auto.
    apply Forall_app; auto.
  - intros message w. exists [ConsoleLog message]. simpl. auto.
  - intros message w. exists [ConsoleError message]. simpl. auto.
Qed.

Lemma logs_allows (P : Event -> Prop) (e : Event) : P e -> allows (logs P) e.
Proof. intros He w. exists [e]. simpl. auto. Qed.

Lemma same_adapter_stepwise : Stepwise same_adapter.
Proof.
  split; unfold same_adapter, allows; simpl; auto.
  intros a b c [] []. split; congruence.
Qed.

Lemma same_adapter_allows (e : Event) : allows same_adapter e.
Proof. intros w. split; reflexivity. Qed.

(** Resolving the backend only ever loads a module and writes to the
    console. *)
Lemma resolve_logs (P : Event -> Prop) (H : Host) :
  (forall s, P (ModuleEval s)) -> (forall e, is_console e = true -> P e) ->
  footprint P (FnDatabaseAdapter.resolve H).
Proof.
  intros Hmod Hconsole w.
  unfold FnDatabaseAdapter.resolve, FnDatabaseAdapter.initialize,
    FnDatabaseAdapter.initialize_begin, FnDatabaseAdapter.initialize_resume,
    FnDatabaseAdapter.initialize_catch, FnDatabaseAdapter.read_dbInstance,
    FnDatabaseAdapter.set_dbInstance, try_catch, bind, lift, throw,
    console_error, emit.
  destruct (dbInstance w) as [b|] eqn:Edb; simpl.
  { exists []. now rewrite app_nil_r. }
  destruct (FnDatabaseAdapter.serviceModule_specifier H) as [specifier|error]; simpl.
  - unfold FnDatabaseAdapter.host_load.
    destruct (FnDatabaseAdapter.loaded specifier (moduleMap w)) as [[b|e]|]; simpl.
    + exists []. now rewrite app_nil_r.
    + exists [ConsoleError "Failed to initialize database service:"]. auto.
    + destruct (module_eval H (trace w) specifier) as [b|e]; simpl.
      * exists [ModuleEval specifier]. auto.
      * exists [ModuleEval specifier; ConsoleError "Failed to initialize database service:"].
        rewrite <- app_assoc. auto.
  - exists [ConsoleError "Failed to initialize database service:"]. auto.
Qed.

Lemma any_event_stepwise : Stepwise (logs any_event).
Proof. apply logs_stepwise. intros e _. exact I. Qed.

Lemma any_event_allows (e : Event) : allows (logs any_event) e.
Proof. apply logs_allows. exact I. Qed.

Lemma any_event_resolve (H : Host) : footprint any_event (FnDatabaseAdapter.resolve H).
Proof. apply resolve_logs; intros; exact I. Qed.

Ltac footprint_any :=
  unfold footprint;
  repeat first
    [ apply (respects_ret _ any_event_stepwise)
    | apply (respects_throw _ any_event_stepwise)
    | apply (respects_lift _ any_event_stepwise)
    | apply (respects_console_log _ any_event_stepwise)
    | apply (respects_console_error _ any_event_stepwise)
    | apply any_event_resolve
    | apply respects_call; apply any_event_allows
    | apply (respects_redis_get _ any_event_stepwise); apply any_event_allows
    | apply (respects_redis_set _ any_event_stepwise); apply any_event_allows
    | apply (respects_bind _ any_event_stepwise); [|intros ?]
    | apply (respects_try_catch _ any_event_stepwise); [|intros ?]
    | match goal with
      | |- respects _ (if ?b then _ else _) => destruct b
      | |- respects _ (match ?x with Some _ => _ | None => _ end) => destruct x
      end ].

(* ------------------------------------------------------------------ *)
(** *** Traces that begin with given calls                             *)

Lemma continues_bind_step {A B} (base : list Event) (m : M A) (k : A -> M B)
  (w w1 : World) (a : A) :
  m w = (Normal a, w1) -> continues base (k a) w1 -> continues base (bind m k) w.
Proof. intros Hm Hk. unfold continues, bind. now rewrite Hm. Qed.

Lemma continues_bind_first {A B} (base : list Event) (m : M A) (k : A -> M B)
  (w : World) :
  continues base m w -> (forall a, footprint any_event (k a)) ->
  continues base (bind m k) w.
Proof.
  intros (rest & Hm) Hk. unfold continues, bind.
  destruct (m w) as [[a|e] w1]; simpl in *.
  - destruct (Hk a w1) as (log & Htr & _).
    exists (rest ++ log). now rewrite Htr, Hm, app_assoc.
  - eauto.
Qed.

Lemma continues_try_catch {A} (base : list Event) (body : M A)
  (handler : JsError -> M A) (w : World) :
  continues base body w -> (forall e, footprint any_event (handler e)) ->
  continues base (try_catch body handler) w.
Proof.
  intros (rest & Hm) Hk. unfold continues, try_catch.
  destruct (body w) as [[a|e] w1]; simpl in *.
  - eauto.
  - destruct (Hk e w1) as (log & Htr & _).
    exists (rest ++ log). now rewrite Htr, Hm, app_assoc.
Qed.

Lemma continues_redis_get (H : Host) (key : string) (w : World) :
  continues (trace w ++ [RedisGet key]) (FnRedisService.get H key) w.
Proof.
  destruct (redis_get_footprint H key w) as (log & Htr & _).
  exists log. now rewrite Htr, <- app_assoc.
Qed.

Lemma continues_redis_set (H : Host) (key : string) (data expiresInSeconds : JSValue)
  (w : World) :
  continues (trace w ++ [RedisSet key (JSON_stringify H data)
                           (expiry_argument expiresInSeconds)])
    (FnRedisService.set H key data expiresInSeconds) w.
Proof.
  unfold FnRedisService.set, FnRedisService.connect, expiry_argument.
  apply continues_try_catch; [|intros e; footprint_any].
  apply continues_bind_step with (w1 := w) (a := tt); [reflexivity|].
  apply continues_bind_first; [|intros _; footprint_any].
  destruct (JS.truthy expiresInSeconds); exists []; simpl; now rewrite app_nil_r.
Qed.

(** For a string key the cache key is [collection:key]; with [useCache]
    truthy the first call [get] makes is the Cache Store lookup under that
    key, and when the lookup misses and the backend returns a document, the
    backend read is followed by a Cache Store write under the same key. *)
Lemma string_key_consults_and_populates_cache
  (H : Host) (collection k : string) (options : JSValue) (w : World)
  (useCache cacheExpiry : JSValue) :
  JS.get_prop options "useCache" = Normal useCache ->
  JS.truthy useCache = true ->
  JS.get_prop options "cacheExpiry" = Normal cacheExpiry ->
  let ck := (collection ++ ":" ++ k)%string in
  FnDatabaseAdapter.get_cacheKey collection (JStr k) = Normal (Some ck)
  /\ (exists rest,
        trace (snd (FnDatabaseAdapter.get H collection (JStr k) options w))
        = trace w ++ RedisGet ck :: rest)
  /\ (forall cached w1 db w2 doc,
        FnRedisService.get H ck w = (Normal cached, w1) ->
        JS.truthy cached = false ->
        FnDatabaseAdapter.resolve H w1 = (Normal db, w2) ->
        b_get db (trace w2) collection (JStr k) = Normal doc ->
        JS.truthy doc = true ->
        exists rest,
          trace (snd (FnDatabaseAdapter.get H collection (JStr k) options w))
          = trace w2 ++ DbGet collection (JStr k)
              :: RedisSet ck (JSON_stringify H doc) (expiry_argument cacheExpiry)
              :: rest).
Proof.
  intros Hu Ht He ck.
  assert (Hk : FnDatabaseAdapter.get_cacheKey collection (JStr k) = Normal (Some ck))
    by reflexivity.
  pose proof (get_cacheKey_truthy _ _ _ Hk) as Hck.
  split; [exact Hk|].
  assert (Hshape : forall base,
    continues base
      (FnDatabaseAdapter.get_try H collection (JStr k) useCache cacheExpiry (Some ck)) w ->
    continues base (FnDatabaseAdapter.get H collection (JStr k) options) w).
  { intros base Hc. unfold FnDatabaseAdapter.get.
    rewrite (get_prop_not_default H _ _ _ Hu).
    unfold continues in *.
    unfold bind at 1, lift at 1. rewrite Hu.
    unfold bind at 1, lift at 1. rewrite He.
    unfold bind at 1, lift at 1. rewrite Hk. exact Hc. }
  split.
  - destruct (Hshape (trace w ++ [RedisGet ck])) as (rest & Hrest).
    + unfold FnDatabaseAdapter.get_try. rewrite Ht, Hck. simpl andb.
      apply continues_try_catch; [|intros e; footprint_any].
      apply continues_bind_first; [|intros hit; footprint_any].
      apply continues_bind_first; [|intros cachedData; footprint_any].
      apply continues_redis_get.
    + exists rest. now rewrite Hrest, <- app_assoc.
  - intros cached w1 db w2 doc Hget Hmiss Hres Hdoc Hdt.
    destruct (Hshape (trace w2 ++ [DbGet collection (JStr k);
                RedisSet ck (JSON_stringify H doc) (expiry_argument cacheExpiry)]))
      as (rest & Hrest).
    + unfold FnDatabaseAdapter.get_try. rewrite Ht, Hck. simpl andb.
      apply continues_try_catch; [|intros e; footprint_any].
      apply continues_bind_step with (w1 := w1) (a := None).
      { unfold bind. simpl FnDatabaseAdapter.cacheKey_text. rewrite Hget, Hmiss.
        reflexivity. }
      apply continues_bind_step with (w1 := w2) (a := db); [exact Hres|].
      apply continues_bind_step
        with (w1 := extend w2 [DbGet collection (JStr k)]) (a := doc).
      { unfold call. now rewrite Hdoc. }
      rewrite Hdt. simpl andb.
      apply continues_bind_first; [|intros _; footprint_any].
      apply continues_bind_first; [|intros _; footprint_any].
      destruct (continues_redis_set H ck doc cacheExpiry
                  (extend w2 [DbGet collection (JStr k)])) as (rest & Hrest).
      exists rest. simpl FnDatabaseAdapter.cacheKey_text. rewrite Hrest. simpl.
      now rewrite <- !app_assoc.
    + exists rest. rewrite Hrest, <- app_assoc. reflexivity.
Qed.

(** C5 fails as stated on a number: [typeof 7] is neither ["string"] nor
    ["object"], no cache key is derived, and with [useCache] true the Cache
    Store is neither consulted nor populated, although it holds an entry. *)
Lemma get_number_key_bypasses_cache :
  let r := FnDatabaseAdapter.get
             (Example.host None (Normal (Some "42")) (Normal tt))
             "users" (JNum 7) Example.use_cache initial_world in
  FnDatabaseAdapter.get_cacheKey "users" (JNum 7) = Normal None
  /\ FnDatabaseAdapter.get_cacheKey "users" (JNum 7) <> Normal (Some "users:7")
  /\ cache_calls (snd r) = []
  /\ fst r = Normal Example.user_u1.
Proof.
  vm_compute. repeat split; try reflexivity. discriminate.
Qed.

(* ------------------------------------------------------------------ *)
(** *** Composite keys                                                 *)

(** A mapping with a single field does derive [collection:value]. *)
Lemma get_cacheKey_single_field (collection name : string) (value : JSValue) :
  FnDatabaseAdapter.get_cacheKey collection (JObj [(name, value)])
  = let! v := JS.to_string value in Normal (Some (collection ++ ":" ++ v)%string).
Proof.
  unfold FnDatabaseAdapter.get_cacheKey. simpl.
  unfold JS.array_to_property_key. simpl. now rewrite String.eqb_refl.
Qed.

(** C4 at a mapping with two fields: the key object is indexed with the
    array of its field names, that is with ["pk,sk"]; it has no such field,
    and the cache key is [users:undefined], the value of neither field.  Two
    different keys share it. *)
Theorem get_cacheKey_two_fields_undefined :
  FnDatabaseAdapter.get_cacheKey "users" (JObj [("pk", JStr "a"); ("sk", JStr "b")])
  = Normal (Some "users:undefined")
  /\ FnDatabaseAdapter.get_cacheKey "users" (JObj [("pk", JStr "c"); ("sk", JStr "d")])
     = Normal (Some "users:undefined")
  /\ cache_calls
       (snd (FnDatabaseAdapter.get (Example.host (Some "dynamodb") (Normal None) (Normal tt))
               "users" (JObj [("pk", JStr "a"); ("sk", JStr "b")])
               Example.use_cache initial_world))
     = [RedisGet "users:undefined"; RedisSet "users:undefined" (Some "{...}") None].
Proof. vm_compute. repeat split. Qed.

(* ------------------------------------------------------------------ *)
(** *** The expiry of entries written by [get]                         *)

(** C8 on the code: when the caller passes an options object without
    [cacheExpiry], the parameter default does not apply, [cacheExpiry] is
    [undefined], and every cache write [get] makes is a [client.set] without
    ['EX']: the entry is stored without a time to live. *)
Theorem get_without_cacheExpiry_writes_no_expiry
  (H : Host) (collection : string) (key options : JSValue) (w : World) :
  JS.get_prop options "cacheExpiry" = Normal JUndefined ->
  exists log,
    trace (snd (FnDatabaseAdapter.get H collection key options w)) = trace w ++ log
    /\ Forall written_without_expiry log.
Proof.
  intros Hexp.
  assert (Hstep : Stepwise (logs written_without_expiry)).
  { apply logs_stepwise. intros [] He; try discriminate; exact I. }
  apply (respects_get _ Hstep H).
  - apply resolve_logs; [intros; exact I|].
    intros [] He; try discriminate; exact I.
  - apply logs_allows. exact I.
  - intros ck _. apply logs_allows. exact I.
  - intros ck doc cacheExpiry _ Hce. apply logs_allows.
    rewrite (get_prop_not_default H _ _ _ Hexp), Hexp in Hce. inv Hce. reflexivity.
Qed.

Lemma get_without_cacheExpiry_writes_no_expiry_witness :
  let H := Example.host None (Normal None) (Normal tt) in
  let r := FnDatabaseAdapter.get H "users" (JStr "u1") Example.use_cache initial_world in
  (exists log, trace (snd r) = [] ++ log /\ Forall written_without_expiry log)
  /\ cache_calls (snd r) = [RedisGet "users:u1"; RedisSet "users:u1" (Some "{...}") None]
  /\ Config.DEFAULT_CACHE_EXPIRY (process_env H) = 3600%Z.
Proof.
  intros H r. split; [|split; reflexivity].
  exact (get_without_cacheExpiry_writes_no_expiry H "users" (JStr "u1")
           Example.use_cache initial_world eq_refl).
Defined.

(* ------------------------------------------------------------------ *)
(** *** An unsupported [DATABASE_TYPE]                                 *)

Lemma get_enters_try (H : Host) (collection : string) (key options : JSValue)
  (w : World) (useCache cacheExpiry : JSValue) (cacheKey : option string) :
  JS.get_prop (FnDatabaseAdapter.options_or_default H options) "useCache"
  = Normal useCache ->
  JS.get_prop (FnDatabaseAdapter.options_or_default H options) "cacheExpiry"
  = Normal cacheExpiry ->
  FnDatabaseAdapter.get_cacheKey collection key = Normal cacheKey ->
  FnDatabaseAdapter.get H collection key options w
  = FnDatabaseAdapter.get_try H collection key useCache cacheExpiry cacheKey w.
Proof.
  intros Hu He Hk. unfold FnDatabaseAdapter.get.
  unfold bind at 1, lift at 1. rewrite Hu.
  unfold bind at 1, lift at 1. rewrite He.
  unfold bind at 1, lift at 1. rewrite Hk. reflexivity.
Qed.

Section Unsupported.
Context (H : Host).
Hypothesis unsupported : ~ In (FnDatabaseAdapter.DATABASE_TYPE H) supported_types.

Lemma specifier_unsupported :
  FnDatabaseAdapter.serviceModule_specifier H = Throw (unsupported_error H).
Proof.
  unfold FnDatabaseAdapter.serviceModule_specifier, unsupported_error.
  repeat match goal with
         | |- context [(?t =? ?s)%string] =>
             destruct (String.eqb_spec t s) as [Heq|_];
             [exfalso; apply unsupported; rewrite Heq; simpl; tauto|]
         end.
  reflexivity.
Qed.

Lemma resolve_unsupported (w : World) :
  dbInstance w = None ->
  FnDatabaseAdapter.resolve H w
  = (Throw (unsupported_error H),
     extend w [ConsoleError "Failed to initialize database service:"]).
Proof.
  intros Hdb. destruct w as [db map history]. simpl in Hdb. subst db.
  unfold FnDatabaseAdapter.resolve, FnDatabaseAdapter.initialize,
    FnDatabaseAdapter.initialize_begin, FnDatabaseAdapter.initialize_resume,
    FnDatabaseAdapter.initialize_catch, FnDatabaseAdapter.read_dbInstance,
    FnDatabaseAdapter.set_dbInstance, try_catch, bind, lift, throw,
    console_error, emit.
  simpl. rewrite specifier_unsupported. reflexivity.
Qed.

Lemma resolve_unsupported_never_loads :
  footprint never_loads (FnDatabaseAdapter.resolve H).
Proof.
  intros w.
  unfold FnDatabaseAdapter.resolve, FnDatabaseAdapter.initialize,
    FnDatabaseAdapter.initialize_begin, FnDatabaseAdapter.initialize_resume,
    FnDatabaseAdapter.initialize_catch, FnDatabaseAdapter.read_dbInstance,
    FnDatabaseAdapter.set_dbInstance, try_catch, bind, lift, throw,
    console_error, emit.
  rewrite specifier_unsupported.
  destruct (dbInstance w); simpl.
  - exists []. now rewrite app_nil_r.
  - exists [ConsoleError "Failed to initialize database service:"].
    split; [reflexivity|]. repeat constructor.
Qed.

Lemma resolve_unsupported_same_adapter :
  respects same_adapter (FnDatabaseAdapter.resolve H).
Proof.
  intros w.
  unfold FnDatabaseAdapter.resolve, FnDatabaseAdapter.initialize,
    FnDatabaseAdapter.initialize_begin, FnDatabaseAdapter.initialize_resume,
    FnDatabaseAdapter.initialize_catch, FnDatabaseAdapter.read_dbInstance,
    FnDatabaseAdapter.set_dbInstance, try_catch, bind, lift, throw,
    console_error, emit.
  rewrite specifier_unsupported.
  destruct w as [[b|] map history]; simpl; split; reflexivity.
Qed.

Lemma never_loads_stepwise : Stepwise (logs never_loads).
Proof. apply logs_stepwise. intros [] He; try discriminate; reflexivity. Qed.

Lemma never_loads_constructions (w w' : World) :
  logs never_loads w w' -> constructions w' = constructions w.
Proof.
  intros (log & Htr & Hlog). unfold constructions.
  rewrite Htr, filter_app, (filter_footprint is_ModuleEval log Hlog).
  now rewrite app_nil_r.
Qed.

(** No call of the facade loads a backend module or sets [#dbInstance]. *)
Lemma unsupported_get_constructs_nothing (collection : string) (key options : JSValue)
  (w : World) :
  constructions (snd (FnDatabaseAdapter.get H collection key options w)) = constructions w
  /\ dbInstance (snd (FnDatabaseAdapter.get H collection key options w)) = dbInstance w.
Proof.
  split.
  - apply never_loads_constructions.
    apply (respects_get _ never_loads_stepwise H resolve_unsupported_never_loads);
      intros; apply logs_allows; reflexivity.
  - apply (respects_get _ same_adapter_stepwise H resolve_unsupported_same_adapter);
      intros; apply same_adapter_allows.
Qed.

Lemma unsupported_set_constructs_nothing (collection : string) (keyOrQuery data : JSValue)
  (w : World) :
  constructions (snd (FnDatabaseAdapter.set H collection keyOrQuery data w))
  = constructions w
  /\ dbInstance (snd (FnDatabaseAdapter.set H collection keyOrQuery data w))
     = dbInstance w.
Proof.
  split.
  - apply never_loads_constructions.
    apply (respects_set _ never_loads_stepwise H resolve_unsupported_never_loads);
      intros; apply logs_allows; reflexivity.
  - apply (respects_set _ same_adapter_stepwise H resolve_unsupported_same_adapter);
      intros; apply same_adapter_allows.
Qed.

Lemma unsupported_fetch_constructs_nothing (collection : string) (filters : JSValue)
  (w : World) :
  constructions (snd (FnDatabaseAdapter.fetch H collection filters w)) = constructions w
  /\ dbInstance (snd (FnDatabaseAdapter.fetch H collection filters w)) = dbInstance w.
Proof.
  split.
  - apply never_loads_constructions.
    apply (respects_fetch _ never_loads_stepwise H resolve_unsupported_never_loads);
      intros; apply logs_allows; reflexivity.
  - apply (respects_fetch _ same_adapter_stepwise H resolve_unsupported_same_adapter);
      intros; apply same_adapter_allows.
Qed.

Lemma unsupported_fetch_fails (collection : string) (filters : JSValue) (w : World) :
  dbInstance w = None ->
  fst (FnDatabaseAdapter.fetch H collection filters w) = Throw (unsupported_error H).
Proof.
  intros Hdb. unfold FnDatabaseAdapter.fetch, bind.
  now rewrite (resolve_unsupported w Hdb).
Qed.

Lemma unsupported_set_fails (collection : string) (keyOrQuery data : JSValue) (w : World) :
  dbInstance w = None ->
  fst (FnDatabaseAdapter.set H collection keyOrQuery data w) = Throw (unsupported_error H).
Proof.
  intros Hdb. unfold FnDatabaseAdapter.set, try_catch. unfold bind at 1.
  now rewrite (resolve_unsupported w Hdb).
Qed.

(** [get] fails the same way once it gets past the cache: the cache is not
    used, or the lookup returns nothing. *)
Lemma unsupported_get_fails (collection : string) (key options : JSValue) (w : World)
  (useCache cacheExpiry : JSValue) (cacheKey : option string) :
  dbInstance w = None ->
  JS.get_prop (FnDatabaseAdapter.options_or_default H options) "useCache"
  = Normal useCache ->
  JS.get_prop (FnDatabaseAdapter.options_or_default H options) "cacheExpiry"
  = Normal cacheExpiry ->
  FnDatabaseAdapter.get_cacheKey collection key = Normal cacheKey ->
  JS.truthy useCache && FnDatabaseAdapter.truthy_cacheKey cacheKey = false
  \/ (exists cached,
        fst (FnRedisService.get H (FnDatabaseAdapter.cacheKey_text cacheKey) w)
        = Normal cached
        /\ JS.truthy cached = false) ->
  fst (FnDatabaseAdapter.get H collection key options w)
  = Throw (match JS.to_string key with
           | Normal _ => unsupported_error H
           | Throw conversion => conversion
           end).
Proof.
  intros Hdb Hu He Hk Hpast.
  rewrite (get_enters_try H collection key options w _ _ _ Hu He Hk).
  unfold FnDatabaseAdapter.get_try, try_catch. unfold bind at 1.
  destruct (JS.truthy useCache && FnDatabaseAdapter.truthy_cacheKey cacheKey) eqn:Euse.
  - destruct Hpast as [Hoff|(cached & Hget & Hmiss)]; [discriminate|].
    destruct (redis_get_footprint H (FnDatabaseAdapter.cacheKey_text cacheKey) w)
      as (_ & _ & _ & Hsame & _).
    unfold bind at 1.
    destruct (FnRedisService.get H (FnDatabaseAdapter.cacheKey_text cacheKey) w)
      as [c w1]. simpl in Hget, Hsame. subst c. rewrite Hmiss.
    unfold ret at 1. unfold bind at 1.
    rewrite (resolve_unsupported w1) by congruence.
    unfold bind, lift, console_error, emit, throw. now destruct (JS.to_string key).
  - unfold ret at 1. unfold bind at 1.
    rewrite (resolve_unsupported w Hdb).
    unfold bind, lift, console_error, emit, throw. now destruct (JS.to_string key).
Qed.

End Unsupported.




(* ------------------------------------------------------------------ *)
(** *** The configured defaults                                        *)




(* ------------------------------------------------------------------ *)
(** *** [fetch]                                                        *)

(** C9, as the code has it: [fetch] never calls the Cache Store, and once
    the backend is resolved it hands [collection] and [filters] to the
    backend's [fetch] and returns what the backend returns, an empty list
    included.  The [filters] it hands over are the caller's, unchanged,
    whenever the caller supplies any; for [filters] left out or [undefined]
    they are an empty object. *)
Theorem fetch_is_passthrough (H : Host) (collection : string) (filters : JSValue)
  (w : World) :
  cache_calls (snd (FnDatabaseAdapter.fetch H collection filters w)) = cache_calls w
  /\ (forall db w1,
        filters <> JUndefined ->
        FnDatabaseAdapter.resolve H w = (Normal db, w1) ->
        FnDatabaseAdapter.fetch H collection filters w
        = (b_fetch db (trace w1) collection filters,
           extend w1 [DbFetch collection filters]))
  /\ (forall db w1,
        filters = JUndefined ->
        FnDatabaseAdapter.resolve H w = (Normal db, w1) ->
        FnDatabaseAdapter.fetch H collection filters w
        = (b_fetch db (trace w1) collection (JObj []),
           extend w1 [DbFetch collection (JObj [])])).
Proof.
  split; [|split].
  - assert (Hstep : Stepwise (logs leaves_cache_alone)).
    { apply logs_stepwise. intros [] He; try discriminate; reflexivity. }
    destruct (respects_fetch (logs leaves_cache_alone) Hstep H) with
      (collection := collection) (filters := filters) (w := w) as (log & Htr & Hlog).
    + apply resolve_logs; [reflexivity|].
      intros [] He; try discriminate; reflexivity.
    + apply logs_allows. reflexivity.
    + unfold cache_calls. rewrite Htr, filter_app.
      rewrite (filter_footprint is_cache_event log Hlog). now rewrite app_nil_r.
  - intros db w1 Hgiven Hres.
    unfold FnDatabaseAdapter.fetch, bind, call. rewrite Hres.
    destruct filters; try reflexivity. now contradiction Hgiven.
  - intros db w1 -> Hres.
    unfold FnDatabaseAdapter.fetch, bind, call. now rewrite Hres.
Qed.

(** C9 fails as stated when [filters] is left out: the backend is not
    handed the caller's [undefined] but an empty object. *)
Lemma fetch_without_filters_forwards_an_empty_object :
  let r := FnDatabaseAdapter.fetch (Example.host None (Normal None) (Normal tt))
             "orders" JUndefined initial_world in
  backend_calls (snd r) = [DbFetch "orders" (JObj [])]
  /\ backend_calls (snd r) <> [DbFetch "orders" JUndefined].
Proof.
  vm_compute. split; [reflexivity|discriminate].
Qed.

Lemma fetch_is_passthrough_witness :
  let H := Example.host None (Normal None) (Normal tt) in
  let filters := JObj [("status", JStr "open")] in
  let w1 := {| dbInstance := Some Example.backend;
               moduleMap := [("../database/GCP/FnFirestore.js", Normal Example.backend)];
               trace := [ModuleEval "../database/GCP/FnFirestore.js"] |} in
  FnDatabaseAdapter.fetch H "orders" filters initial_world
  = (Normal [], extend w1 [DbFetch "orders" filters])
  /\ FnDatabaseAdapter.fetch H "orders" JUndefined initial_world
     = (Normal [], extend w1 [DbFetch "orders" (JObj [])]).
Proof.
  intros H filters w1. split.
  - refine (proj1 (proj2 (fetch_is_passthrough H "orders" filters initial_world))
              Example.backend w1 _ eq_refl).
    discriminate.
  - exact (proj2 (proj2 (fetch_is_passthrough H "orders" JUndefined initial_world))
             Example.backend w1 eq_refl eq_refl).
Defined.

(* ------------------------------------------------------------------ *)
(** *** Loading [FnCache.js]                                           *)

Lemma unbound_identifier (globals : list string) (name : string) :
  ~ In name (FnCacheModule.module_scope ++ globals) ->
  FnCacheModule.resolve_identifier globals name
  = Throw (mkError EReferenceError (name ++ " is not defined")).
Proof.
  intros Hfree. unfold FnCacheModule.resolve_identifier.
  destruct (existsb (String.eqb name) (FnCacheModule.module_scope ++ globals)) eqn:Ex;
    [|reflexivity].
  apply existsb_exists in Ex as (x & Hin & Heq).
  apply String.eqb_eq in Heq. subst x. contradiction.
Qed.

(** C10, as the code has it.  Importing [FnCache.js], directly or through
    [index.js], always fails and yields no instance: [config.js] has no
    default export, so linking [import fnConfig from './config.js'] throws a
    SyntaxError before the module body, and with it [FnCache.getInstance()],
    is evaluated.  The constructor itself cannot succeed either while
    [FnRedis] is unbound: whatever [fnConfig] holds, [getInstance] throws, a
    ReferenceError at [FnRedis.instance = this] if [fnConfig.cache] can be
    read, and [FnCache.instance] stays unset. *)
Theorem FnCache_never_yields_an_instance
  (globals : list string) (env : string -> option string)
  (serviceAccountPath : string) (fnConfig : JSValue) :
  ~ In "FnRedis" globals ->
  (exists e, FnCacheModule.load globals env serviceAccountPath = Throw e
             /\ err_name e = ESyntaxError)
  /\ (exists e, FnCacheModule.load_index globals env serviceAccountPath = Throw e
                /\ err_name e = ESyntaxError)
  /\ (exists e, FnCacheModule.getInstance globals fnConfig None = (Throw e, None))
  /\ (forall configured,
        JS.get_prop fnConfig "cache" = Normal configured ->
        FnCacheModule.getInstance globals fnConfig None
        = (Throw (mkError EReferenceError "FnRedis is not defined"), None)).
Proof.
  intros Hfree.
  assert (Hunbound : FnCacheModule.resolve_identifier globals "FnRedis"
                     = Throw (mkError EReferenceError "FnRedis is not defined")).
  { apply (unbound_identifier globals "FnRedis").
    intros Hin. apply in_app_or in Hin as [Hscope|Hglobal]; [|contradiction].
    simpl in Hscope. intuition discriminate. }
  split; [eexists; split; reflexivity|].
  split; [eexists; split; reflexivity|].
  unfold FnCacheModule.getInstance, FnCacheModule.constructor, bindC.
  rewrite Hunbound. split.
  - destruct (JS.get_prop fnConfig "cache"); eauto.
  - intros configured Hc. now rewrite Hc.
Qed.

(** C10 fails as stated: what importing [FnCache.js] or [index.js] throws is
    the SyntaxError of the missing default export, not a ReferenceError. *)
Lemma FnCache_import_fails_at_link_time :
  let env := fun _ : string => @None string in
  let key := "/srv/app/src/modules/adaptors/serviceAccountKey.json" in
  (exists e, FnCacheModule.load [] env key = Throw e
             /\ err_name e = ESyntaxError /\ err_name e <> EReferenceError)
  /\ (exists e, FnCacheModule.load_index [] env key = Throw e
                /\ err_name e = ESyntaxError /\ err_name e <> EReferenceError)
  /\ JS.lookup "default" (Config.exports env key) = None.
Proof.
  intros env key.
  split; [|split; [|reflexivity]];
    (eexists; split; [reflexivity|split; [reflexivity|discriminate]]).
Qed.

Lemma FnCache_never_yields_an_instance_witness :
  let globals := ["globalThis"; "process"; "console"] in
  let env := fun _ : string => @None string in
  let key := "/srv/app/src/modules/adaptors/serviceAccountKey.json" in
  let fnConfig := JObj [("cache", JStr "redis")] in
  (exists e, FnCacheModule.load globals env key = Throw e /\ err_name e = ESyntaxError)
  /\ FnCacheModule.getInstance globals fnConfig None
     = (Throw (mkError EReferenceError "FnRedis is not defined"), None).
Proof.
  intros globals env key fnConfig.
  assert (Hfree : ~ In "FnRedis" globals).
  { simpl. intros [F|[F|[F|[]]]]; discriminate. }
  destruct (FnCache_never_yields_an_instance globals env key fnConfig Hfree)
    as (Hload & _ & _ & Hctor).
  split; [exact Hload|]. exact (Hctor (JStr "redis") eq_refl).
Defined.

(* ================================================================== *)
(** * Further properties of the facade                                 *)
(* ================================================================== *)

Ltac follow HR :=
  repeat first
    [ apply (respects_ret _ HR)
    | apply (respects_throw _ HR)
    | apply (respects_lift _ HR)
    | apply (respects_console_log _ HR)
    | apply (respects_console_error _ HR)
    | assumption
    | apply respects_call; solve [auto]
    | apply (respects_bind _ HR); [|intros ?]
    | apply (respects_try_catch _ HR); [|intros ?] ].

Lemma leaves_cache_alone_stepwise : Stepwise (logs leaves_cache_alone).
Proof. apply logs_stepwise. intros [] He; try discriminate; reflexivity. Qed.

Lemma leaves_cache_alone_resolve (H : Host) :
  footprint leaves_cache_alone (FnDatabaseAdapter.resolve H).
Proof.
  apply resolve_logs; [reflexivity|]. intros [] He; try discriminate; reflexivity.
Qed.

Lemma leaves_cache_alone_calls (w w' : World) :
  logs leaves_cache_alone w w' -> cache_calls w' = cache_calls w.
Proof.
  intros (log & Htr & Hlog). unfold cache_calls.
  rewrite Htr, filter_app, (filter_footprint is_cache_event log Hlog).
  now rewrite app_nil_r.
Qed.

(** X1.  With [useCache] falsy, and so also with the options left out, [get]
    never calls the Cache Store: no lookup, no write. *)
Theorem get_without_useCache_never_calls_cache
  (H : Host) (collection : string) (key options : JSValue) (w : World)
  (useCache : JSValue) :
  JS.get_prop (FnDatabaseAdapter.options_or_default H options) "useCache"
  = Normal useCache ->
  JS.truthy useCache = false ->
  cache_calls (snd (FnDatabaseAdapter.get H collection key options w)) = cache_calls w.
Proof.
  intros Hu Ht. apply leaves_cache_alone_calls. revert w.
  change (respects (logs leaves_cache_alone)
            (FnDatabaseAdapter.get H collection key options)).
  pose proof leaves_cache_alone_stepwise as HR.
  pose proof (leaves_cache_alone_resolve H) as Hres.
  unfold FnDatabaseAdapter.get.
  apply (respects_bind_lift _ HR). intros u Hu'. rewrite Hu in Hu'. inv Hu'.
  apply (respects_bind_lift _ HR). intros cacheExpiry _.
  apply (respects_bind_lift _ HR). intros cacheKey _.
  unfold FnDatabaseAdapter.get_try. rewrite Ht. simpl andb.
  apply (respects_try_catch _ HR); [|intros e; follow HR].
  apply (respects_bind _ HR); [follow HR|].
  intros [cachedData|]; [follow HR|].
  apply (respects_bind _ HR); [exact Hres|intros db].
  apply (respects_bind _ HR).
  { apply respects_call. apply logs_allows. reflexivity. }
  intros doc. rewrite andb_false_r. simpl. follow HR.
Qed.

Lemma get_without_useCache_never_calls_cache_witness :
  let H := Example.host None (Normal (Some "42")) (Normal tt) in
  cache_calls (snd (FnDatabaseAdapter.get H "users" (JStr "u1") JUndefined initial_world))
  = cache_calls initial_world.
Proof.
  intros H.
  exact (get_without_useCache_never_calls_cache H "users" (JStr "u1") JUndefined
           initial_world (JBool false) eq_refl eq_refl).
Defined.

(** Past the cache, [get] is its backend part under its [catch]. *)
Lemma get_try_reaches_backend (H : Host) (collection : string)
  (key useCache cacheExpiry : JSValue) (cacheKey : option string) (w w1 : World) :
  reaches_backend H useCache cacheKey w w1 ->
  FnDatabaseAdapter.get_try H collection key useCache cacheExpiry cacheKey w
  = try_catch (get_backend_part H collection key useCache cacheExpiry cacheKey)
      (get_catch key) w1.
Proof.
  intros [(Hoff & ->)|(Hon & cached & Hget & Hmiss)];
    unfold FnDatabaseAdapter.get_try, try_catch.
  - unfold bind at 1. rewrite Hoff. reflexivity.
  - unfold bind at 1. rewrite Hon. unfold bind at 1.
    rewrite Hget, Hmiss. reflexivity.
Qed.

Lemma get_without_cacheKey_leaves_cache (H : Host) (collection : string)
  (key options : JSValue) :
  FnDatabaseAdapter.get_cacheKey collection key = Normal None ->
  footprint leaves_cache_alone (FnDatabaseAdapter.get H collection key options).
Proof.
  intros Hk.
  pose proof leaves_cache_alone_stepwise as HR.
  pose proof (leaves_cache_alone_resolve H) as Hres.
  unfold footprint, FnDatabaseAdapter.get.
  apply (respects_bind_lift _ HR). intros useCache _.
  apply (respects_bind_lift _ HR). intros cacheExpiry _.
  apply (respects_bind_lift _ HR). intros cacheKey Hk'.
  rewrite Hk in Hk'. inv Hk'.
  unfold FnDatabaseAdapter.get_try. cbn [FnDatabaseAdapter.truthy_cacheKey].
  rewrite andb_false_r.
  apply (respects_try_catch _ HR); [|intros e; follow HR].
  apply (respects_bind _ HR); [follow HR|].
  intros [cachedData|]; [follow HR|].
  apply (respects_bind _ HR); [exact Hres|intros db].
  apply (respects_bind _ HR).
  { apply respects_call. apply logs_allows. reflexivity. }
  intros doc. rewrite andb_false_r. follow HR.
Qed.

(** C5, as the code has it.  For every string key the cache key is
    [collection:key]; with [useCache] truthy the first call [get] makes is
    the Cache Store lookup under that key, and when the lookup misses and the
    backend returns a document, the backend read is followed by a Cache Store
    write under the same key.  For every number key no cache key is derived:
    [get] makes no call to the Cache Store, and it returns what the backend
    returns straight after the backend read. *)
Theorem get_uses_cache_for_string_keys_not_for_numbers
  (H : Host) (collection : string) (options : JSValue) (w : World)
  (useCache cacheExpiry : JSValue) :
  JS.get_prop options "useCache" = Normal useCache ->
  JS.truthy useCache = true ->
  JS.get_prop options "cacheExpiry" = Normal cacheExpiry ->
  (forall k,
     let ck := (collection ++ ":" ++ k)%string in
     FnDatabaseAdapter.get_cacheKey collection (JStr k) = Normal (Some ck)
     /\ (exists rest,
           trace (snd (FnDatabaseAdapter.get H collection (JStr k) options w))
           = trace w ++ RedisGet ck :: rest)
     /\ (forall cached w1 db w2 doc,
           FnRedisService.get H ck w = (Normal cached, w1) ->
           JS.truthy cached = false ->
           FnDatabaseAdapter.resolve H w1 = (Normal db, w2) ->
           b_get db (trace w2) collection (JStr k) = Normal doc ->
           JS.truthy doc = true ->
           exists rest,
             trace (snd (FnDatabaseAdapter.get H collection (JStr k) options w))
             = trace w2 ++ DbGet collection (JStr k)
                 :: RedisSet ck (JSON_stringify H doc) (expiry_argument cacheExpiry)
                 :: rest))
  /\ (forall n,
        FnDatabaseAdapter.get_cacheKey collection (JNum n) = Normal None
        /\ cache_calls (snd (FnDatabaseAdapter.get H collection (JNum n) options w))
           = cache_calls w
        /\ (forall db w1 doc,
              FnDatabaseAdapter.resolve H w = (Normal db, w1) ->
              b_get db (trace w1) collection (JNum n) = Normal doc ->
              FnDatabaseAdapter.get H collection (JNum n) options w
              = (Normal doc, extend w1 [DbGet collection (JNum n)]))).
Proof.
  intros Hu Ht He. split.
  - intros k.
    exact (string_key_consults_and_populates_cache H collection k options w
             useCache cacheExpiry Hu Ht He).
  - intros n. split; [reflexivity|]. split.
    + apply leaves_cache_alone_calls.
      now apply get_without_cacheKey_leaves_cache.
    + intros db w1 doc Hres Hdoc.
      pose proof (get_prop_not_default H _ _ _ Hu) as Hgiven.
      rewrite (get_enters_try H collection (JNum n) options w useCache cacheExpiry None);
        [|now rewrite Hgiven|now rewrite Hgiven|reflexivity].
      rewrite (get_try_reaches_backend H collection (JNum n) useCache cacheExpiry None
                 w w).
      * unfold try_catch, get_backend_part. unfold bind at 1. rewrite Hres.
        unfold bind at 1. unfold call at 1. rewrite Hdoc.
        cbn [FnDatabaseAdapter.truthy_cacheKey]. rewrite andb_false_r.
        reflexivity.
      * left. split; [|reflexivity].
        cbn [FnDatabaseAdapter.truthy_cacheKey]. apply andb_false_r.
Qed.

Lemma get_uses_cache_for_string_keys_not_for_numbers_witness :
  let H := Example.host None (Normal (Some "42")) (Normal tt) in
  let options := JObj [("useCache", JBool true); ("cacheExpiry", JNum 60)] in
  let loaded := {| dbInstance := Some Example.backend;
                   moduleMap := [("../database/GCP/FnFirestore.js",
                                  Normal Example.backend)];
                   trace := [ModuleEval "../database/GCP/FnFirestore.js"] |} in
  (exists rest,
     trace (snd (FnDatabaseAdapter.get H "users" (JStr "u1") options initial_world))
     = [] ++ RedisGet "users:u1" :: rest)
  /\ cache_calls (snd (FnDatabaseAdapter.get H "users" (JNum 7) options initial_world))
     = cache_calls initial_world
  /\ FnDatabaseAdapter.get H "users" (JNum 7) options initial_world
     = (Normal Example.user_u1, extend loaded [DbGet "users" (JNum 7)]).
Proof.
  intros H options loaded.
  destruct (get_uses_cache_for_string_keys_not_for_numbers H "users" options
              initial_world (JBool true) (JNum 60) eq_refl eq_refl eq_refl)
    as (strings & numbers).
  destruct (strings "u1") as (_ & consulted & _).
  destruct (numbers 7%Z) as (_ & untouched & straight).
  split; [exact consulted|]. split; [exact untouched|].
  exact (straight Example.backend loaded Example.user_u1 eq_refl eq_refl).
Defined.

Lemma redis_get_keeps_backend (H : Host) (key : string) (w : World) :
  backend_calls (snd (FnRedisService.get H key w)) = backend_calls w
  /\ constructions (snd (FnRedisService.get H key w)) = constructions w
  /\ dbInstance (snd (FnRedisService.get H key w)) = dbInstance w.
Proof.
  destruct (redis_get_footprint H key w) as (log & Htr & Hlog & Hdb & _).
  unfold backend_calls, constructions. rewrite Htr, !filter_app. simpl.
  rewrite (filter_footprint is_backend_event log), (filter_footprint is_ModuleEval log).
  - rewrite !app_nil_r. auto.
  - eapply Forall_impl; [|exact Hlog]. simpl. tauto.
  - eapply Forall_impl; [|exact Hlog]. simpl. tauto.
Qed.

Lemma get_returns_cached
  (H : Host) (collection : string) (key options : JSValue) (w w1 : World)
  (useCache cached : JSValue) (ck : string) :
  JS.get_prop (FnDatabaseAdapter.options_or_default H options) "useCache"
  = Normal useCache ->
  JS.truthy useCache = true ->
  FnDatabaseAdapter.get_cacheKey collection key = Normal (Some ck) ->
  FnRedisService.get H ck w = (Normal cached, w1) ->
  JS.truthy cached = true ->
  FnDatabaseAdapter.get H collection key options w
  = (Normal cached, extend w1 [ConsoleLog ("Cache hit for key: " ++ ck)%string]).
Proof.
  intros Hu Ht Hk Hget Hhit.
  destruct (get_prop_total _ _ "cacheExpiry" _ Hu) as [cacheExpiry He].
  rewrite (get_enters_try H collection key options w _ _ _ Hu He Hk).
  unfold FnDatabaseAdapter.get_try, try_catch.
  rewrite Ht, (get_cacheKey_truthy _ _ _ Hk). simpl.
  unfold bind at 1. unfold bind at 1. rewrite Hget, Hhit. reflexivity.
Qed.

(** X2.  A cache hit ends [get]: the cached value is returned after one line
    on the console; the backend is neither resolved nor asked. *)
Theorem get_cache_hit_skips_backend
  (H : Host) (collection : string) (key options : JSValue) (w w1 : World)
  (useCache cached : JSValue) (ck : string) :
  JS.get_prop (FnDatabaseAdapter.options_or_default H options) "useCache"
  = Normal useCache ->
  JS.truthy useCache = true ->
  FnDatabaseAdapter.get_cacheKey collection key = Normal (Some ck) ->
  FnRedisService.get H ck w = (Normal cached, w1) ->
  JS.truthy cached = true ->
  FnDatabaseAdapter.get H collection key options w
  = (Normal cached, extend w1 [ConsoleLog ("Cache hit for key: " ++ ck)%string])
  /\ backend_calls (snd (FnDatabaseAdapter.get H collection key options w))
     = backend_calls w
  /\ constructions (snd (FnDatabaseAdapter.get H collection key options w))
     = constructions w
  /\ dbInstance (snd (FnDatabaseAdapter.get H collection key options w))
     = dbInstance w.
Proof.
  intros Hu Ht Hk Hget Hhit.
  rewrite (get_returns_cached H collection key options w w1 _ _ _ Hu Ht Hk Hget Hhit).
  split; [reflexivity|].
  destruct (redis_get_keeps_backend H ck w) as (Hb & Hc & Hd).
  rewrite Hget in Hb, Hc, Hd. simpl in Hb, Hc, Hd.
  unfold backend_calls, constructions, extend in *. simpl.
  rewrite !filter_app. simpl. rewrite !app_nil_r. auto.
Qed.

Lemma get_cache_hit_skips_backend_witness :
  let H := Example.host None (Normal (Some "42")) (Normal tt) in
  let w1 := extend initial_world [RedisGet "users:u1"] in
  FnDatabaseAdapter.get H "users" (JStr "u1") Example.use_cache initial_world
  = (Normal (JNum 42), extend w1 [ConsoleLog "Cache hit for key: users:u1"]).
Proof.
  intros H w1.
  exact (proj1 (get_cache_hit_skips_backend H "users" (JStr "u1") Example.use_cache
                  initial_world w1 (JBool true) (JNum 42) "users:u1"
                  eq_refl eq_refl eq_refl eq_refl eq_refl)).
Defined.

(** X3.  When the backend has no document, [get] returns what the backend
    returned, [null], and writes nothing to the cache, whatever the options. *)
Theorem get_not_found_is_not_cached
  (H : Host) (collection : string) (key options : JSValue) (w w1 w2 : World)
  (useCache cacheExpiry : JSValue) (cacheKey : option string)
  (db : Backend) (doc : JSValue) :
  JS.get_prop (FnDatabaseAdapter.options_or_default H options) "useCache"
  = Normal useCache ->
  JS.get_prop (FnDatabaseAdapter.options_or_default H options) "cacheExpiry"
  = Normal cacheExpiry ->
  FnDatabaseAdapter.get_cacheKey collection key = Normal cacheKey ->
  reaches_backend H useCache cacheKey w w1 ->
  FnDatabaseAdapter.resolve H w1 = (Normal db, w2) ->
  b_get db (trace w2) collection key = Normal doc ->
  JS.truthy doc = false ->
  FnDatabaseAdapter.get H collection key options w
  = (Normal doc, extend w2 [DbGet collection key]).
Proof.
  intros Hu He Hk Hreach Hres Hdoc Hfalsy.
  rewrite (get_enters_try H collection key options w _ _ _ Hu He Hk).
  rewrite (get_try_reaches_backend H collection key _ _ _ w w1 Hreach).
  unfold try_catch, get_backend_part. unfold bind at 1. rewrite Hres.
  unfold bind at 1. unfold call at 1. rewrite Hdoc, Hfalsy. reflexivity.
Qed.

Lemma get_not_found_is_not_cached_witness :
  let missing := {| b_get := fun _ _ _ => Normal JNull;
                    b_set := b_set Example.backend;
                    b_fetch := b_fetch Example.backend |} in
  let H := {| process_env := fun _ => None;
              client_get := fun _ _ => Normal None;
              client_set := fun _ _ _ _ => Normal tt;
              JSON_parse := JSON_parse (Example.host None (Normal None) (Normal tt));
              JSON_stringify :=
                JSON_stringify (Example.host None (Normal None) (Normal tt));
              module_eval := fun _ _ => Normal missing |} in
  let w2 := {| dbInstance := Some missing;
               moduleMap := [("../database/GCP/FnFirestore.js", Normal missing)];
               trace := [RedisGet "users:u1";
                         ModuleEval "../database/GCP/FnFirestore.js"] |} in
  FnDatabaseAdapter.get H "users" (JStr "u1") Example.use_cache initial_world
  = (Normal JNull, extend w2 [DbGet "users" (JStr "u1")]).
Proof.
  intros missing H w2.
  apply (get_not_found_is_not_cached H "users" (JStr "u1") Example.use_cache
           initial_world (extend initial_world [RedisGet "users:u1"]) w2
           (JBool true) JUndefined (Some "users:u1") missing JNull);
    try reflexivity.
  right. split; [reflexivity|]. exists JNull. split; reflexivity.
Defined.

(** X4.  A failure of the backend read fails [get], and nothing is
    written to the cache.  What [get] throws is the backend's error, after a
    line on the console; unless the key is an object whose conversion to a
    string throws: the template literal in the [catch] then throws that
    error in place of the backend's, and nothing is logged. *)
Theorem get_backend_failure_is_raised
  (H : Host) (collection : string) (key options : JSValue) (w w1 w2 : World)
  (useCache cacheExpiry : JSValue) (cacheKey : option string)
  (db : Backend) (e : JsError) :
  JS.get_prop (FnDatabaseAdapter.options_or_default H options) "useCache"
  = Normal useCache ->
  JS.get_prop (FnDatabaseAdapter.options_or_default H options) "cacheExpiry"
  = Normal cacheExpiry ->
  FnDatabaseAdapter.get_cacheKey collection key = Normal cacheKey ->
  reaches_backend H useCache cacheKey w w1 ->
  FnDatabaseAdapter.resolve H w1 = (Normal db, w2) ->
  b_get db (trace w2) collection key = Throw e ->
  FnDatabaseAdapter.get H collection key options w
  = match JS.to_string key with
    | Normal k =>
        (Throw e,
         extend w2 [DbGet collection key;
                    ConsoleError ("Error getting document with key: " ++ k)%string])
    | Throw conversion => (Throw conversion, extend w2 [DbGet collection key])
    end.
Proof.
  intros Hu He Hk Hreach Hres Hdoc.
  rewrite (get_enters_try H collection key options w _ _ _ Hu He Hk).
  rewrite (get_try_reaches_backend H collection key _ _ _ w w1 Hreach).
  unfold try_catch, get_backend_part. unfold bind at 1. rewrite Hres.
  unfold bind at 1. unfold call at 1. rewrite Hdoc.
  unfold get_catch, bind, lift, console_error, emit, throw.
  destruct (JS.to_string key); [|reflexivity].
  f_equal. same_world.
Qed.

Lemma get_backend_failure_is_raised_witness :
  let timeout := mkError (EHost "DeadlineExceeded") "deadline exceeded" in
  let failing := {| b_get := fun _ _ _ => Throw timeout;
                    b_set := b_set Example.backend;
                    b_fetch := b_fetch Example.backend |} in
  let H := {| process_env := fun _ => None;
              client_get := fun _ _ => Normal None;
              client_set := fun _ _ _ _ => Normal tt;
              JSON_parse := JSON_parse (Example.host None (Normal None) (Normal tt));
              JSON_stringify :=
                JSON_stringify (Example.host None (Normal None) (Normal tt));
              module_eval := fun _ _ => Normal failing |} in
  let w2 := {| dbInstance := Some failing;
               moduleMap := [("../database/GCP/FnFirestore.js", Normal failing)];
               trace := [RedisGet "users:u1";
                         ModuleEval "../database/GCP/FnFirestore.js"] |} in
  let unprintable := JObj [("toString", JStr "u1")] in
  FnDatabaseAdapter.get H "users" (JStr "u1") Example.use_cache initial_world
  = (Throw timeout,
     extend w2 [DbGet "users" (JStr "u1");
                ConsoleError "Error getting document with key: u1"])
  /\ FnDatabaseAdapter.get H "users" unprintable Example.use_cache initial_world
     = (Throw (mkError ETypeError "Cannot convert object to primitive value"),
        extend w2 [DbGet "users" unprintable]).
Proof.
  intros timeout failing H w2 unprintable. split.
  - apply (get_backend_failure_is_raised H "users" (JStr "u1") Example.use_cache
             initial_world (extend initial_world [RedisGet "users:u1"]) w2
             (JBool true) JUndefined (Some "users:u1") failing timeout);
      try reflexivity.
    right. split; [reflexivity|]. exists JNull. split; reflexivity.
  - apply (get_backend_failure_is_raised H "users" unprintable Example.use_cache
             initial_world (extend initial_world [RedisGet "users:u1"]) w2
             (JBool true) JUndefined (Some "users:u1") failing timeout);
      try reflexivity.
    right. split; [reflexivity|]. exists JNull. split; reflexivity.
Defined.

(** X5.  A failure of the backend write reaches the caller of [set] as it is,
    after a line on the console, and the Cache Store is left untouched. *)
Theorem set_backend_failure_leaves_cache
  (H : Host) (collection : string) (keyOrQuery data : JSValue) (w w1 : World)
  (db : Backend) (e : JsError) :
  FnDatabaseAdapter.resolve H w = (Normal db, w1) ->
  b_set db (trace w1) collection (set_arguments H keyOrQuery data) = Throw e ->
  FnDatabaseAdapter.set H collection keyOrQuery data w
  = (Throw e,
     extend w1 [DbSet collection (set_arguments H keyOrQuery data);
                ConsoleError "Error setting document:"])
  /\ cache_calls (snd (FnDatabaseAdapter.set H collection keyOrQuery data w))
     = cache_calls w.
Proof.
  intros Hres Hset.
  assert (Heq : FnDatabaseAdapter.set H collection keyOrQuery data w
                = (Throw e,
                   extend w1 [DbSet collection (set_arguments H keyOrQuery data);
                              ConsoleError "Error setting document:"])).
  { unfold FnDatabaseAdapter.set, set_arguments in *.
    unfold try_catch, bind. rewrite Hres.
    destruct (FnDatabaseAdapter.DATABASE_TYPE H =? "dynamodb")%string;
      unfold call; rewrite Hset;
      unfold console_error, emit, throw; f_equal; same_world. }
  rewrite Heq. split; [reflexivity|].
  destruct (leaves_cache_alone_resolve H w) as (log & Htr & Hlog).
  rewrite Hres in Htr. simpl in Htr.
  unfold cache_calls, extend. simpl. rewrite Htr, !filter_app. simpl.
  rewrite (filter_footprint is_cache_event log Hlog). now rewrite !app_nil_r.
Qed.

Lemma set_backend_failure_leaves_cache_witness :
  let denied := mkError (EHost "PermissionDenied") "missing permissions" in
  let failing := {| b_get := b_get Example.backend;
                    b_set := fun _ _ _ => Throw denied;
                    b_fetch := b_fetch Example.backend |} in
  let H := {| process_env := fun _ => None;
              client_get := fun _ _ => Normal None;
              client_set := fun _ _ _ _ => Normal tt;
              JSON_parse := JSON_parse (Example.host None (Normal None) (Normal tt));
              JSON_stringify :=
                JSON_stringify (Example.host None (Normal None) (Normal tt));
              module_eval := fun _ _ => Normal failing |} in
  let w1 := {| dbInstance := Some failing;
               moduleMap := [("../database/GCP/FnFirestore.js", Normal failing)];
               trace := [ModuleEval "../database/GCP/FnFirestore.js"] |} in
  FnDatabaseAdapter.set H "users" (JStr "u1") Example.user_u1 initial_world
  = (Throw denied,
     extend w1 [DbSet "users" [JStr "u1"; Example.user_u1];
                ConsoleError "Error setting document:"]).
Proof.
  intros denied failing H w1.
  exact (proj1 (set_backend_failure_leaves_cache H "users" (JStr "u1") Example.user_u1
                  initial_world w1 failing denied eq_refl eq_refl)).
Defined.

(* ------------------------------------------------------------------ *)
(** *** Keys with several fields                                       *)

Lemma length_append (s t : string) :
  String.length (s ++ t)%string = String.length s + String.length t.
Proof. induction s; simpl; auto. Qed.

(** In a list of at least two names, every name is shorter than the names
    joined by commas. *)
Lemma shorter_than_joined (names : list string) (name : string) :
  2 <= List.length names -> In name names ->
  String.length name < String.length (JS.array_to_property_key names).
Proof.
  unfold JS.array_to_property_key.
  assert (Hle : forall l k, In k l ->
                  String.length k <= String.length (String.concat "," l)).
  { induction l as [|x [|y l] IH]; intros k Hin.
    - destruct Hin.
    - destruct Hin as [->|[]]. simpl. lia.
    - change (String.concat "," (x :: y :: l))
        with (x ++ "," ++ String.concat "," (y :: l))%string.
      rewrite !length_append. destruct Hin as [->|Hin]; [lia|].
      specialize (IH k Hin). simpl String.length at 2. lia. }
  destruct names as [|x [|y l]]; simpl List.length; intros Hlen Hin; try lia.
  change (String.concat "," (x :: y :: l))
    with (x ++ "," ++ String.concat "," (y :: l))%string.
  rewrite !length_append. simpl String.length at 3.
  destruct Hin as [->|Hin]; [lia|].
  specialize (Hle (y :: l) name Hin). lia.
Qed.

Lemma lookup_is_own (name : string) (fields : list (string * JSValue)) (v : JSValue) :
  JS.lookup name fields = Some v -> In name (map fst fields).
Proof.
  induction fields as [|[k x] fields IH]; simpl; [discriminate|].
  destruct (String.eqb_spec k name); auto.
Qed.

Lemma joined_names_not_own (fields : list (string * JSValue)) :
  2 <= List.length fields ->
  JS.lookup (JS.array_to_property_key (map fst fields)) fields = None.
Proof.
  intros Hlen.
  destruct (JS.lookup (JS.array_to_property_key (map fst fields)) fields) as [v|] eqn:El;
    [|reflexivity].
  apply lookup_is_own in El.
  apply shorter_than_joined in El; [lia|]. now rewrite length_map.
Qed.

(** X6.  Every key of [get] that is a mapping with two or more fields derives
    the cache key [collection:undefined]: all such keys of a collection share
    one cache entry. *)
Theorem get_cacheKey_of_composite_key_is_undefined
  (collection : string) (fields : list (string * JSValue)) :
  2 <= List.length fields ->
  FnDatabaseAdapter.get_cacheKey collection (JObj fields)
  = Normal (Some (collection ++ ":undefined")%string).
Proof.
  intros Hlen. unfold FnDatabaseAdapter.get_cacheKey. simpl.
  now rewrite (joined_names_not_own fields Hlen).
Qed.

Lemma get_cacheKey_of_composite_key_is_undefined_witness :
  FnDatabaseAdapter.get_cacheKey "orders"
    (JObj [("customer", JStr "c7"); ("order", JNum 12); ("line", JNum 3)])
  = Normal (Some "orders:undefined").
Proof.
  apply (get_cacheKey_of_composite_key_is_undefined "orders"
           [("customer", JStr "c7"); ("order", JNum 12); ("line", JNum 3)]).
  simpl. lia.
Defined.

(* ------------------------------------------------------------------ *)
(** *** Sequences of calls                                             *)

Section LoadedOnce.
Context (H : Host).

Lemma loaded_once_extend (w : World) (e : Event) :
  is_ModuleEval e = false -> loaded_once H w -> loaded_once H (extend w [e]).
Proof.
  intros He [(Hmap & Hn & Hdb)|(sp & r & Hsp & Hmap & Hn & Hdb)].
  - left. unfold constructions in *. simpl. rewrite count_after, He, Hn. auto.
  - right. exists sp, r. unfold constructions in *. simpl.
    rewrite count_after, He, Hn. auto.
Qed.

Lemma keeps_loaded_once_allows (e : Event) :
  is_ModuleEval e = false -> allows (keeps_loaded_once H) e.
Proof.
  intros He w Hinv. split; [now apply loaded_once_extend|].
  intros b Hb. unfold constructions. simpl. rewrite count_after, He.
  split; [exact Hb|lia].
Qed.

Lemma keeps_loaded_once_stepwise : Stepwise (keeps_loaded_once H).
Proof.
  split.
  - intros w Hinv. auto.
  - intros a b c Hab Hbc Ha.
    destruct (Hab Ha) as [Hb Hkeep]. destruct (Hbc Hb) as [Hc Hkeep'].
    split; [exact Hc|]. intros x Hx.
    destruct (Hkeep x Hx) as [Hbx Hn]. destruct (Hkeep' x Hbx) as [Hcx Hn'].
    split; congruence.
  - intros message. now apply keeps_loaded_once_allows.
  - intros message. now apply keeps_loaded_once_allows.
Qed.

(** Resolving the backend loads the configured module if nothing is
    loaded yet, and nothing otherwise. *)
Lemma keeps_loaded_once_resolve :
  respects (keeps_loaded_once H) (FnDatabaseAdapter.resolve H).
Proof.
  intros w Hinv.
  unfold FnDatabaseAdapter.resolve, FnDatabaseAdapter.initialize,
    FnDatabaseAdapter.initialize_begin, FnDatabaseAdapter.initialize_resume,
    FnDatabaseAdapter.initialize_catch, FnDatabaseAdapter.read_dbInstance,
    FnDatabaseAdapter.set_dbInstance, FnDatabaseAdapter.host_load,
    try_catch, bind, lift, throw, console_error, emit.
  destruct w as [db map history].
  destruct Hinv as [(Hmap & Hn & Hdb)|(sp & r & Hsp & Hmap & Hn & Hdb)];
    unfold loaded_once, constructions in *; simpl in *; subst.
  - destruct (FnDatabaseAdapter.serviceModule_specifier H) as [sp|error] eqn:Esp; simpl.
    + destruct (module_eval H history sp) as [b|e] eqn:Em; simpl.
      * split; [|discriminate]. right. exists sp, (Normal b).
        unfold constructions in *. simpl. rewrite count_after, Hn. simpl.
        repeat split; auto. intros b' Hb'. now inv Hb'.
      * split; [|discriminate]. right. exists sp, (Throw e).
        unfold constructions in *. simpl. rewrite !count_after, Hn. simpl.
        repeat split; auto. discriminate.
    + split; [|discriminate]. left.
      unfold constructions in *. simpl. rewrite count_after, Hn. auto.
  - destruct db as [b|]; simpl.
    + split; [|auto]. right. exists sp, r. auto.
    + rewrite Hsp. simpl. rewrite String.eqb_refl.
      destruct r as [b|e]; simpl.
      * split; [|discriminate]. right. exists sp, (Normal b). simpl.
        repeat split; auto. intros b' Hb'. now inv Hb'.
      * split; [|discriminate]. right. exists sp, (Throw e).
        unfold constructions in *. simpl. rewrite count_after, Hn. simpl.
        repeat split; auto.
Qed.

Lemma serve_keeps_loaded_once (r : Request) (w : World) :
  keeps_loaded_once H w (serve H r w).
Proof.
  destruct r; simpl.
  - apply (respects_get _ keeps_loaded_once_stepwise H keeps_loaded_once_resolve);
      intros; now apply keeps_loaded_once_allows.
  - apply (respects_set _ keeps_loaded_once_stepwise H keeps_loaded_once_resolve);
      intros; now apply keeps_loaded_once_allows.
  - apply (respects_fetch _ keeps_loaded_once_stepwise H keeps_loaded_once_resolve);
      intros; now apply keeps_loaded_once_allows.
Qed.

Lemma serve_all_loaded_once (requests : list Request) (w : World) :
  loaded_once H w -> loaded_once H (serve_all H requests w).
Proof.
  revert w. induction requests as [|r requests IH]; intros w Hinv; simpl; auto.
  apply IH. now apply serve_keeps_loaded_once.
Qed.

End LoadedOnce.

(** X7.  Whatever sequence of [get], [set] and [fetch] calls a fresh adapter
    serves, one after the other, at most one backend module is ever loaded;
    and once the adapter holds a backend, every further call keeps that same
    backend and loads nothing. *)
Theorem facade_calls_load_at_most_once (H : Host) (requests : list Request) :
  let w := serve_all H requests initial_world in
  constructions w <= 1
  /\ (forall b r, dbInstance w = Some b ->
                 dbInstance (serve H r w) = Some b
                 /\ constructions (serve H r w) = 1).
Proof.
  intros w.
  assert (Hinv : loaded_once H w).
  { apply serve_all_loaded_once. left. auto. }
  split.
  - destruct Hinv as [(_ & Hn & _)|(sp & r & _ & _ & Hn & _)]; lia.
  - intros b r Hb.
    destruct (serve_keeps_loaded_once H r w Hinv) as [_ Hkeep].
    destruct (Hkeep b Hb) as [Hdb Hn]. split; [exact Hdb|].
    rewrite Hn.
    destruct Hinv as [(_ & _ & Hnone)|(sp & s & _ & _ & Hone & _)]; [congruence|exact Hone].
Qed.

Lemma facade_calls_load_at_most_once_witness :
  let H := Example.host None (Normal None) (Normal tt) in
  let requests := [GetRequest "users" (JStr "u1") Example.use_cache;
                   SetRequest "users" (JStr "u1") Example.user_u1;
                   FetchRequest "users" JUndefined] in
  constructions (serve_all H requests initial_world) <= 1
  /\ dbInstance (serve H (GetRequest "users" (JStr "u2") JUndefined)
                  (serve_all H requests initial_world))
     = Some Example.backend
  /\ constructions (serve H (GetRequest "users" (JStr "u2") JUndefined)
                      (serve_all H requests initial_world)) = 1.
Proof.
  intros H requests.
  destruct (facade_calls_load_at_most_once H requests) as [Hle Hkeep].
  split; [exact Hle|].
  exact (Hkeep Example.backend (GetRequest "users" (JStr "u2") JUndefined) eq_refl).
Defined.

(* ------------------------------------------------------------------ *)
(** *** Reading back what was written                                  *)

Lemma stored_after (key : string) (history : list Event) (e : Event) :
  stored key (history ++ [e])
  = match e with
    | RedisSet k payload _ => if (k =? key)%string then payload else stored key history
    | _ => stored key history
    end.
Proof. unfold stored. rewrite fold_left_app. reflexivity. Qed.

Lemma stored_refreshed
  (w : World) (key : string) (payload : option string) (ex : option JSValue)
  (before : Event) (said said' : string) :
  stored key (trace (extend w [before; RedisSet key payload ex;
                               ConsoleLog said; ConsoleLog said']))
  = payload.
Proof.
  unfold extend. cbn [trace].
  change [before; RedisSet key payload ex; ConsoleLog said; ConsoleLog said']
    with ([before; RedisSet key payload ex; ConsoleLog said] ++ [ConsoleLog said']).
  rewrite app_assoc, stored_after.
  change [before; RedisSet key payload ex; ConsoleLog said]
    with ([before; RedisSet key payload ex] ++ [ConsoleLog said]).
  rewrite app_assoc, stored_after.
  change [before; RedisSet key payload ex]
    with ([before] ++ [RedisSet key payload ex]).
  rewrite app_assoc, stored_after.
  now rewrite String.eqb_refl.
Qed.

Lemma set_returns_refreshed
  (H : Host) (collection : string) (keyOrQuery data : JSValue) (w w1 : World)
  (db : Backend) (updatedDoc : JSValue) (ck : string) (done : unit) :
  FnDatabaseAdapter.resolve H w = (Normal db, w1) ->
  b_set db (trace w1) collection (set_arguments H keyOrQuery data) = Normal updatedDoc ->
  set_derived_cacheKey H collection keyOrQuery data updatedDoc = Normal (Some ck) ->
  client_set H (trace w1 ++ [DbSet collection (set_arguments H keyOrQuery data)]) ck
    (JSON_stringify H updatedDoc)
    (Some (JNum (FnDatabaseAdapter.DEFAULT_CACHE_EXPIRY H))) = Normal done ->
  FnDatabaseAdapter.set H collection keyOrQuery data w
  = (Normal updatedDoc,
     extend w1
       [DbSet collection (set_arguments H keyOrQuery data);
        refresh H ck updatedDoc;
        ConsoleLog ("Key " ++ String (ascii_of_nat 34) ck ++
                    String (ascii_of_nat 34) " successfully set in Redis Cluster.")%string;
        ConsoleLog ("Updated cache for key: " ++ ck ++ " (expires in " ++
                    JS.number_to_string (FnDatabaseAdapter.DEFAULT_CACHE_EXPIRY H)
                    ++ "s)")%string]).
Proof.
  intros Hres Hset Hkey Hack.
  pose proof (set_derived_cacheKey_truthy H collection keyOrQuery data updatedDoc ck Hkey)
    as Htruthy.
  pose proof (DEFAULT_CACHE_EXPIRY_truthy H) as Httl.
  unfold FnDatabaseAdapter.set, set_arguments, set_derived_cacheKey, refresh in *.
  unfold try_catch, bind. rewrite Hres.
  destruct (FnDatabaseAdapter.DATABASE_TYPE H =? "dynamodb")%string;
    unfold call, lift, ret; rewrite Hset, Hkey, Htruthy;
    unfold FnRedisService.set, FnRedisService.connect, try_catch, bind, ret, call,
      console_log, console_error, emit, throw, FnDatabaseAdapter.cacheKey_text;
    rewrite Httl; unfold extend; simpl trace; rewrite Hack;
    f_equal; same_world.
Qed.

(** X8.  Read your writes through the cache, for a document that survives
    JSON.  When [set] has written under a string key and the backend has
    returned a truthy document whose JSON text is not empty and reads back
    as the same document, when the cache key [set] derives is
    [collection:key] and the refresh there succeeds, and when the cluster
    client still holds what was last set, then a [get] of that key with
    [useCache] returns the document [set] returned, from the cache: the
    backend is not read. *)
Theorem get_after_set_is_served_from_cache
  (H : Host) (collection k : string) (data options : JSValue) (w w1 : World)
  (db : Backend) (updatedDoc useCache : JSValue) (payload : string) (done : unit) :
  remembers H ->
  FnDatabaseAdapter.resolve H w = (Normal db, w1) ->
  b_set db (trace w1) collection (set_arguments H (JStr k) data) = Normal updatedDoc ->
  set_derived_cacheKey H collection (JStr k) data updatedDoc
  = Normal (Some (collection ++ ":" ++ k)%string) ->
  client_set H (trace w1 ++ [DbSet collection (set_arguments H (JStr k) data)])
    (collection ++ ":" ++ k)%string (JSON_stringify H updatedDoc)
    (Some (JNum (FnDatabaseAdapter.DEFAULT_CACHE_EXPIRY H))) = Normal done ->
  JSON_stringify H updatedDoc = Some payload ->
  JS.truthy_str payload = true ->
  JSON_parse H payload = Normal updatedDoc ->
  JS.truthy updatedDoc = true ->
  JS.get_prop (FnDatabaseAdapter.options_or_default H options) "useCache"
  = Normal useCache ->
  JS.truthy useCache = true ->
  let written := FnDatabaseAdapter.set H collection (JStr k) data w in
  let read := FnDatabaseAdapter.get H collection (JStr k) options (snd written) in
  fst written = Normal updatedDoc
  /\ fst read = Normal updatedDoc
  /\ backend_calls (snd read) = backend_calls (snd written).
Proof.
  intros Hmem Hres Hset Hkey Hack Hjson Hnonempty Hparse Hdoc Hu Ht written read.
  subst written read.
  rewrite (set_returns_refreshed H collection (JStr k) data w w1 db updatedDoc _ done
             Hres Hset Hkey Hack).
  cbn [fst snd]. split; [reflexivity|].
  set (w' := extend w1 _).
  assert (Hget : FnRedisService.get H (collection ++ ":" ++ k)%string w'
                 = (Normal updatedDoc,
                    extend w' [RedisGet (collection ++ ":" ++ k)%string])).
  { unfold FnRedisService.get, FnRedisService.connect, try_catch, bind, ret, call.
    rewrite Hmem. subst w'. unfold refresh. rewrite stored_refreshed.
    rewrite Hjson, Hnonempty. unfold lift. rewrite Hparse.
    reflexivity. }
  rewrite (get_returns_cached H collection (JStr k) options w'
             (extend w' [RedisGet (collection ++ ":" ++ k)%string])
             useCache updatedDoc (collection ++ ":" ++ k)%string
             Hu Ht eq_refl Hget Hdoc).
  cbn [fst snd]. split; [reflexivity|].
  subst w'. unfold backend_calls, extend. cbn [trace].
  rewrite !filter_app. simpl. now rewrite !app_nil_r.
Qed.

Lemma get_after_set_is_served_from_cache_witness :
  let H := remembering_host in
  let written := FnDatabaseAdapter.set H "users" (JStr "u1") Example.user_u1
                   initial_world in
  let read := FnDatabaseAdapter.get H "users" (JStr "u1") Example.use_cache
                (snd written) in
  fst written = Normal Example.user_u1
  /\ fst read = Normal Example.user_u1
  /\ backend_calls (snd read) = backend_calls (snd written).
Proof.
  intros H.
  apply (get_after_set_is_served_from_cache H "users" "u1" Example.user_u1
           Example.use_cache initial_world
           (snd (FnDatabaseAdapter.resolve H initial_world))
           Example.backend Example.user_u1 (JBool true) "{...}" tt).
  - intros history key. reflexivity.
  - reflexivity.
  - reflexivity.
  - reflexivity.
  - reflexivity.
  - reflexivity.
  - reflexivity.
  - reflexivity.
  - reflexivity.
  - reflexivity.
  - reflexivity.
Defined.

(* ------------------------------------------------------------------ *)
(** *** The configured expiry                                          *)

Lemma digits_stop (rest : string) (acc : option Z) :
  ends_number rest -> Config.digits rest acc = acc.
Proof. destruct rest as [|c rest]; simpl; [reflexivity|]. now intros ->. Qed.

Ltac read_digit :=
  cbn [Config.digits Pos.of_uint_acc Pos.of_uint];
  match goal with
  | |- context [Config.digit_value ?c] =>
      let v := eval vm_compute in (Config.digit_value c) in
      change (Config.digit_value c) with v
  end;
  cbv iota.

Lemma digits_from_positive (d : Decimal.uint) (rest : string) (a : positive) :
  ends_number rest ->
  Config.digits (NilEmpty.string_of_uint d ++ rest)%string (Some (Z.pos a))
  = Some (Z.pos (Pos.of_uint_acc d a)).
Proof.
  intros Hrest. revert a.
  induction d; intros a; cbn [NilEmpty.string_of_uint String.append];
    [now apply digits_stop| ..];
    read_digit;
    match goal with
    | |- Config.digits _ (Some ?z) = Some (Z.pos (Pos.of_uint_acc _ ?q)) =>
        replace z with (Z.pos q) by lia
    end; apply IHd.
Qed.

Lemma digits_from_zero (d : Decimal.uint) (rest : string) :
  ends_number rest ->
  Config.digits (NilEmpty.string_of_uint d ++ rest)%string (Some 0%Z)
  = Some (Z.of_N (Pos.of_uint d)).
Proof.
  intros Hrest.
  induction d; cbn [NilEmpty.string_of_uint String.append Pos.of_uint];
    [now apply digits_stop| ..];
    read_digit;
    [exact IHd| ..];
    cbn [Z.of_N];
    match goal with
    | |- Config.digits _ (Some ?z) = Some (Z.pos (Pos.of_uint_acc _ ?q)) =>
        replace z with (Z.pos q) by lia
    end; now apply digits_from_positive.
Qed.

Lemma to_uint_not_Nil (p : positive) : Pos.to_uint p <> Decimal.Nil.
Proof.
  intros Hnil. pose proof (Unsigned.of_to p) as Hp. rewrite Hnil in Hp. discriminate.
Qed.

Lemma parseInt_unsigned (d : Decimal.uint) (rest : string) :
  d <> Decimal.Nil ->
  ends_number rest ->
  Config.parseInt (NilEmpty.string_of_uint d ++ rest)%string
  = Some (Z.of_N (Pos.of_uint d))
  /\ Config.digits (NilEmpty.string_of_uint d ++ rest)%string None
     = Some (Z.of_N (Pos.of_uint d)).
Proof.
  intros Hd Hrest.
  pose proof (digits_from_zero d rest Hrest) as Hz.
  destruct d; [congruence| ..]; split; exact Hz.
Qed.

Lemma parseInt_number_to_string (n : Z) (rest : string) :
  ends_number rest ->
  Config.parseInt (JS.number_to_string n ++ rest)%string = Some n.
Proof.
  intros Hrest. unfold JS.number_to_string.
  destruct n as [|p|p]; cbn [Z.to_int NilZero.string_of_int].
  - change (Config.parseInt (String "0" rest) = Some 0%Z).
    refine (proj1 (parseInt_unsigned (Decimal.D0 Decimal.Nil) rest _ Hrest)).
    discriminate.
  - pose proof (to_uint_not_Nil p) as Hp.
    replace (NilZero.string_of_uint (Pos.to_uint p))
      with (NilEmpty.string_of_uint (Pos.to_uint p))
      by (destruct (Pos.to_uint p); [congruence|reflexivity ..]).
    destruct (parseInt_unsigned _ rest Hp Hrest) as [-> _].
    now rewrite Unsigned.of_to.
  - pose proof (to_uint_not_Nil p) as Hp.
    replace (NilZero.string_of_uint (Pos.to_uint p))
      with (NilEmpty.string_of_uint (Pos.to_uint p))
      by (destruct (Pos.to_uint p); [congruence|reflexivity ..]).
    destruct (parseInt_unsigned _ rest Hp Hrest) as [_ Hdigits].
    cbn [String.append]. unfold Config.parseInt. cbn [Config.trim_start].
    change (Config.is_white_space "-") with false. cbv iota.
    rewrite Hdigits, Unsigned.of_to. reflexivity.
Qed.

(** X9.  The configured expiry is the integer the environment variable begins
    with: when [DEFAULT_CACHE_EXPIRY] is the decimal text of [n], followed by
    nothing or by text that does not begin with a digit, the exported value
    is [n], negative values included, except that 0 gives 3600. *)
Theorem DEFAULT_CACHE_EXPIRY_is_leading_integer
  (env : string -> option string) (n : Z) (rest : string) :
  (Z.abs n <= MAX_SAFE_INTEGER)%Z ->
  ends_number rest ->
  env "DEFAULT_CACHE_EXPIRY" = Some (JS.number_to_string n ++ rest)%string ->
  Config.DEFAULT_CACHE_EXPIRY env = (if (n =? 0)%Z then 3600 else n)%Z.
Proof.
  intros _ Hrest Henv. unfold Config.DEFAULT_CACHE_EXPIRY.
  now rewrite Henv, (parseInt_number_to_string n rest Hrest).
Qed.

Lemma DEFAULT_CACHE_EXPIRY_is_leading_integer_witness :
  Config.DEFAULT_CACHE_EXPIRY
    (fun name => if (name =? "DEFAULT_CACHE_EXPIRY")%string then Some "-60s" else None)
  = (-60)%Z.
Proof.
  apply (DEFAULT_CACHE_EXPIRY_is_leading_integer
           (fun name => if (name =? "DEFAULT_CACHE_EXPIRY")%string
                        then Some "-60s" else None)
           (-60)%Z "s").
  - unfold MAX_SAFE_INTEGER. simpl. lia.
  - reflexivity.
  - reflexivity.
Defined.

(* ------------------------------------------------------------------ *)
(** *** [fetch] of the cache service                                   *)

Section CacheFetch.
Context (H : Host).

Lemma parse_values_first_failure (values : list (option string)) (s : string)
  (e : JsError) :
  In (Some s) values ->
  JS.truthy_str s = true ->
  JSON_parse H s = Throw e ->
  exists s' e',
    FnRedisService.parse_values H values = Throw e'
    /\ In (Some s') values /\ JSON_parse H s' = Throw e'.
Proof.
  intros Hin Hs He.
  induction values as [|value rest IH]; [destruct Hin|].
  simpl.
  destruct (FnRedisService.parse_value H value) as [v|e0] eqn:Ev.
  - destruct Hin as [->|Hin].
    { simpl in Ev. rewrite Hs, He in Ev. discriminate. }
    destruct (IH Hin) as [s' [e' [Hthrow [Hin' He']]]].
    exists s', e'. simpl. rewrite Hthrow. simpl. repeat split; [now right|exact He'].
  - destruct value as [s0|]; [|discriminate].
    simpl in Ev. destruct (JS.truthy_str s0); [|discriminate].
    exists s0, e0. simpl. repeat split; [now left|exact Ev].
Qed.

Lemma parse_values_documents (values : list (option string)) :
  (forall s, In (Some s) values -> JS.truthy_str s = true ->
             exists v, JSON_parse H s = Normal v) ->
  exists parsed,
    FnRedisService.parse_values H values = Normal parsed
    /\ filter FnRedisService.is_not_null parsed = flat_map (document_in H) values.
Proof.
  induction values as [|value rest IH]; intros Hparses.
  - exists []. split; reflexivity.
  - destruct IH as (parsed & Hparsed & Hkept).
    { intros s Hin. apply Hparses. now right. }
    destruct value as [s|].
    + destruct (JS.truthy_str s) eqn:Hs.
      * destruct (Hparses s (or_introl eq_refl) Hs) as [v Hv].
        exists (v :: parsed). simpl. rewrite Hs, Hv. simpl. rewrite Hparsed. simpl.
        split; [reflexivity|]. rewrite Hkept. now destruct v.
      * exists (JNull :: parsed). simpl. rewrite Hs. simpl. rewrite Hparsed. simpl.
        split; [reflexivity|exact Hkept].
    + exists (JNull :: parsed). simpl. rewrite Hparsed. simpl.
      split; [reflexivity|exact Hkept].
Qed.

Lemma documents_are_not_null (values : list (option string)) :
  Forall (fun v => v <> JNull) (flat_map (document_in H) values).
Proof.
  apply Forall_forall. intros v Hin. apply in_flat_map in Hin.
  destruct Hin as (value & _ & Hv).
  destruct value as [s|]; simpl in Hv; [|destruct Hv].
  destruct (JS.truthy_str s); [|destruct Hv].
  destruct (JSON_parse H s) as [document|]; [|destruct Hv].
  destruct document; simpl in Hv; try contradiction;
    destruct Hv as [<-|Hv]; try contradiction; discriminate.
Qed.

Lemma documents_are_no_more_than_values (values : list (option string)) :
  List.length (flat_map (document_in H) values) <= List.length values.
Proof.
  induction values as [|value rest IH]; simpl; [lia|].
  rewrite length_app.
  assert (List.length (document_in H value) <= 1); [|lia].
  destruct value as [s|]; simpl; [|lia].
  destruct (JS.truthy_str s); [|simpl; lia].
  destruct (JSON_parse H s) as [document|]; [|simpl; lia].
  destruct document; simpl; lia.
Qed.

End CacheFetch.

(** X10.  What [fetch] returns.  When some keys match the pattern and every
    text read for them parses, [fetch] returns the documents the values
    hold, one for each value that holds one, in the order of the values: a
    value that is missing, an empty text or the JSON text [null] leaves no
    entry, so the result holds no [null] and can be shorter than the list of
    values read.  Nothing is written on the console. *)
Theorem fetch_returns_the_values_that_are_not_null
  (H : Host) (K : FnRedisService.KeySpace) (pattern : string) (w : World)
  (keys : list string) (values : list (option string)) :
  FnRedisService.client_keys K (trace w) pattern = Normal keys ->
  keys <> [] ->
  FnRedisService.client_mget K (trace w) keys = Normal values ->
  (forall s, In (Some s) values -> JS.truthy_str s = true ->
             exists v, JSON_parse H s = Normal v) ->
  FnRedisService.fetch H K pattern w = (Normal (flat_map (document_in H) values), w)
  /\ Forall (fun v => v <> JNull) (flat_map (document_in H) values)
  /\ List.length (flat_map (document_in H) values) <= List.length values.
Proof.
  intros Hkeys Hsome Hmget Hall.
  destruct (parse_values_documents H values Hall) as (parsed & Hparsed & Hkept).
  split; [|split].
  - unfold FnRedisService.fetch, FnRedisService.connect, ask,
      try_catch, bind, ret, lift.
    rewrite Hkeys. destruct keys as [|k keys']; [congruence|].
    simpl. now rewrite Hmget, Hparsed, Hkept.
  - apply documents_are_not_null.
  - apply documents_are_no_more_than_values.
Qed.

Lemma fetch_returns_the_values_that_are_not_null_witness :
  let H := Example.host None (Normal None) (Normal tt) in
  let K := {| FnRedisService.client_keys :=
                fun _ _ => Normal ["user:1"; "user:2"; "user:3"; "user:4"];
              FnRedisService.client_mget :=
                fun _ _ => Normal [None; Some "42"; Some EmptyString; Some "42"] |} in
  FnRedisService.fetch H K "user:*" initial_world
  = (Normal [JNum 42; JNum 42], initial_world).
Proof.
  intros H K.
  apply (fetch_returns_the_values_that_are_not_null H K "user:*" initial_world
           ["user:1"; "user:2"; "user:3"; "user:4"]
           [None; Some "42"; Some EmptyString; Some "42"]).
  - reflexivity.
  - discriminate.
  - reflexivity.
  - intros s [Hs|[Hs|[Hs|[Hs|[]]]]] Htruthy; try discriminate;
      injection Hs as <-; try discriminate; now exists (JNum 42).
Defined.

(** X11.  One value that does not parse fails the whole [fetch]: when any of
    the values read is a non-empty string that [JSON.parse] rejects, [fetch]
    returns none of the other documents; it logs one line and throws the
    parse error of such a value. *)
Theorem fetch_fails_on_one_malformed_value
  (H : Host) (K : FnRedisService.KeySpace) (pattern : string) (w : World)
  (keys : list string) (values : list (option string)) (s : string) (e : JsError) :
  FnRedisService.client_keys K (trace w) pattern = Normal keys ->
  keys <> [] ->
  FnRedisService.client_mget K (trace w) keys = Normal values ->
  In (Some s) values ->
  JS.truthy_str s = true ->
  JSON_parse H s = Throw e ->
  exists s' e',
    FnRedisService.fetch H K pattern w
    = (Throw e',
       extend w [ConsoleError ("Error fetching keys with pattern: " ++ pattern)%string])
    /\ In (Some s') values
    /\ JSON_parse H s' = Throw e'.
Proof.
  intros Hkeys Hsome Hmget Hin Hs He.
  destruct (parse_values_first_failure H values s e Hin Hs He)
    as [s' [e' [Hthrow [Hin' He']]]].
  exists s', e'. split; [|split; assumption].
  unfold FnRedisService.fetch, FnRedisService.connect, ask,
    try_catch, bind, ret, lift.
  rewrite Hkeys. destruct keys as [|k keys']; [congruence|].
  simpl. now rewrite Hmget, Hthrow.
Qed.

Lemma fetch_fails_on_one_malformed_value_witness :
  let H := Example.host None (Normal None) (Normal tt) in
  let K := {| FnRedisService.client_keys := fun _ _ => Normal ["user:1"; "user:2"];
              FnRedisService.client_mget := fun _ _ => Normal [Some "42"; Some "{"] |} in
  exists s' e',
    FnRedisService.fetch H K "user:*" initial_world
    = (Throw e', extend initial_world [ConsoleError "Error fetching keys with pattern: user:*"])
    /\ In (Some s') [Some "42"; Some "{"]
    /\ JSON_parse H s' = Throw e'.
Proof.
  intros H K.
  apply (fetch_fails_on_one_malformed_value H K "user:*" initial_world
           ["user:1"; "user:2"] [Some "42"; Some "{"] "{"
           (mkError ESyntaxError "Unexpected token")).
  - reflexivity.
  - discriminate.
  - reflexivity.
  - simpl. tauto.
  - reflexivity.
  - reflexivity.
Defined.

(* ------------------------------------------------------------------ *)
(** *** Object spread                                                  *)

Lemma lookup_replaced (name n : string) (value : JSValue)
  (fields : list (string * JSValue)) :
  JS.lookup n (map (fun kv => if (fst kv =? name)%string then (fst kv, value) else kv)
                 fields)
  = if (name =? n)%string
    then match JS.lookup name fields with Some _ => Some value | None => None end
    else JS.lookup n fields.
Proof.
  induction fields as [|[k v] rest IH]; simpl.
  - now destruct (name =? n)%string.
  - destruct (k =? name)%string eqn:Ek; simpl.
    + apply String.eqb_eq in Ek. subst k.
      destruct (name =? n)%string; [reflexivity|exact IH].
    + destruct (k =? n)%string eqn:En.
      * apply String.eqb_eq in En. subst k.
        rewrite String.eqb_sym in Ek. now rewrite Ek.
      * exact IH.
Qed.

Lemma lookup_inserted (i : nat) (name n : string) (value : JSValue)
  (fields : list (string * JSValue)) :
  JS.lookup name fields = None ->
  JS.lookup n (Spread.insert_index i name value fields)
  = if (name =? n)%string then Some value else JS.lookup n fields.
Proof.
  induction fields as [|[k v] rest IH]; simpl; intros Hnone.
  - reflexivity.
  - destruct (k =? name)%string eqn:Ek; [discriminate|].
    assert (Hhead : JS.lookup n ((name, value) :: (k, v) :: rest)
                    = if (name =? n)%string then Some value
                      else if (k =? n)%string then Some v else JS.lookup n rest)
      by reflexivity.
    destruct (Spread.array_index k) as [j|]; [|exact Hhead].
    destruct (j <? i)%nat; [|exact Hhead].
    simpl. rewrite (IH Hnone).
    destruct (k =? n)%string eqn:En; [|reflexivity].
    apply String.eqb_eq in En. subst k.
    rewrite String.eqb_sym in Ek. now rewrite Ek.
Qed.

Lemma lookup_appended (name n : string) (value : JSValue)
  (fields : list (string * JSValue)) :
  JS.lookup name fields = None ->
  JS.lookup n (fields ++ [(name, value)])
  = if (name =? n)%string then Some value else JS.lookup n fields.
Proof.
  induction fields as [|[k v] rest IH]; simpl; intros Hnone.
  - reflexivity.
  - destruct (k =? name)%string eqn:Ek; [discriminate|].
    rewrite (IH Hnone).
    destruct (k =? n)%string eqn:En; [|reflexivity].
    apply String.eqb_eq in En. subst k.
    rewrite String.eqb_sym in Ek. now rewrite Ek.
Qed.

Lemma lookup_set_field (name n : string) (value : JSValue)
  (fields : list (string * JSValue)) :
  JS.lookup n (Spread.set_field name value fields)
  = if (name =? n)%string then Some value else JS.lookup n fields.
Proof.
  unfold Spread.set_field.
  destruct (JS.lookup name fields) as [old|] eqn:El.
  - now rewrite lookup_replaced, El.
  - destruct (Spread.array_index name) as [i|].
    + now apply lookup_inserted.
    + now apply lookup_appended.
Qed.

Lemma lookup_absent (name : string) (fields : list (string * JSValue)) :
  ~ In name (map fst fields) -> JS.lookup name fields = None.
Proof.
  induction fields as [|[k v] rest IH]; simpl; [reflexivity|].
  intros Hnot. destruct (k =? name)%string eqn:Ek.
  - apply String.eqb_eq in Ek. tauto.
  - apply IH. tauto.
Qed.

Lemma lookup_copied (n : string) (source target : list (string * JSValue)) :
  NoDup (map fst source) ->
  JS.lookup n (fold_left (fun object kv => Spread.set_field (fst kv) (snd kv) object)
                 source target)
  = match JS.lookup n source with
    | Some v => Some v
    | None => JS.lookup n target
    end.
Proof.
  revert target. induction source as [|[k v] rest IH]; intros target Hnodup; simpl.
  - reflexivity.
  - inversion Hnodup as [|? ? Hnot Hrest]; subst.
    rewrite (IH _ Hrest), lookup_set_field.
    destruct (k =? n)%string eqn:Ek; [|reflexivity].
    apply String.eqb_eq in Ek. subst k. now rewrite (lookup_absent n rest Hnot).
Qed.

(* ------------------------------------------------------------------ *)
(** *** The Firestore backend                                          *)

(** X12.  The document [get] of the Firestore backend returns has the fields
    stored in the document, and an [id]: the document's ID, unless the
    document stores a field named [id], whose value then takes its place. *)
Theorem firestore_get_id_is_the_stored_field_if_any
  (F : FnFirestoreService.Firestore) (collection : string) (docId : JSValue)
  (w : World) (snapshot : FnFirestoreService.DocumentSnapshot)
  (fields : list (string * JSValue)) :
  FnFirestoreService.collection_ref F collection = Normal tt ->
  FnFirestoreService.doc_ref F collection docId = Normal tt ->
  FnFirestoreService.doc_get F (trace w) collection docId = Normal snapshot ->
  FnFirestoreService.snapshot_exists snapshot = true ->
  FnFirestoreService.snapshot_data snapshot = JObj fields ->
  NoDup (map fst fields) ->
  exists document,
    FnFirestoreService.get F collection docId w = (Normal (JObj document), w)
    /\ JS.lookup "id" document
       = Some (match JS.lookup "id" fields with
               | Some stored => stored
               | None => JStr (FnFirestoreService.snapshot_id snapshot)
               end)
    /\ forall name, name <> "id" -> JS.lookup name document = JS.lookup name fields.
Proof.
  intros Hc Hd Hget Hexists Hdata Hnodup.
  exists (Spread.spread [("id", JStr (FnFirestoreService.snapshot_id snapshot))]
            (JObj fields)).
  split; [|split].
  - unfold FnFirestoreService.get, FnFirestoreService.document, try_catch, bind,
      lift, ask, ret.
    now rewrite Hc, Hd, Hget, Hexists, Hdata.
  - unfold Spread.spread. simpl Spread.own_properties.
    rewrite (lookup_copied "id" fields _ Hnodup).
    now destruct (JS.lookup "id" fields).
  - intros name Hname. unfold Spread.spread. simpl Spread.own_properties.
    rewrite (lookup_copied name fields _ Hnodup).
    destruct (JS.lookup name fields); [reflexivity|].
    cbn [JS.lookup].
    destruct ("id" =? name)%string eqn:E; [|reflexivity].
    apply String.eqb_eq in E. congruence.
Qed.

Lemma firestore_get_id_is_the_stored_field_if_any_witness :
  exists document,
    FnFirestoreService.get Collaborators.firestore "users" (JStr "u1") initial_world
    = (Normal (JObj document), initial_world)
    /\ JS.lookup "id" document = Some (JStr "legacy-7")
    /\ forall name, name <> "id" ->
                    JS.lookup name document
                    = JS.lookup name [("name", JStr "A"); ("id", JStr "legacy-7")].
Proof.
  apply (firestore_get_id_is_the_stored_field_if_any Collaborators.firestore "users"
           (JStr "u1") initial_world
           {| FnFirestoreService.snapshot_exists := true;
              FnFirestoreService.snapshot_id := "u1";
              FnFirestoreService.snapshot_data :=
                JObj [("name", JStr "A"); ("id", JStr "legacy-7")] |}
           [("name", JStr "A"); ("id", JStr "legacy-7")]).
  - reflexivity.
  - reflexivity.
  - reflexivity.
  - reflexivity.
  - reflexivity.
  - repeat constructor; simpl; intuition discriminate.
Defined.

(** X13.  Through the facade, [fetch] on the Firestore backend fails for every
    [filters] that is an object, a number, a boolean or [null], and when
    [filters] is left out: the facade passes its own default, an empty
    object, so the backend's default, the empty array, never applies, and the
    backend's loop over [filters] throws a TypeError (unless building the
    collection reference has thrown before it). *)
Theorem fetch_on_firestore_fails_without_a_list_of_filters
  (H : Host) (F : FnFirestoreService.Firestore) (collection : string)
  (filters : JSValue) (w w1 : World) :
  FnDatabaseAdapter.resolve H w = (Normal (FnFirestoreService.instance F), w1) ->
  JS.typeof filters <> "string" ->
  FnDatabaseAdapter.fetch H collection filters w
  = (Throw (match FnFirestoreService.collection_ref F collection with
            | Throw error => error
            | Normal _ => FnFirestoreService.not_iterable
            end),
     extend w1 [DbFetch collection (FnDatabaseAdapter.filters_or_default filters)]).
Proof.
  intros Hres Hkind.
  unfold FnDatabaseAdapter.fetch, bind. rewrite Hres.
  unfold call, extend. f_equal.
  unfold FnFirestoreService.instance, b_fetch, observe, FnFirestoreService.fetch,
    try_catch, bind, lift, console_error, emit, throw.
  destruct (FnFirestoreService.collection_ref F collection) as [[]|error];
    [|reflexivity].
  destruct filters; simpl; try reflexivity.
  now destruct Hkind.
Qed.

Lemma fetch_on_firestore_fails_without_a_list_of_filters_witness :
  let H := Collaborators.host "firestore"
             (FnFirestoreService.instance Collaborators.firestore) in
  fst (FnDatabaseAdapter.fetch H "users" JUndefined initial_world)
  = Throw FnFirestoreService.not_iterable.
Proof.
  intros H.
  rewrite (fetch_on_firestore_fails_without_a_list_of_filters H Collaborators.firestore
             "users" JUndefined initial_world
             (snd (FnDatabaseAdapter.resolve H initial_world))).
  - reflexivity.
  - reflexivity.
  - discriminate.
Defined.

(** X14.  Through the facade, [set] on the Firestore backend returns
    [undefined], not the updated document: the backend's [set] has no
    [return].  With a string key the cache entry [collection:key] is then
    rewritten with the serialization of [undefined]. *)
Theorem set_on_firestore_returns_undefined
  (H : Host) (F : FnFirestoreService.Firestore) (collection k : string)
  (data : JSValue) (w w1 : World) (done : unit) :
  (FnDatabaseAdapter.DATABASE_TYPE H =? "dynamodb")%string = false ->
  FnDatabaseAdapter.resolve H w = (Normal (FnFirestoreService.instance F), w1) ->
  FnFirestoreService.collection_ref F collection = Normal tt ->
  FnFirestoreService.doc_ref F collection (JStr k) = Normal tt ->
  FnFirestoreService.doc_set F (trace w1) collection (JStr k) data = Normal tt ->
  client_set H (trace w1 ++ [DbSet collection [JStr k; data]])
    (collection ++ ":" ++ k)%string (JSON_stringify H JUndefined)
    (Some (JNum (FnDatabaseAdapter.DEFAULT_CACHE_EXPIRY H))) = Normal done ->
  let written := FnDatabaseAdapter.set H collection (JStr k) data w in
  fst written = Normal JUndefined
  /\ cache_calls (snd written)
     = cache_calls w1 ++ [refresh H (collection ++ ":" ++ k)%string JUndefined].
Proof.
  intros Htype Hres Hc Hd Hset Hack written. subst written.
  assert (Hargs : set_arguments H (JStr k) data = [JStr k; data])
    by (unfold set_arguments; now rewrite Htype).
  rewrite (set_returns_refreshed H collection (JStr k) data w w1
             (FnFirestoreService.instance F) JUndefined
             (collection ++ ":" ++ k)%string done Hres).
  - cbn [fst snd]. split; [reflexivity|].
    unfold cache_calls, extend. cbn [trace]. rewrite filter_app, Hargs. reflexivity.
  - rewrite Hargs.
    unfold FnFirestoreService.instance, b_set, observe, FnFirestoreService.set,
      argument, try_catch, bind, lift, ask, ret, console_log, emit.
    simpl nth. rewrite Hc, Hd. cbn [trace]. now rewrite Hset.
  - unfold set_derived_cacheKey. now rewrite Htype.
  - now rewrite Hargs.
Qed.

Lemma set_on_firestore_returns_undefined_witness :
  let H := Collaborators.host "firestore"
             (FnFirestoreService.instance Collaborators.firestore) in
  let written := FnDatabaseAdapter.set H "users" (JStr "u1") Example.user_u1
                   initial_world in
  fst written = Normal JUndefined
  /\ cache_calls (snd written)
     = cache_calls (snd (FnDatabaseAdapter.resolve H initial_world))
       ++ [refresh H "users:u1" JUndefined].
Proof.
  intros H.
  apply (set_on_firestore_returns_undefined H Collaborators.firestore "users" "u1"
           Example.user_u1 initial_world
           (snd (FnDatabaseAdapter.resolve H initial_world)) tt).
  - reflexivity.
  - reflexivity.
  - reflexivity.
  - reflexivity.
  - reflexivity.
  - reflexivity.
Defined.

(* ------------------------------------------------------------------ *)
(** *** The DynamoDB backend                                           *)

Lemma same_but_declares (name k : string) (a b : list (string * JSValue)) :
  same_but name a b ->
  (JS.lookup k a = None <-> JS.lookup k b = None).
Proof.
  induction 1 as [|[k1 v1] [k2 v2] a b [Hk _] _ IH]; simpl in *; [tauto|].
  subst k2. destruct (k1 =? k)%string; [split; discriminate|exact IH].
Qed.

Lemma same_but_replaced (name k : string) (v : JSValue) (a b : list (string * JSValue)) :
  same_but name a b ->
  same_but name
    (map (fun kv => if (fst kv =? k)%string then (fst kv, v) else kv) a)
    (map (fun kv => if (fst kv =? k)%string then (fst kv, v) else kv) b).
Proof.
  induction 1 as [|[k1 v1] [k2 v2] a b [Hk Hv] _ IH]; simpl in *; constructor;
    [|exact IH].
  subst k2. destruct (k1 =? k)%string; simpl; auto.
Qed.

Lemma same_but_inserted (name k : string) (i : nat) (v : JSValue)
  (a b : list (string * JSValue)) :
  same_but name a b ->
  same_but name (Spread.insert_index i k v a) (Spread.insert_index i k v b).
Proof.
  induction 1 as [|[k1 v1] [k2 v2] a b [Hk Hv] Hrest IH]; simpl in *.
  - repeat constructor; auto.
  - subst k2.
    assert (Hhead : same_but name ((k, v) :: (k1, v1) :: a) ((k, v) :: (k1, v2) :: b))
      by (repeat constructor; auto).
    destruct (Spread.array_index k1) as [j|]; [|exact Hhead].
    destruct (j <? i)%nat; [|exact Hhead].
    constructor; auto.
Qed.

Lemma same_but_set_field (name k : string) (v : JSValue) (a b : list (string * JSValue)) :
  same_but name a b ->
  same_but name (Spread.set_field k v a) (Spread.set_field k v b).
Proof.
  intros Hab. unfold Spread.set_field.
  pose proof (same_but_declares name k a b Hab) as Hdecl.
  destruct (JS.lookup k a) as [x|], (JS.lookup k b) as [y|];
    try (now apply same_but_replaced);
    try (exfalso; destruct Hdecl as [H1 H2];
         (discriminate (H1 eq_refl) || discriminate (H2 eq_refl))).
  destruct (Spread.array_index k) as [i|].
  - now apply same_but_inserted.
  - apply Forall2_app; [exact Hab|]. repeat constructor; auto.
Qed.

Lemma same_but_undeclared (name : string) (a b : list (string * JSValue)) :
  same_but name a b -> JS.lookup name a = None -> a = b.
Proof.
  induction 1 as [|[k1 v1] [k2 v2] a b [Hk Hv] _ IH]; simpl in *; [reflexivity|].
  subst k2. destruct (String.eqb_spec k1 name) as [|Hne]; [discriminate|].
  intros Hnone. now rewrite (Hv Hne), (IH Hnone).
Qed.

Lemma same_but_set_named (name : string) (v : JSValue) (a b : list (string * JSValue)) :
  same_but name a b ->
  Spread.set_field name v a = Spread.set_field name v b.
Proof.
  intros Hab.
  destruct (JS.lookup name a) as [x|] eqn:Ea.
  - unfold Spread.set_field. rewrite Ea.
    destruct (JS.lookup name b) as [y|] eqn:Eb.
    + clear Ea Eb. induction Hab as [|[k1 v1] [k2 v2] a b [Hk Hv] _ IH]; simpl in *;
        [reflexivity|].
      subst k2. rewrite IH.
      destruct (String.eqb_spec k1 name) as [|Hne]; [reflexivity|].
      now rewrite (Hv Hne).
    + apply (same_but_declares name name a b Hab) in Eb. congruence.
  - now rewrite (same_but_undeclared name a b Hab Ea).
Qed.

Lemma spread_over_named (name : string) (source a b : list (string * JSValue)) :
  In name (map fst source) ->
  same_but name a b ->
  fold_left (fun object kv => Spread.set_field (fst kv) (snd kv) object) source a
  = fold_left (fun object kv => Spread.set_field (fst kv) (snd kv) object) source b.
Proof.
  revert a b. induction source as [|[k v] rest IH]; intros a b Hin Hab; [destruct Hin|].
  simpl. destruct (String.eqb_spec k name) as [->|Hne].
  - now rewrite (same_but_set_named name v a b Hab).
  - destruct Hin as [Hk|Hin]; [simpl in Hk; congruence|].
    apply IH; [exact Hin|]. now apply same_but_set_field.
Qed.

Lemma fetch_params_named (c1 c2 : string) (fields : list (string * JSValue))
  (table : JSValue) :
  JS.lookup "TableName" fields = Some table ->
  FnDynamoDBService.fetch_params c1 (JObj fields)
  = FnDynamoDBService.fetch_params c2 (JObj fields).
Proof.
  intros Htable. unfold FnDynamoDBService.fetch_params, Spread.spread. f_equal.
  apply (spread_over_named "TableName").
  - exact (lookup_is_own _ _ _ Htable).
  - repeat constructor. simpl. congruence.
Qed.

(** X15.  [fetch] of the DynamoDB backend reads the table named in [filters]:
    when [filters] has a property [TableName], the command that is sent
    carries that table, and the collection the caller names plays no part. *)
Theorem dynamodb_fetch_reads_the_table_named_in_filters
  (D : FnDynamoDBService.DocumentClient) (c1 c2 : string)
  (fields : list (string * JSValue)) (table : JSValue) (w : World) :
  JS.lookup "TableName" fields = Some table ->
  NoDup (map fst fields) ->
  FnDynamoDBService.fetch D c1 (JObj fields) w
  = FnDynamoDBService.fetch D c2 (JObj fields) w
  /\ exists params,
       (FnDynamoDBService.fetch_command c1 (JObj fields)
        = Normal (FnDynamoDBService.QueryCommand params)
        \/ FnDynamoDBService.fetch_command c1 (JObj fields)
           = Normal (FnDynamoDBService.ScanCommand params))
       /\ JS.get_prop params "TableName" = Normal table.
Proof.
  intros Htable Hnodup. split.
  - unfold FnDynamoDBService.fetch, FnDynamoDBService.fetch_command.
    cbn [FnDynamoDBService.filters_or_default].
    now rewrite (fetch_params_named c1 c2 fields table Htable).
  - exists (FnDynamoDBService.fetch_params c1 (JObj fields)). split.
    + unfold FnDynamoDBService.fetch_command. cbn [JS.get_prop bindC].
      destruct (JS.truthy _); auto.
    + unfold FnDynamoDBService.fetch_params, Spread.spread. cbn [JS.get_prop].
      cbn [Spread.own_properties].
      now rewrite (lookup_copied "TableName" fields _ Hnodup), Htable.
Qed.

Lemma dynamodb_fetch_reads_the_table_named_in_filters_witness :
  let filters := [("TableName", JStr "secrets"); ("Limit", JNum 10)] in
  FnDynamoDBService.fetch Collaborators.dynamodb "users" (JObj filters) initial_world
  = FnDynamoDBService.fetch Collaborators.dynamodb "orders" (JObj filters) initial_world
  /\ exists params,
       (FnDynamoDBService.fetch_command "users" (JObj filters)
        = Normal (FnDynamoDBService.QueryCommand params)
        \/ FnDynamoDBService.fetch_command "users" (JObj filters)
           = Normal (FnDynamoDBService.ScanCommand params))
       /\ JS.get_prop params "TableName" = Normal (JStr "secrets").
Proof.
  intros filters.
  apply (dynamodb_fetch_reads_the_table_named_in_filters Collaborators.dynamodb
           "users" "orders" filters (JStr "secrets") initial_world).
  - reflexivity.
  - repeat constructor; simpl; intuition discriminate.
Defined.



(* ------------------------------------------------------------------ *)
(** *** The MongoDB backend                                            *)

(** X17.  Through the facade, the MongoDB backend cannot write or list:
    its class defines neither [set] nor [fetch], so every [set] and every
    [fetch] of the facade ends in a TypeError, the one of calling
    [undefined], on either branch of [set] and without a call to the Cache
    Store. *)
Theorem set_and_fetch_on_mongodb_are_not_functions
  (H : Host) (get : list Event -> string -> JSValue -> Completion JSValue)
  (collection : string) (keyOrQuery data filters : JSValue) (w w1 : World) :
  FnDatabaseAdapter.resolve H w = (Normal (FnMongoService.instance get), w1) ->
  (exists error,
     fst (FnDatabaseAdapter.set H collection keyOrQuery data w) = Throw error
     /\ err_name error = ETypeError)
  /\ cache_calls (snd (FnDatabaseAdapter.set H collection keyOrQuery data w))
     = cache_calls w1
  /\ (exists error,
        fst (FnDatabaseAdapter.fetch H collection filters w) = Throw error
        /\ err_name error = ETypeError).
Proof.
  intros Hres. split; [|split].
  - exists (FnMongoService.not_a_function "set"). split; [|reflexivity].
    unfold FnDatabaseAdapter.set, try_catch, bind. rewrite Hres.
    now destruct (FnDatabaseAdapter.DATABASE_TYPE H =? "dynamodb")%string.
  - unfold FnDatabaseAdapter.set, try_catch, bind. rewrite Hres.
    destruct (FnDatabaseAdapter.DATABASE_TYPE H =? "dynamodb")%string;
      unfold cache_calls; simpl; rewrite !filter_app; simpl;
      now rewrite !app_nil_r.
  - exists (FnMongoService.not_a_function "fetch"). split; [|reflexivity].
    unfold FnDatabaseAdapter.fetch, bind. now rewrite Hres.
Qed.

Lemma set_and_fetch_on_mongodb_are_not_functions_witness :
  let H := Collaborators.host "mongodb"
             (FnMongoService.instance (fun _ _ _ => Normal Example.user_u1)) in
  (exists error,
     fst (FnDatabaseAdapter.set H "users" (JStr "u1") Example.user_u1 initial_world)
     = Throw error
     /\ err_name error = ETypeError)
  /\ cache_calls
       (snd (FnDatabaseAdapter.set H "users" (JStr "u1") Example.user_u1 initial_world))
     = cache_calls (snd (FnDatabaseAdapter.resolve H initial_world))
  /\ (exists error,
        fst (FnDatabaseAdapter.fetch H "users" JUndefined initial_world) = Throw error
        /\ err_name error = ETypeError).
Proof.
  intros H.
  apply (set_and_fetch_on_mongodb_are_not_functions H
           (fun _ _ _ => Normal Example.user_u1) "users" (JStr "u1") Example.user_u1
           JUndefined initial_world (snd (FnDatabaseAdapter.resolve H initial_world))).
  reflexivity.
Defined.

(* ------------------------------------------------------------------ *)
(** *** [FnRedis.js]                                                   *)

(** X18.  [getWithKey] and [setWithKey] never reach the cluster.  Each declares
    a [const key] inside its [try] whose initializer reads [key], which at
    that point is the constant itself, not the parameter: the read throws a
    ReferenceError, the [catch] turns it into the answer, and so every call
    with an object for its parameter reports a miss, respectively a failure,
    whatever the cluster holds. *)
Theorem FnRedis_methods_never_reach_the_cluster
  (H : Host) (C : FnRedis.Cluster) (stack : JsError -> JSValue)
  (parameter key : JSValue) (w : World) :
  JS.get_prop parameter "key" = Normal key ->
  let error := mkError EReferenceError "Cannot access 'key' before initialization" in
  FnRedis.getWithKey H C stack parameter w
  = (Normal (JObj [("cache", JStr "MISS");
                   ("error", JObj [("message", JStr (err_message error));
                                   ("stack", stack error)]);
                   ("data", JObj [])]), w)
  /\ FnRedis.setWithKey H stack parameter w
     = (Normal (JObj [("success", JBool false);
                      ("error", JObj [("message", JStr (err_message error));
                                      ("stack", stack error)])]), w).
Proof.
  intros Hkey error.
  destruct (get_prop_total parameter "key" "value" key Hkey) as [value Hvalue].
  unfold FnRedis.getWithKey, FnRedis.setWithKey, bind, lift, try_catch.
  now rewrite Hkey, Hvalue.
Qed.

Lemma FnRedis_methods_never_reach_the_cluster_witness :
  let H := Example.host None (Normal (Some "42")) (Normal tt) in
  let C := {| FnRedis.cluster_exists := fun _ _ => Normal (JNum 1) |} in
  let stack := fun _ : JsError => JStr "ReferenceError" in
  let parameter := JObj [("key", JStr "session"); ("value", JNum 42)] in
  let error := mkError EReferenceError "Cannot access 'key' before initialization" in
  FnRedis.getWithKey H C stack parameter initial_world
  = (Normal (JObj [("cache", JStr "MISS");
                   ("error", JObj [("message", JStr (err_message error));
                                   ("stack", stack error)]);
                   ("data", JObj [])]), initial_world)
  /\ FnRedis.setWithKey H stack parameter initial_world
     = (Normal (JObj [("success", JBool false);
                      ("error", JObj [("message", JStr (err_message error));
                                      ("stack", stack error)])]), initial_world).
Proof.
  intros H C stack parameter.
  apply (FnRedis_methods_never_reach_the_cluster H C stack parameter (JStr "session")
           initial_world).
  reflexivity.
Defined.

(* ------------------------------------------------------------------ *)
(** *** A backend module that fails to load                            *)

Section LoadFailed.
Context (H : Host) (specifier : string) (error : JsError).
Hypothesis configured : FnDatabaseAdapter.serviceModule_specifier H = Normal specifier.
Hypothesis fails : forall history, module_eval H history specifier = Throw error.

Lemma keeps_load_failed_allows (e : Event) : allows (keeps_load_failed specifier error) e.
Proof. intros w Hinv. exact Hinv. Qed.

Lemma keeps_load_failed_stepwise : Stepwise (keeps_load_failed specifier error).
Proof.
  split.
  - intros w Hinv. exact Hinv.
  - intros a b c Hab Hbc Ha. auto.
  - intros message. apply keeps_load_failed_allows.
  - intros message. apply keeps_load_failed_allows.
Qed.

Lemma resolve_load_failed (w : World) :
  load_failed specifier error w ->
  fst (FnDatabaseAdapter.resolve H w) = Throw error
  /\ load_failed specifier error (snd (FnDatabaseAdapter.resolve H w)).
Proof.
  intros [Hdb Hmap].
  unfold FnDatabaseAdapter.resolve, FnDatabaseAdapter.initialize,
    FnDatabaseAdapter.initialize_begin, FnDatabaseAdapter.initialize_resume,
    FnDatabaseAdapter.initialize_catch, FnDatabaseAdapter.read_dbInstance,
    FnDatabaseAdapter.set_dbInstance, FnDatabaseAdapter.host_load,
    try_catch, bind, lift, throw, console_error, emit, load_failed.
  destruct w as [db map history]. simpl in *. subst db.
  rewrite configured.
  destruct Hmap as [->| ->]; simpl.
  - rewrite fails. simpl. auto.
  - rewrite String.eqb_refl. simpl. auto.
Qed.

Lemma keeps_load_failed_resolve :
  respects (keeps_load_failed specifier error) (FnDatabaseAdapter.resolve H).
Proof. intros w Hinv. now apply resolve_load_failed. Qed.

Lemma serve_keeps_load_failed (r : Request) (w : World) :
  keeps_load_failed specifier error w (serve H r w).
Proof.
  destruct r; simpl.
  - apply (respects_get _ keeps_load_failed_stepwise H keeps_load_failed_resolve);
      intros; apply keeps_load_failed_allows.
  - apply (respects_set _ keeps_load_failed_stepwise H keeps_load_failed_resolve);
      intros; apply keeps_load_failed_allows.
  - apply (respects_fetch _ keeps_load_failed_stepwise H keeps_load_failed_resolve);
      intros; apply keeps_load_failed_allows.
Qed.

Lemma serve_all_load_failed (requests : list Request) (w : World) :
  load_failed specifier error w -> load_failed specifier error (serve_all H requests w).
Proof.
  revert w. induction requests as [|r requests IH]; intros w Hinv; simpl; auto.
  apply IH. now apply serve_keeps_load_failed.
Qed.

End LoadFailed.

(** X19.  A backend module that fails to load fails for good.  When the
    configured module throws whenever the host evaluates it, then after any
    sequence of calls to a fresh adapter every [set] and every [fetch] throws
    that very error, and the adapter still holds no backend: the host has
    recorded the failure, and the facade has no way to load the module
    again. *)
Theorem failed_backend_load_is_permanent
  (H : Host) (specifier : string) (error : JsError) (requests : list Request)
  (collection : string) (keyOrQuery data filters : JSValue) :
  FnDatabaseAdapter.serviceModule_specifier H = Normal specifier ->
  (forall history, module_eval H history specifier = Throw error) ->
  let w := serve_all H requests initial_world in
  fst (FnDatabaseAdapter.set H collection keyOrQuery data w) = Throw error
  /\ fst (FnDatabaseAdapter.fetch H collection filters w) = Throw error
  /\ dbInstance w = None
  /\ constructions w <= 1.
Proof.
  intros Hsp Hfails w.
  assert (Hinv : load_failed specifier error w).
  { apply (serve_all_load_failed H specifier error Hsp Hfails).
    split; [reflexivity|now left]. }
  destruct (resolve_load_failed H specifier error Hsp Hfails w Hinv) as [Hres _].
  destruct (FnDatabaseAdapter.resolve H w) as [c w1] eqn:Er. simpl in Hres. subst c.
  repeat split.
  - unfold FnDatabaseAdapter.set, try_catch, bind. now rewrite Er.
  - unfold FnDatabaseAdapter.fetch, bind. now rewrite Er.
  - exact (proj1 Hinv).
  - assert (Honce : loaded_once H w).
    { apply serve_all_loaded_once. left. auto. }
    destruct Honce as [(_ & Hn & _)|(sp & r & _ & _ & Hn & _)]; lia.
Qed.

Lemma failed_backend_load_is_permanent_witness :
  let missing_key := mkError EError "Service account key is missing or invalid." in
  let H := {| process_env := fun _ => None;
              client_get := fun _ _ => Normal None;
              client_set := fun _ _ _ _ => Normal tt;
              JSON_parse := fun _ => Normal JNull;
              JSON_stringify := fun _ => None;
              module_eval := fun _ _ => Throw missing_key |} in
  let w := serve_all H [GetRequest "users" (JStr "u1") Example.use_cache;
                        SetRequest "users" (JStr "u1") Example.user_u1]
             initial_world in
  fst (FnDatabaseAdapter.set H "users" (JStr "u2") Example.user_u1 w) = Throw missing_key
  /\ fst (FnDatabaseAdapter.fetch H "users" JUndefined w) = Throw missing_key
  /\ dbInstance w = None
  /\ constructions w <= 1.
Proof.
  intros missing_key H.
  apply (failed_backend_load_is_permanent H "../database/GCP/FnFirestore.js"
           missing_key
           [GetRequest "users" (JStr "u1") Example.use_cache;
            SetRequest "users" (JStr "u1") Example.user_u1]
           "users" (JStr "u2") Example.user_u1 JUndefined).
  - reflexivity.
  - intros history. reflexivity.
Defined.

(* ------------------------------------------------------------------ *)
(** *** The Stripe services                                            *)

Lemma strict_equal_same (a b : JSValue) : Stripe.strict_equal a b = true -> a = b.
Proof.
  destruct a, b; simpl; try discriminate; intros Heq; try reflexivity.
  - now rewrite (Bool.eqb_prop _ _ Heq).
  - apply Z.eqb_eq in Heq. now subst.
  - apply String.eqb_eq in Heq. now subst.
Qed.

Lemma truthy_has_properties (v : JSValue) (name : string) :
  JS.truthy v = true -> exists x, JS.get_prop v name = Normal x.
Proof.
  destruct v; simpl; try discriminate; intros _; eauto.
  destruct (name =? "length")%string; eauto.
  destruct (JS.index_of_string name); eauto.
Qed.

(** X20.  [getChargeById] hides why it failed: whether the request for the
    charge throws or answers with nothing, the caller gets the same error,
    which names the charge and not the cause; the message of the missing
    charge never leaves the method. *)
Theorem getChargeById_failures_look_alike
  (client : Stripe.Client) (chargeId : JSValue) (log : list Stripe.Call) (id : string) :
  JS.truthy chargeId = true ->
  JS.to_string chargeId = Normal id ->
  (forall charge, Stripe.charges_retrieve client log chargeId = Normal charge ->
                  JS.truthy charge = false) ->
  StripeService.getChargeById client chargeId log
  = (Throw (mkError EError ("Failed to retrieve raw charge for ID " ++ id ++ ".")%string),
     log ++ [Stripe.ChargesRetrieve chargeId;
             Stripe.ConsoleError ("Error retrieving raw charge for ID " ++ id ++ ":")%string]).
Proof.
  intros Hid Htext Hfails.
  unfold StripeService.getChargeById, Stripe.try_catch, Stripe.bind, Stripe.request,
    Stripe.lift, Stripe.say, Stripe.throw, Stripe.ret.
  rewrite Hid. cbn [negb]. cbv beta iota.
  destruct (Stripe.charges_retrieve client log chargeId) as [charge|e] eqn:Er.
  - rewrite (Hfails charge eq_refl). simpl. rewrite Htext.
    now rewrite <- app_assoc.
  - rewrite Htext. now rewrite <- app_assoc.
Qed.

Lemma getChargeById_failures_look_alike_witness :
  let client := {| Stripe.accounts_retrieve := fun _ => Normal JNull;
                   Stripe.charges_list := fun _ _ => Normal [];
                   Stripe.charges_retrieve := fun _ _ => Normal JNull;
                   Stripe.balanceTransactions_retrieve := fun _ _ => Normal JNull;
                   Stripe.customers_retrieve := fun _ _ => Normal JNull |} in
  StripeService.getChargeById client (JStr "ch_1") []
  = (Throw (mkError EError "Failed to retrieve raw charge for ID ch_1."),
     [Stripe.ChargesRetrieve (JStr "ch_1");
      Stripe.ConsoleError "Error retrieving raw charge for ID ch_1:"]).
Proof.
  intros client.
  apply (getChargeById_failures_look_alike client (JStr "ch_1") [] "ch_1").
  - reflexivity.
  - reflexivity.
  - intros charge Hcharge. injection Hcharge as <-. reflexivity.
Defined.

Lemma stripe_bind_returns {A B} (m : Stripe.S A) (k : A -> Stripe.S B)
  (log log' : list Stripe.Call) (b : B) :
  Stripe.bind m k log = (Normal b, log') ->
  exists a log1, m log = (Normal a, log1) /\ k a log1 = (Normal b, log').
Proof.
  unfold Stripe.bind. destruct (m log) as [[a|e] log1]; [eauto|discriminate].
Qed.

Lemma stripe_lift_returns {A} (c : Completion A) (log log' : list Stripe.Call) (a : A) :
  Stripe.lift c log = (Normal a, log') -> c = Normal a /\ log' = log.
Proof. unfold Stripe.lift. intros [= -> ->]. auto. Qed.

Lemma stripe_try_returns {A} (body : Stripe.S A) (handler : JsError -> Stripe.S A)
  (log log' : list Stripe.Call) (a : A) :
  (forall e l x l', handler e l <> (Normal x, l')) ->
  Stripe.try_catch body handler log = (Normal a, log') ->
  body log = (Normal a, log').
Proof.
  intros Hnever. unfold Stripe.try_catch.
  destruct (body log) as [[x|e] l]; [auto|]. intros Hh. now apply Hnever in Hh.
Qed.

Lemma getChargeById_returns (client : Stripe.Client) (chargeId charge : JSValue)
  (log : list Stripe.Call) :
  JS.truthy chargeId = true ->
  Stripe.charges_retrieve client log chargeId = Normal charge ->
  JS.truthy charge = true ->
  StripeService.getChargeById client chargeId log
  = (Normal charge, log ++ [Stripe.ChargesRetrieve chargeId]).
Proof.
  intros Hid Hcharge Htruthy.
  unfold StripeService.getChargeById, Stripe.try_catch, Stripe.bind, Stripe.request,
    Stripe.ret.
  rewrite Hid. cbn [negb]. cbv beta iota. now rewrite Hcharge, Htruthy.
Qed.

Lemma getChargeById_returned (client : Stripe.Client) (chargeId charge : JSValue)
  (log log' : list Stripe.Call) :
  StripeService.getChargeById client chargeId log = (Normal charge, log') ->
  JS.truthy chargeId = true
  /\ Stripe.charges_retrieve client log chargeId = Normal charge
  /\ JS.truthy charge = true
  /\ log' = log ++ [Stripe.ChargesRetrieve chargeId].
Proof.
  unfold StripeService.getChargeById, Stripe.try_catch, Stripe.bind, Stripe.request,
    Stripe.lift, Stripe.say, Stripe.throw, Stripe.ret.
  destruct (JS.truthy chargeId); cbn [negb]; cbv beta iota; [|discriminate].
  destruct (Stripe.charges_retrieve client log chargeId) as [c|e].
  - destruct (JS.truthy c) eqn:Ec; cbn [negb]; cbv beta iota.
    + intros [= -> <-]. auto.
    + destruct (JS.to_string chargeId); discriminate.
  - destruct (JS.to_string chargeId); discriminate.
Qed.

(** X21.  A customer is refused the charge of another.  When the charge that is
    retrieved names no customer, or one that is not the caller's
    [customerId], [getCustomerDetailedTransaction] throws the unauthorized
    error as it is, after one request and one line on the console: the
    details of the charge are not requested. *)
Theorem charge_of_another_customer_is_refused
  (client : Stripe.Client) (toISOString : JSValue -> Completion JSValue)
  (parameter customerId chargeId rawCharge owner : JSValue)
  (log : list Stripe.Call) (customer charge : string) :
  JS.get_prop parameter "customerId" = Normal customerId ->
  JS.get_prop parameter "chargeId" = Normal chargeId ->
  JS.truthy customerId = true ->
  JS.truthy chargeId = true ->
  Stripe.charges_retrieve client log chargeId = Normal rawCharge ->
  JS.truthy rawCharge = true ->
  JS.get_prop rawCharge "customer" = Normal owner ->
  JS.truthy owner = false \/ Stripe.strict_equal owner customerId = false ->
  JS.to_string customerId = Normal customer ->
  JS.to_string chargeId = Normal charge ->
  CustomerStripeService.getCustomerDetailedTransaction client toISOString parameter log
  = (Throw CustomerStripeService.unauthorized,
     log ++ [Stripe.ChargesRetrieve chargeId;
             Stripe.ConsoleError
               ("Error retrieving detailed transaction for customer ID "
                ++ customer ++ ", charge ID " ++ charge ++ ":")%string]).
Proof.
  intros Hc Hk Hct Hkt Hraw Hrt Howner Hother Hcs Hks.
  assert (Hcond : negb (JS.truthy owner) || negb (Stripe.strict_equal owner customerId)
                  = true).
  { destruct Hother as [-> | ->]; [reflexivity|apply orb_true_r]. }
  unfold CustomerStripeService.getCustomerDetailedTransaction.
  unfold Stripe.bind at 1. unfold Stripe.lift at 1. rewrite Hc.
  unfold Stripe.bind at 1. unfold Stripe.lift at 1. rewrite Hk.
  rewrite Hct, Hkt. cbn [negb orb]. cbv beta iota.
  unfold Stripe.try_catch. unfold Stripe.bind at 1.
  rewrite (getChargeById_returns client chargeId rawCharge log Hkt Hraw Hrt).
  unfold Stripe.bind at 1. unfold Stripe.lift at 1. rewrite Howner, Hcond.
  unfold Stripe.throw at 1.
  unfold Stripe.bind, Stripe.lift, Stripe.say, Stripe.throw. rewrite Hcs, Hks.
  change (Stripe.includes (err_message CustomerStripeService.unauthorized) "Unauthorized")
    with true. cbv iota.
  now rewrite <- app_assoc.
Qed.

Lemma charge_of_another_customer_is_refused_witness :
  let charge := JObj [("id", JStr "ch_1"); ("amount", JNum 1200);
                      ("customer", JStr "cus_A")] in
  let client := {| Stripe.accounts_retrieve := fun _ => Normal JNull;
                   Stripe.charges_list := fun _ _ => Normal [];
                   Stripe.charges_retrieve := fun _ _ => Normal charge;
                   Stripe.balanceTransactions_retrieve := fun _ _ => Normal JNull;
                   Stripe.customers_retrieve := fun _ _ => Normal JNull |} in
  CustomerStripeService.getCustomerDetailedTransaction client
    (fun _ => Normal (JStr "2024-01-01T00:00:00.000Z"))
    (JObj [("customerId", JStr "cus_B"); ("chargeId", JStr "ch_1")]) []
  = (Throw CustomerStripeService.unauthorized,
     [Stripe.ChargesRetrieve (JStr "ch_1");
      Stripe.ConsoleError
        "Error retrieving detailed transaction for customer ID cus_B, charge ID ch_1:"]).
Proof.
  intros charge client.
  apply (charge_of_another_customer_is_refused client _
           (JObj [("customerId", JStr "cus_B"); ("chargeId", JStr "ch_1")])
           (JStr "cus_B") (JStr "ch_1") charge (JStr "cus_A") [] "cus_B" "ch_1");
    try reflexivity.
  right. reflexivity.
Defined.

Lemma customer_catch_never_returns (customerId chargeId : JSValue) (e : JsError)
  (l l' : list Stripe.Call) (x : JSValue) :
  Stripe.bind (Stripe.lift (JS.to_string customerId)) (fun customer =>
  Stripe.bind (Stripe.lift (JS.to_string chargeId)) (fun charge =>
  Stripe.bind (Stripe.say (Stripe.ConsoleError
                 ("Error retrieving detailed transaction for customer ID "
                  ++ customer ++ ", charge ID " ++ charge ++ ":")%string)) (fun _ =>
  if Stripe.includes (err_message e) "Unauthorized" then Stripe.throw e
  else Stripe.throw (mkError EError
         ("Failed to retrieve detailed transaction for customer ID "
          ++ customer ++ ", charge ID " ++ charge ++ ".")%string)))) l
  <> (Normal x, l').
Proof.
  unfold Stripe.bind, Stripe.lift, Stripe.say, Stripe.throw.
  destruct (JS.to_string customerId); [|discriminate].
  destruct (JS.to_string chargeId); [|discriminate].
  destruct (Stripe.includes (err_message e) "Unauthorized"); discriminate.
Qed.

(** X22.  Only the owner is given a transaction.  Whenever
    [getCustomerDetailedTransaction] returns, the charge it retrieved first
    names the caller's [customerId] as its customer; and what it returns has
    neither the fee nor the net amount. *)
Theorem customer_transaction_is_returned_to_the_owner_only
  (client : Stripe.Client) (toISOString : JSValue -> Completion JSValue)
  (parameter result : JSValue) (log log' : list Stripe.Call) :
  CustomerStripeService.getCustomerDetailedTransaction client toISOString parameter log
  = (Normal result, log') ->
  exists customerId chargeId rawCharge,
    JS.get_prop parameter "customerId" = Normal customerId
    /\ JS.get_prop parameter "chargeId" = Normal chargeId
    /\ JS.truthy customerId = true
    /\ Stripe.charges_retrieve client log chargeId = Normal rawCharge
    /\ JS.get_prop rawCharge "customer" = Normal customerId
    /\ JS.get_prop result "fee" = Normal JUndefined
    /\ JS.get_prop result "net" = Normal JUndefined.
Proof.
  unfold CustomerStripeService.getCustomerDetailedTransaction. intros Hrun.
  apply stripe_bind_returns in Hrun. destruct Hrun as (customerId & l1 & Hc & Hrun).
  apply stripe_lift_returns in Hc. destruct Hc as [Hc ->].
  apply stripe_bind_returns in Hrun. destruct Hrun as (chargeId & l2 & Hk & Hrun).
  apply stripe_lift_returns in Hk. destruct Hk as [Hk ->].
  destruct (JS.truthy customerId) eqn:Hct; cbn [negb orb] in Hrun; [|discriminate].
  destruct (JS.truthy chargeId) eqn:Hkt; cbn [negb] in Hrun; [|discriminate].
  apply stripe_try_returns in Hrun;
    [|intros e l x l'; apply customer_catch_never_returns].
  apply stripe_bind_returns in Hrun. destruct Hrun as (rawCharge & l3 & Hraw & Hrun).
  apply getChargeById_returned in Hraw. destruct Hraw as (_ & Hraw & _ & ->).
  apply stripe_bind_returns in Hrun. destruct Hrun as (owner & l4 & Ho & Hrun).
  apply stripe_lift_returns in Ho. destruct Ho as [Ho ->].
  destruct (JS.truthy owner) eqn:Hot; cbn [negb orb] in Hrun; [|discriminate].
  destruct (Stripe.strict_equal owner customerId) eqn:Heq; cbn [negb] in Hrun;
    [|discriminate].
  apply strict_equal_same in Heq. subst owner.
  exists customerId, chargeId, rawCharge.
  repeat (split; [assumption|]).
  apply stripe_bind_returns in Hrun. destruct Hrun as (fullTransaction & l5 & _ & Hrun).
  repeat (apply stripe_bind_returns in Hrun;
          destruct Hrun as (? & ? & _ & Hrun)).
  unfold Stripe.ret in Hrun. injection Hrun as <- _. split; reflexivity.
Qed.

Lemma customer_transaction_is_returned_to_the_owner_only_witness :
  let charge := JObj [("id", JStr "ch_1"); ("amount", JNum 1200);
                      ("balance_transaction", JStr "txn_1");
                      ("customer", JStr "cus_A"); ("created", JNum 1700000000)] in
  let client := {| Stripe.accounts_retrieve := fun _ => Normal JNull;
                   Stripe.charges_list := fun _ _ => Normal [];
                   Stripe.charges_retrieve := fun _ _ => Normal charge;
                   Stripe.balanceTransactions_retrieve :=
                     fun _ _ => Normal (JObj [("fee", JNum 65); ("net", JNum 1135)]);
                   Stripe.customers_retrieve :=
                     fun _ _ => Normal (JObj [("name", JStr "Ada")]) |} in
  let toISOString := fun _ : JSValue => Normal (JStr "2023-11-14T22:13:20.000Z") in
  let parameter := JObj [("customerId", JStr "cus_A"); ("chargeId", JStr "ch_1")] in
  let run := CustomerStripeService.getCustomerDetailedTransaction client toISOString
               parameter [] in
  exists result,
    fst run = Normal result
    /\ exists customerId chargeId rawCharge,
         JS.get_prop parameter "customerId" = Normal customerId
         /\ JS.get_prop parameter "chargeId" = Normal chargeId
         /\ JS.truthy customerId = true
         /\ Stripe.charges_retrieve client [] chargeId = Normal rawCharge
         /\ JS.get_prop rawCharge "customer" = Normal customerId
         /\ JS.get_prop result "fee" = Normal JUndefined
         /\ JS.get_prop result "net" = Normal JUndefined.
Proof.
  intros charge client toISOString parameter run.
  exists (JObj [("id", JStr "ch_1"); ("status", JUndefined); ("total", JNum 1200);
                ("currency", JUndefined); ("customerName", JStr "Ada");
                ("invoiceId", JNull); ("receiptUrl", JNull);
                ("description", JUndefined);
                ("created", JStr "2023-11-14T22:13:20.000Z")]).
  split; [reflexivity|].
  apply (customer_transaction_is_returned_to_the_owner_only client toISOString
           parameter _ [] (snd run)).
  reflexivity.
Defined.

(** X23.  A customer whose details cannot be retrieved does not fail the
    transaction: when the request for the charge's customer throws,
    [getDetailedTransaction] still returns the transaction, with the fee and
    the net amount it had determined, and names the customer by the ID with
    the remark that the details are unavailable, after one warning. *)
Theorem detailed_transaction_survives_customer_lookup_failure
  (client : Stripe.Client) (toISOString : JSValue -> Completion JSValue)
  (parameter chargeId charge customer_id created stamp : JSValue)
  (fees : JSValue * JSValue) (e : JsError) (text : string)
  (log log1 log2 : list Stripe.Call) :
  JS.get_prop parameter "chargeId" = Normal chargeId ->
  StripeService.getChargeById client chargeId log = (Normal charge, log1) ->
  StripeService.feeDetails client chargeId charge log1 = (Normal fees, log2) ->
  JS.get_prop charge "customer" = Normal customer_id ->
  JS.truthy customer_id = true ->
  Stripe.customers_retrieve client log2 customer_id = Throw e ->
  JS.to_string customer_id = Normal text ->
  JS.get_prop charge "created" = Normal created ->
  toISOString created = Normal stamp ->
  exists transaction,
    StripeService.getDetailedTransaction client toISOString parameter log
    = (Normal (JObj transaction),
       log2 ++ [Stripe.CustomersRetrieve customer_id;
                Stripe.ConsoleWarn
                  ("Could not retrieve customer details for ID " ++ text ++ ":")%string])
    /\ JS.lookup "customerName" transaction
       = Some (JStr ("Customer ID: " ++ text ++ " (details unavailable)")%string)
    /\ JS.lookup "fee" transaction = Some (fst fees)
    /\ JS.lookup "net" transaction = Some (snd fees).
Proof.
  intros Hk Hcharge Hfees Hcustomer Htruthy Hfails Htext Hcreated Hstamp.
  destruct (getChargeById_returned client chargeId charge log log1 Hcharge)
    as (Hkt & _ & Hct & _).
  destruct (truthy_has_properties charge "invoice" Hct) as [invoice Hinvoice].
  destruct (truthy_has_properties charge "receipt_url" Hct) as [receipt_url Hreceipt].
  destruct (truthy_has_properties charge "id" Hct) as [id Hid].
  destruct (truthy_has_properties charge "status" Hct) as [status Hstatus].
  destruct (truthy_has_properties charge "amount" Hct) as [amount Hamount].
  destruct (truthy_has_properties charge "currency" Hct) as [currency Hcurrency].
  destruct (truthy_has_properties charge "description" Hct)
    as [description Hdescription].
  eexists.
  unfold StripeService.getDetailedTransaction.
  unfold Stripe.bind at 1. unfold Stripe.lift at 1. rewrite Hk, Hkt.
  cbn [negb]. cbv beta iota.
  unfold Stripe.try_catch at 1.
  unfold Stripe.bind at 1. rewrite Hcharge.
  unfold Stripe.bind at 1. rewrite Hfees.
  unfold Stripe.bind at 1.
  assert (Hname : StripeService.customerName client charge log2
                  = (Normal (JStr ("Customer ID: " ++ text ++ " (details unavailable)")%string),
                     log2 ++ [Stripe.CustomersRetrieve customer_id;
                              Stripe.ConsoleWarn
                                ("Could not retrieve customer details for ID "
                                 ++ text ++ ":")%string])).
  { unfold StripeService.customerName.
    unfold Stripe.bind at 1. unfold Stripe.lift at 1. rewrite Hcustomer, Htruthy.
    unfold Stripe.try_catch, Stripe.bind, Stripe.request, Stripe.lift, Stripe.say,
      Stripe.ret.
    rewrite Hfails, Htext. now rewrite <- app_assoc. }
  rewrite Hname.
  unfold Stripe.bind, Stripe.lift, Stripe.ret.
  rewrite Hinvoice, Hreceipt, Hid, Hstatus, Hamount, Hcurrency, Hdescription,
    Hcreated, Hstamp.
  split; [reflexivity|]. repeat split.
Qed.

Lemma detailed_transaction_survives_customer_lookup_failure_witness :
  let charge := JObj [("id", JStr "ch_1"); ("amount", JNum 1200);
                      ("customer", JStr "cus_A"); ("created", JNum 1700000000)] in
  let gone := mkError (EHost "StripeInvalidRequestError") "No such customer: 'cus_A'" in
  let client := {| Stripe.accounts_retrieve := fun _ => Normal JNull;
                   Stripe.charges_list := fun _ _ => Normal [];
                   Stripe.charges_retrieve := fun _ _ => Normal charge;
                   Stripe.balanceTransactions_retrieve := fun _ _ => Normal JNull;
                   Stripe.customers_retrieve := fun _ _ => Throw gone |} in
  let toISOString := fun _ : JSValue => Normal (JStr "2023-11-14T22:13:20.000Z") in
  let log2 := [Stripe.ChargesRetrieve (JStr "ch_1");
               Stripe.ConsoleWarn
                 "No balance_transaction found for charge ch_1. Fee and net breakdown may not be available."] in
  exists transaction,
    StripeService.getDetailedTransaction client toISOString
      (JObj [("chargeId", JStr "ch_1")]) []
    = (Normal (JObj transaction),
       log2 ++ [Stripe.CustomersRetrieve (JStr "cus_A");
                Stripe.ConsoleWarn "Could not retrieve customer details for ID cus_A:"])
    /\ JS.lookup "customerName" transaction
       = Some (JStr "Customer ID: cus_A (details unavailable)")
    /\ JS.lookup "fee" transaction = Some (JNum 0)
    /\ JS.lookup "net" transaction = Some (JNum 1200).
Proof.
  intros charge gone client toISOString log2.
  apply (detailed_transaction_survives_customer_lookup_failure client toISOString
           (JObj [("chargeId", JStr "ch_1")]) (JStr "ch_1") charge (JStr "cus_A")
           (JNum 1700000000) (JStr "2023-11-14T22:13:20.000Z")
           (JNum 0, JNum 1200) gone "cus_A" []
           [Stripe.ChargesRetrieve (JStr "ch_1")] log2);
    reflexivity.
Defined.

(* ------------------------------------------------------------------ *)
(** *** The two Stripe classes                                         *)

Lemma uses_of_an_instance (env : string -> option string) (library : Stripe.Library)
  (us : list Use) (existing : StripeService.Instance) (log : list Stripe.Call) :
  uses env library us (Some existing) log = (repeat existing (List.length us), log).
Proof.
  induction us as [|u rest IH]; [reflexivity|].
  simpl. destruct u; simpl; unfold Stripe.ret; now rewrite IH.
Qed.

Lemma use_without_instance (env : string -> option string) (library : Stripe.Library)
  (u : Use) (log : list Stripe.Call) :
  (exists this log', use env library u None log = (Normal (this, Some this), log'))
  \/ (exists e log', use env library u None log = (Throw e, log')).
Proof.
  assert (Hc : (exists this log', StripeService.constructor env library None log
                                  = (Normal (this, Some this), log'))
               \/ (exists e log', StripeService.constructor env library None log
                                  = (Throw e, log'))).
  { unfold StripeService.constructor, Stripe.bind, Stripe.say, Stripe.request,
      Stripe.ret.
    destruct (StripeService.no_secret env);
      match goal with
      | |- context [Stripe.new_Stripe library ?l ?k] =>
          destruct (Stripe.new_Stripe library l k); eauto
      end. }
  destruct u; exact Hc.
Qed.

(** X24.  [StripeService] is a singleton: in any sequence of [new
    StripeService()] and [StripeService.getInstance()], every instance that
    is handed out is the same one, with the same client, however often the
    construction of the client has failed before. *)
Theorem StripeService_hands_out_one_instance
  (env : string -> option string) (library : Stripe.Library) (us : list Use)
  (log : list Stripe.Call) (i j : StripeService.Instance) :
  In i (fst (uses env library us None log)) ->
  In j (fst (uses env library us None log)) ->
  i = j.
Proof.
  revert log. induction us as [|u rest IH]; intros log; [intros []|].
  simpl.
  destruct (use_without_instance env library u log)
    as [(this & log' & ->)|(e & log' & ->)].
  - rewrite uses_of_an_instance. simpl.
    intros [<-|Hi] [<-|Hj]; try reflexivity.
    + now apply repeat_spec in Hj.
    + now apply repeat_spec in Hi.
    + apply repeat_spec in Hi. apply repeat_spec in Hj. congruence.
  - apply IH.
Qed.

Lemma StripeService_hands_out_one_instance_witness :
  let env := fun _ : string => Some "sk_test" in
  let library := {| Stripe.new_Stripe :=
                      fun history _ =>
                        match history with
                        | [] => Throw (mkError EError "Invalid API version")
                        | _ => Normal tt
                        end |} in
  fst (uses env library [New; GetInstance; New] None [])
  = [{| StripeService.stripeClient := 1 |}; {| StripeService.stripeClient := 1 |}]
  /\ {| StripeService.stripeClient := 1 |} = {| StripeService.stripeClient := 1 |}.
Proof.
  intros env library. split; [reflexivity|].
  apply (StripeService_hands_out_one_instance env library [New; GetInstance; New] []);
    simpl; auto.
Defined.

(** X25.  [customer_account.js] cannot be imported.  Its constructor calls
    [StripeService.getInstance()] on what it imports from [stripeService.js],
    which is an instance of the class, not the class: an instance has no
    such method.  So importing the module never yields the service; when the
    Stripe client can be created, the import throws that TypeError. *)
Theorem customer_account_never_loads
  (env : string -> option string) (library : Stripe.Library) (log : list Stripe.Call) :
  (forall instance log',
     CustomerStripeService.load env library log <> (Normal instance, log'))
  /\ ((forall history,
         Stripe.new_Stripe library history (env "STRIPE_SECRET_KEY") = Normal tt) ->
      fst (CustomerStripeService.load env library log)
      = Throw (mkError ETypeError "StripeService.getInstance is not a function")).
Proof.
  unfold CustomerStripeService.load, StripeService.evaluate, StripeService.getInstance,
    StripeService.constructor, Stripe.bind, Stripe.say, Stripe.request, Stripe.lift,
    Stripe.ret.
  split.
  - intros instance log'.
    destruct (StripeService.no_secret env);
      match goal with
      | |- context [Stripe.new_Stripe library ?l ?k] => destruct (Stripe.new_Stripe library l k)
      end; discriminate.
  - intros Hcreated.
    destruct (StripeService.no_secret env); now rewrite Hcreated.
Qed.

Lemma customer_account_never_loads_witness :
  let env := fun _ : string => Some "sk_test" in
  let library := {| Stripe.new_Stripe := fun _ _ => Normal tt |} in
  fst (CustomerStripeService.load env library [])
  = Throw (mkError ETypeError "StripeService.getInstance is not a function").
Proof.
  intros env library.
  apply (proj2 (customer_account_never_loads env library [])).
  intros history. reflexivity.
Defined.

(* ------------------------------------------------------------------ *)
(** *** What a write leaves in the cache                               *)

Lemma stored_without_sets (key : string) (history log : list Event) :
  Forall leaves_cache_alone log ->
  stored key (history ++ log) = stored key history.
Proof.
  intros Hlog. unfold stored. rewrite fold_left_app.
  generalize (fold_left
                (fun found e =>
                   match e with
                   | RedisSet k payload _ => if (k =? key)%string then payload else found
                   | _ => found
                   end) history None).
  induction Hlog as [|e log He _ IH]; intros found; [reflexivity|].
  simpl. destruct e; try apply IH. discriminate He.
Qed.

Lemma stored_elsewhere (w : World) (key other : string) (payload : option string)
  (ex : option JSValue) (before : Event) (said said' : string) :
  (other =? key)%string = false ->
  leaves_cache_alone before ->
  stored key (trace (extend w [before; RedisSet other payload ex;
                               ConsoleLog said; ConsoleLog said']))
  = stored key (trace w).
Proof.
  intros Hother Hbefore. unfold extend. cbn [trace].
  change [before; RedisSet other payload ex; ConsoleLog said; ConsoleLog said']
    with ([before; RedisSet other payload ex; ConsoleLog said] ++ [ConsoleLog said']).
  rewrite app_assoc, stored_after.
  change [before; RedisSet other payload ex; ConsoleLog said]
    with ([before; RedisSet other payload ex] ++ [ConsoleLog said]).
  rewrite app_assoc, stored_after.
  change [before; RedisSet other payload ex]
    with ([before] ++ [RedisSet other payload ex]).
  rewrite app_assoc, stored_after, Hother.
  apply stored_without_sets. now constructor.
Qed.

Lemma append_differs (prefix a b : string) :
  a <> b -> ((prefix ++ a) =? (prefix ++ b))%string = false.
Proof.
  intros Hab. apply String.eqb_neq. intros Heq. apply Hab.
  induction prefix as [|c prefix IH]; simpl in Heq; [exact Heq|].
  injection Heq as Heq. now apply IH.
Qed.

Lemma cached_value_is_read (H : Host) (key payload : string) (value : JSValue) (w : World) :
  remembers H ->
  stored key (trace w) = Some payload ->
  JS.truthy_str payload = true ->
  JSON_parse H payload = Normal value ->
  FnRedisService.get H key w = (Normal value, extend w [RedisGet key]).
Proof.
  intros Hmem Hstored Hnonempty Hparse.
  unfold FnRedisService.get, FnRedisService.connect, try_catch, bind, ret, call.
  rewrite Hmem, Hstored, Hnonempty. unfold lift. now rewrite Hparse.
Qed.



(** X27.  On the Firestore backend a write empties the entry that reads use.
    Since [set] returns [undefined] there, and [undefined] has no JSON text,
    the cache entry [collection:key] is rewritten with no payload: while the
    cluster holds what was last set, the next lookup of that entry finds
    nothing, so a [get] with [useCache] goes on to the backend. *)
Theorem set_on_firestore_empties_the_cache_entry
  (H : Host) (F : FnFirestoreService.Firestore) (collection k : string)
  (data : JSValue) (w w1 : World) (done : unit) :
  remembers H ->
  JSON_stringify H JUndefined = None ->
  (FnDatabaseAdapter.DATABASE_TYPE H =? "dynamodb")%string = false ->
  FnDatabaseAdapter.resolve H w = (Normal (FnFirestoreService.instance F), w1) ->
  FnFirestoreService.collection_ref F collection = Normal tt ->
  FnFirestoreService.doc_ref F collection (JStr k) = Normal tt ->
  FnFirestoreService.doc_set F (trace w1) collection (JStr k) data = Normal tt ->
  client_set H (trace w1 ++ [DbSet collection [JStr k; data]])
    (collection ++ ":" ++ k)%string None
    (Some (JNum (FnDatabaseAdapter.DEFAULT_CACHE_EXPIRY H))) = Normal done ->
  let written := FnDatabaseAdapter.set H collection (JStr k) data w in
  FnRedisService.get H (collection ++ ":" ++ k)%string (snd written)
  = (Normal JNull, extend (snd written) [RedisGet (collection ++ ":" ++ k)%string]).
Proof.
  intros Hmem Hjson Htype Hres Hc Hd Hset Hack written. subst written.
  assert (Hargs : set_arguments H (JStr k) data = [JStr k; data])
    by (unfold set_arguments; now rewrite Htype).
  rewrite (set_returns_refreshed H collection (JStr k) data w w1
             (FnFirestoreService.instance F) JUndefined
             (collection ++ ":" ++ k)%string done Hres).
  - cbn [snd].
    unfold FnRedisService.get, FnRedisService.connect, try_catch, bind, ret, call.
    rewrite Hmem. unfold refresh. now rewrite stored_refreshed, Hjson.
  - rewrite Hargs.
    unfold FnFirestoreService.instance, b_set, observe, FnFirestoreService.set,
      argument, try_catch, bind, lift, ask, ret, console_log, emit.
    simpl nth. rewrite Hc, Hd. cbn [trace]. now rewrite Hset.
  - unfold set_derived_cacheKey. now rewrite Htype.
  - now rewrite Hargs, Hjson.
Qed.

Lemma set_on_firestore_empties_the_cache_entry_witness :
  let H := Collaborators.remembering_host "firestore"
             (FnFirestoreService.instance Collaborators.firestore) in
  let w := extend initial_world [RedisSet "users:u1" (Some "{...}") None] in
  let written := FnDatabaseAdapter.set H "users" (JStr "u1") Example.user_u1 w in
  FnRedisService.get H "users:u1" w = (Normal Example.user_u1, extend w [RedisGet "users:u1"])
  /\ FnRedisService.get H "users:u1" (snd written)
     = (Normal JNull, extend (snd written) [RedisGet "users:u1"]).
Proof.
  intros H w. split; [reflexivity|].
  apply (set_on_firestore_empties_the_cache_entry H Collaborators.firestore "users" "u1"
           Example.user_u1 w (snd (FnDatabaseAdapter.resolve H w)) tt).
  - intros history key. reflexivity.
  - reflexivity.
  - reflexivity.
  - reflexivity.
  - reflexivity.
  - reflexivity.
  - reflexivity.
  - reflexivity.
Defined.
